(** * Photobooth camera core: device lifecycle, preview supervision, capture chain

    A shallow embedding of the camera services of the photobooth server
    (server/services/camera/** and the camera controllers) together
    with the properties of the capture fallback chain, the preview stream
    supervisor, the reconnection poll and its timer, the request guards
    and the processing of the captured photo.

    JavaScript values are embedded as follows.  A nullable string
    (device path, camera type, camera model) is an [option string];
    [None] is [null]/[undefined], and truthiness is [Js.truthy].  An
    exception or a rejected promise is [Throw]; a promise that never
    settles is [Hang].  Module-level and singleton state is threaded
    explicitly through the [World] record.  External tools (ffmpeg,
    v4l2-ctl) are oracles of the environment [Env]: what a child process
    does is a function of its rank among the children spawned, so that no
    behaviour of ffmpeg is excluded; the answers of v4l2-ctl and the
    listing of /dev are taken to be stable for the time of one operation.

    The event loop is modelled by sequencing.  An [await] is a point of
    the sequence; handlers of a child run when the child's outcome is
    known, before the awaiting caller resumes.  Work that the code starts
    and does not wait for (the specialized stream set-ups, the cleanup
    started by [stopStream]) is recorded as started; the set-ups are
    resumed by an explicit event of the supervisor's state machine. *)

From stdpp Require Import base gmap strings list.
From Stdlib Require Import ZArith Lia Ascii DecimalString.

Local Open Scope Z_scope.

(* ================================================================== *)
(** * Part I : definitions *)
(* ================================================================== *)

(** ** JavaScript string primitives used by the services *)

Module Js.

(** [s.startsWith(p)] *)
Fixpoint startsWith (s p : string) : bool :=
  match p, s with
  | EmptyString, _ => true
  | String a p', String b s' => if Ascii.eqb a b then startsWith s' p' else false
  | String _ _, EmptyString => false
  end.

(** [s.includes(sub)]: case-sensitive substring test *)
Fixpoint includes (s sub : string) : bool :=
  startsWith s sub ||
  match s with
  | EmptyString => false
  | String _ s' => includes s' sub
  end.

Fixpoint drop (n : nat) (s : string) : string :=
  match n, s with
  | O, _ => s
  | S n', String _ s' => drop n' s'
  | S _, EmptyString => EmptyString
  end.

(** [s.replace(pat, rep)] with a string pattern: first occurrence only *)
Fixpoint replace (s pat rep : string) : string :=
  if startsWith s pat then rep +:+ drop (String.length pat) s
  else match s with
       | EmptyString => EmptyString
       | String c s' => String c (replace s' pat rep)
       end.

(** truthiness of a nullable string: [null], [undefined] and [''] are falsy *)
Definition truthy (o : option string) : bool :=
  match o with
  | Some (String _ _) => true
  | _ => false
  end.

(** [a === b] on nullable strings *)
Definition seq (a b : option string) : bool := bool_decide (a = b).

Definition is_space (c : ascii) : bool :=
  let n := nat_of_ascii c in
  (Nat.eqb n 9 || Nat.eqb n 10 || Nat.eqb n 11 || Nat.eqb n 12 ||
   Nat.eqb n 13 || Nat.eqb n 32)%nat.

Fixpoint skip_spaces (s : string) : string :=
  match s with
  | String c s' => if is_space c then skip_spaces s' else s
  | EmptyString => s
  end.

Definition digit_val (radix : Z) (c : ascii) : option Z :=
  let n := Z.of_nat (nat_of_ascii c) in
  let v := if (48 <=? n) && (n <=? 57) then Some (n - 48)
           else if (97 <=? n) && (n <=? 122) then Some (n - 87)
           else if (65 <=? n) && (n <=? 90) then Some (n - 55)
           else None in
  match v with
  | Some d => if d <? radix then Some d else None
  | None => None
  end.

Fixpoint digits (radix : Z) (s : string) (acc : option Z) : option Z :=
  match s with
  | String c s' =>
      match digit_val radix c with
      | Some d => digits radix s'
                    (Some (match acc with Some a => a * radix + d | None => d end))
      | None => acc
      end
  | EmptyString => acc
  end.

(** [parseInt(s)] without radix; [None] is [NaN].  Exact below 2^53, where
    JavaScript numbers are exact integers (device numbers are tiny). *)
Definition parseInt (s : string) : option Z :=
  let s1 := skip_spaces s in
  let '(sign, s2) :=
    match s1 with
    | String c r =>
        if Ascii.eqb c "-" then (-1, r)
        else if Ascii.eqb c "+" then (1, r)
        else (1, s1)
    | EmptyString => (1, s1)
    end in
  let '(radix, s3) :=
    if startsWith s2 "0x" || startsWith s2 "0X" then (16, drop 2 s2)
    else (10, s2) in
  match digits radix s3 None with
  | Some n => Some (sign * n)
  | None => None
  end.

(** string conversion of a number in a template literal *)
Definition numToString (n : option Z) : string :=
  match n with
  | Some z => NilZero.string_of_int (Z.to_int z)
  | None => "NaN"
  end.

(** [n + 1] on a possibly-NaN number *)
Definition succ (n : option Z) : option Z :=
  match n with Some z => Some (z + 1) | None => None end.

End Js.

(** ** Results of effectful code *)

(** Outcome of a JavaScript computation: a value, an exception (or a
    rejected promise), or a promise that is never settled. *)
Inductive Res (A : Type) : Type :=
| Ok (a : A)
| Throw (e : string)
| Hang.
Arguments Ok {A} a.
Arguments Throw {A} e.
Arguments Hang {A}.

(** ** The environment: external tools and the host *)

(** Result of [exec('v4l2-ctl --device=<path> --info')]. *)
Record ExecResult : Type := mkExec {
  exec_error : bool;
  exec_stdout : string
}.

(** What a spawned subprocess does.  [RunThrows]: setting the child up
    throws synchronously ([spawn] throws, or the stdio pipes are missing,
    as when the process is out of file descriptors).  [RunError]: only the
    'error' event fires.  [RunErrorThenClose]: 'error' then 'close'.
    [RunClose code out]: the child exits with [code]; [out] is the content
    it left at its output path, if it wrote the file.  Every child ends:
    the code sets no timeout on a capture and waits for one of these. *)
Inductive RunOutcome : Type :=
| RunThrows
| RunError
| RunErrorThenClose (code : Z)
| RunClose (code : Z) (written : option string).

Record Env : Type := mkEnv {
  platform : string;                 (* process.platform *)
  cwd : string;                      (* process.cwd() *)
  devDir : list string;              (* fs.readdirSync('/dev') *)
  devInfo : string -> ExecResult;    (* v4l2-ctl --device=<path> --info *)
  run : nat -> RunOutcome            (* behaviour of the n-th spawned child *)
}.

(** ** Observable actions *)

(** What a child process was spawned for.  For the standard preview and
    the standard and fallback captures the ffmpeg argument vector is kept;
    the model-specialized helpers choose their device by a per-model
    heuristic that only determines arguments, so their spawns are recorded
    by purpose (and output path). *)
Inductive Purpose : Type :=
| PreviewStandard (args : list string)
| PreviewR6
| Preview5D
| CaptureStandard (args : list string)
| CaptureFallback (args : list string)
| CaptureR6 (out : string)
| Capture5D (out : string).

(** The value held in [mjpegProcess]: a child process, or the promise
    returned by an [async] function. *)
Inductive Handle : Type :=
| HProc (pid : nat)
| HPromise (task : nat).

Inductive Event : Type :=
| EvStartStream (dev type model : option string)   (* streamer.startStream called *)
| EvStopStream                                     (* streamer.stopStream called *)
| EvSleep (ms : Z)                                 (* await setTimeout *)
| EvSpawn (pid : nat) (what : Purpose)             (* child_process.spawn *)
| EvKill (pid : nat) (signal : string)             (* child.kill(signal) *)
| EvDestroyPipes (pid : nat)                       (* stdout/stderr .destroy() *)
| EvReleaseDevices                                 (* releaseDevices() started *)
| EvCopyFile (src dst : string).                   (* fs.copyFileSync *)

(** An asynchronous setup that has been started and not yet finished. *)
Inductive Pending : Type :=
| PendingR6 (dev : string) (type model : option string)
| Pending5D (task : nat).

(** ** The mutable world: file system, processes, stream singleton *)

Record World : Type := mkWorld {
  files : gmap string string;        (* path -> content *)
  nspawn : nat;                      (* children spawned so far *)
  trace : list Event;                (* actions, oldest first *)
  mjpegProcess : option Handle;      (* CameraStreamService.mjpegProcess *)
  mjpegUrl : option string;          (* CameraStreamService.mjpegUrl *)
  watched : list nat;                (* children with the error handlers installed *)
  pending : list Pending;            (* asynchronous stream setups in flight *)
  ntask : nat                        (* promises created so far *)
}.

Definition set_files (f : gmap string string) (w : World) : World :=
  mkWorld f (nspawn w) (trace w) (mjpegProcess w) (mjpegUrl w) (watched w) (pending w) (ntask w).
Definition set_nspawn (n : nat) (w : World) : World :=
  mkWorld (files w) n (trace w) (mjpegProcess w) (mjpegUrl w) (watched w) (pending w) (ntask w).
Definition set_trace (t : list Event) (w : World) : World :=
  mkWorld (files w) (nspawn w) t (mjpegProcess w) (mjpegUrl w) (watched w) (pending w) (ntask w).
Definition set_mjpegProcess (h : option Handle) (w : World) : World :=
  mkWorld (files w) (nspawn w) (trace w) h (mjpegUrl w) (watched w) (pending w) (ntask w).
Definition set_mjpegUrl (u : option string) (w : World) : World :=
  mkWorld (files w) (nspawn w) (trace w) (mjpegProcess w) u (watched w) (pending w) (ntask w).
Definition set_watched (l : list nat) (w : World) : World :=
  mkWorld (files w) (nspawn w) (trace w) (mjpegProcess w) (mjpegUrl w) l (pending w) (ntask w).
Definition set_pending (l : list Pending) (w : World) : World :=
  mkWorld (files w) (nspawn w) (trace w) (mjpegProcess w) (mjpegUrl w) (watched w) l (ntask w).
Definition set_ntask (n : nat) (w : World) : World :=
  mkWorld (files w) (nspawn w) (trace w) (mjpegProcess w) (mjpegUrl w) (watched w) (pending w) n.

(** A freshly started server: nothing spawned, no stream. *)
Definition init_world (fs : gmap string string) : World :=
  mkWorld fs 0%nat [] None None [] [] 0%nat.

(** ** A state-and-exception monad over the world *)

Definition M (A : Type) : Type := World -> Res A * World.

Definition ret {A} (a : A) : M A := fun w => (Ok a, w).

Definition bind {A B} (m : M A) (k : A -> M B) : M B :=
  fun w =>
    match m w with
    | (Ok a, w') => k a w'
    | (Throw e, w') => (Throw e, w')
    | (Hang, w') => (Hang, w')
    end.

Definition throw {A} (e : string) : M A := fun w => (Throw e, w).

(** [try { m } catch (e) { h e }] *)
Definition try_catch {A} (m : M A) (h : string -> M A) : M A :=
  fun w =>
    match m w with
    | (Throw e, w') => h e w'
    | r => r
    end.

Definition get {A} (f : World -> A) : M A := fun w => (Ok (f w), w).
Definition modify (f : World -> World) : M unit := fun w => (Ok tt, f w).
Definition log (ev : Event) : M unit := modify (fun w => set_trace (trace w ++ [ev]) w).
Definition when (b : bool) (m : M unit) : M unit := if b then m else ret tt.

Declare Scope js_scope.
Delimit Scope js_scope with js.
Notation "x <- m ;; k" := (bind m (fun x => k))
  (at level 100, m at next level, k at level 200, right associativity) : js_scope.
Notation "m ;; k" := (bind m (fun _ => k))
  (at level 100, k at level 200, right associativity) : js_scope.
Local Open Scope js_scope.

(** ** Host primitives *)

Definition existsSync (p : string) (w : World) : bool :=
  bool_decide (is_Some (files w !! p)).

(** [fs.copyFileSync(src, dst)]: throws when the source is missing. *)
Definition copyFileSync (src dst : string) : M unit :=
  fun w =>
    match files w !! src with
    | Some c => (Ok tt, set_trace (trace w ++ [EvCopyFile src dst])
                          (set_files (<[dst := c]> (files w)) w))
    | None => (Throw "ENOENT", w)
    end.

(** [spawn('ffmpeg', args)]: allocates the next child and records it; a
    synchronous failure of the setup is an exception. *)
Definition spawn (E : Env) (what : Purpose) : M nat :=
  fun w =>
    let pid := nspawn w in
    let w' := set_trace (trace w ++ [EvSpawn pid what]) (set_nspawn (S pid) w) in
    match run E pid with
    | RunThrows => (Throw "spawn", w')
    | _ => (Ok pid, w')
    end.

(** [child.kill(signal)].  Both callers swallow its exception, so only the
    signal is recorded. *)
Definition kill (pid : nat) (signal : string) : M unit := log (EvKill pid signal).

(** The child writes its output file, if it does. *)
Definition child_writes (out : string) (written : option string) : M unit :=
  match written with
  | Some c => modify (fun w => set_files (<[out := c]> (files w)) w)
  | None => ret tt
  end.

(** [fs.readdirSync('/dev').filter(d => d.startsWith('video'))] *)
Definition videoDevices (E : Env) : list string :=
  filter (fun d => Js.startsWith d "video" = true) (devDir E).

(** [!error && stdout && stdout.includes('Video Capture')] *)
Definition isCaptureInfo (r : ExecResult) : bool :=
  negb (exec_error r) && Js.truthy (Some (exec_stdout r)) &&
  Js.includes (exec_stdout r) "Video Capture".

(** the capture-capable nodes found by scanning /dev *)
Definition captureDevices (E : Env) : list string :=
  filter (fun d => isCaptureInfo (devInfo E d) = true)
         (map (fun d => "/dev/" +:+ d) (videoDevices E)).

(** ** Preview stream supervisor
    (camera-stream.service.js, stream/mjpeg-stream.js, stream/r6-stream.js,
    stream/5d-stream.js, stream/error-handler.js) *)

Module StreamService.

Definition STREAM_URL : string := "/api/camera/mjpeg-stream".

(** The [onStreamEnd] callback the service passes to the error handler:
    it clears the two class properties. *)
Definition onStreamEnd : M unit :=
  modify (fun w => set_mjpegUrl None (set_mjpegProcess None w)).

(** [setupStreamErrorHandling(streamProcess, onStreamEnd)]: installs the
    'data', 'error' and 'close' handlers.  On a value that is not a child
    process, [streamProcess.stderr.on] is a TypeError. *)
Definition setupStreamErrorHandling (streamProcess : option Handle) : M unit :=
  match streamProcess with
  | None => ret tt
  | Some (HProc p) => modify (fun w => set_watched (p :: watched w) w)
  | Some (HPromise _) => throw "TypeError: streamProcess.stderr is undefined"
  end.

(** The stderr 'data' handler installed on child [p]. *)
Definition on_stderr_data (p : nat) (output : string) : M unit :=
  if Js.includes output "No such device" ||
     Js.includes output "Device or resource busy"
  then kill p "SIGTERM" ;; onStreamEnd
  else if Js.includes output "Not a video capture device"
  then kill p "SIGTERM" ;; onStreamEnd
  else ret tt.

(** The 'error' and 'close' handlers installed on child [p]. *)
Definition on_error (p : nat) : M unit := onStreamEnd.
Definition on_close (p : nat) (code : Z) : M unit := onStreamEnd.

(** mjpeg-stream.js *)
Definition isSpecialCanon (dp : string) (cameraType cameraModel : option string) : bool :=
  Js.truthy cameraModel &&
  (Js.includes (default "" cameraModel) "R6 Mark II" ||
   (Js.seq cameraType (Some "canon") && Js.includes dp "/dev/video1")).

Definition mjpegArgs (dp : string) (cameraType cameraModel : option string) : list string :=
  ["-f"; "v4l2"; "-framerate"; "15"; "-video_size"; "640x480"] ++
  (if isSpecialCanon dp cameraType cameraModel then ["-input_format"; "mjpeg"] else []) ++
  ["-i"; dp] ++
  ["-c:v"; "mjpeg"; "-q:v"; "5"; "-f"; "mpjpeg"; "-r"; "15"; "-"].

Definition setupMjpegStream (E : Env) (devicePath cameraType cameraModel : option string)
  : M (option Handle * option string) :=
  try_catch
    (if negb (Js.truthy devicePath) then ret (None, None)
     else
       let dp := default "" devicePath in
       p <- spawn E (PreviewStandard (mjpegArgs dp cameraType cameraModel)) ;;
       setupStreamErrorHandling (Some (HProc p)) ;;
       ret (Some (HProc p), Some STREAM_URL))
    (fun _ => ret (None, None)).

(** camera-stream.service.js *)
Definition isR6 (dp : string) (cameraType cameraModel : option string) : bool :=
  Js.truthy cameraModel &&
  (Js.includes (default "" cameraModel) "R6 Mark II" ||
   Js.includes (default "" cameraModel) "R6" ||
   (Js.seq cameraType (Some "canon") && Js.includes dp "/dev/video1")).

Definition is5D (cameraModel : option string) : bool :=
  Js.truthy cameraModel &&
  (Js.includes (default "" cameraModel) "5D Mark IV" ||
   Js.includes (default "" cameraModel) "5D" ||
   Js.includes (default "" cameraModel) "EOS 5D").

Definition record_stream (r : option Handle * option string) : M unit :=
  modify (fun w => set_mjpegUrl (snd r) (set_mjpegProcess (fst r) w)).

(** the "fall back to standard setup" block, used three times *)
Definition standardSetup (E : Env) (dp : string) (cameraType cameraModel : option string) : M unit :=
  r <- setupMjpegStream E (Some dp) cameraType cameraModel ;;
  record_stream r.

Definition standardSetup_unless_running (E : Env) (dp : string)
    (cameraType cameraModel : option string) : M unit :=
  cur <- get mjpegProcess ;;
  match cur with
  | None => standardSetup E dp cameraType cameraModel
  | Some _ => ret tt
  end.

(** [setupSpecialized5DStream(devicePath)] is an [async] function: the call
    returns a promise at once and the ffmpeg child is spawned later. *)
Definition setupSpecialized5DStream : M Handle :=
  t <- get ntask ;;
  modify (fun w => set_pending (pending w ++ [Pending5D t]) (set_ntask (S t) w)) ;;
  ret (HPromise t).

(** [setupSpecializedR6Stream(devicePath, setupErrorHandling)] up to its
    first suspension: [releaseDevices()] has been started. *)
Definition setupSpecializedR6Stream_start (dp : string) (cameraType cameraModel : option string)
  : M unit :=
  log EvReleaseDevices ;;
  modify (fun w => set_pending (pending w ++ [PendingR6 dp cameraType cameraModel]) w).

Definition startStream (E : Env) (devicePath cameraType cameraModel : option string)
  : M (option Handle * option string) :=
  log (EvStartStream devicePath cameraType cameraModel) ;;
  try_catch
    (cur <- get mjpegProcess ;;
     match cur with
     | Some h => url <- get mjpegUrl ;; ret (Some h, url)
     | None =>
       if negb (Js.truthy devicePath) then ret (None, None)
       else
         let dp := default "" devicePath in
         (if isR6 dp cameraType cameraModel || is5D cameraModel then
            if isR6 dp cameraType cameraModel then
              setupSpecializedR6Stream_start dp cameraType cameraModel
            else if is5D cameraModel then
              try_catch
                (streamResult <- setupSpecialized5DStream ;;
                 modify (set_mjpegProcess (Some streamResult)) ;;
                 modify (set_mjpegUrl (Some STREAM_URL)) ;;
                 h <- get mjpegProcess ;;
                 setupStreamErrorHandling h)
                (fun _ => standardSetup_unless_running E dp cameraType cameraModel)
            else ret tt
          else standardSetup E dp cameraType cameraModel) ;;
         p <- get mjpegProcess ;;
         u <- get mjpegUrl ;;
         ret (p, u)
     end)
    (fun _ => ret (None, None)).

Definition stopStream : M unit :=
  log EvStopStream ;;
  cur <- get mjpegProcess ;;
  (match cur with
   | Some h =>
       (match h with
        | HProc p => kill p "SIGTERM" ;; log (EvDestroyPipes p)
        | HPromise _ => ret tt           (* no [kill] property *)
        end) ;;
       modify (set_mjpegProcess None)
   | None => ret tt
   end) ;;
  modify (set_mjpegUrl None) ;;
  log EvReleaseDevices.

(** The rest of [setupSpecializedR6Stream], after its suspensions. *)
Definition setupSpecializedR6Stream_finish (E : Env) : M (option Handle * option string) :=
  try_catch
    (if bool_decide (captureDevices E = []) then ret (None, None)
     else
       p <- spawn E PreviewR6 ;;
       setupStreamErrorHandling (Some (HProc p)) ;;
       ret (Some (HProc p), Some STREAM_URL))
    (fun _ => ret (None, None)).

(** Completion of an asynchronous setup, with the continuation that
    [startStream] attached to it. *)
Definition finish_pending (E : Env) (t : Pending) : M unit :=
  match t with
  | PendingR6 dp cameraType cameraModel =>
      try_catch
        (result <- setupSpecializedR6Stream_finish E ;;
         cur <- get mjpegProcess ;;
         match fst result, cur with
         | Some _, None => record_stream result
         | _, _ => ret tt
         end)
        (fun _ => standardSetup_unless_running E dp cameraType cameraModel)
  | Pending5D _ =>
      try_catch (_ <- spawn E Preview5D ;; ret tt) (fun _ => ret tt)
  end.

(** What can happen to the supervisor: calls from the rest of the server
    and asynchronous events of the event loop. *)
Inductive StreamEvent : Type :=
| CallStart (dev type model : option string)
| CallStop
| AsyncDone (i : nat)
| ChildStderr (pid : nat) (chunk : string)
| ChildError (pid : nat)
| ChildClose (pid : nat) (code : Z).

Definition if_watched (p : nat) (m : M unit) (w : World) : World :=
  if bool_decide (p ∈ watched w) then snd (m w) else w.

Definition step (E : Env) (ev : StreamEvent) (w : World) : World :=
  match ev with
  | CallStart d t m => snd (startStream E d t m w)
  | CallStop => snd (stopStream w)
  | AsyncDone i =>
      match pending w !! i with
      | Some t => snd (finish_pending E t (set_pending (delete i (pending w)) w))
      | None => w
      end
  | ChildStderr p chunk => if_watched p (on_stderr_data p chunk) w
  | ChildError p => if_watched p (on_error p) w
  | ChildClose p code => if_watched p (on_close p code) w
  end.

Definition steps (E : Env) (evs : list StreamEvent) (w : World) : World :=
  foldl (fun w ev => step E ev w) w evs.


(** [getStreamUrl(cameraConnected, devicePath, cameraType)] *)
Definition getStreamUrl (E : Env) (cameraConnected : bool)
    (devicePath cameraType : option string) (w : World) : option string :=
  if Js.truthy (mjpegUrl w) then mjpegUrl w
  else if cameraConnected && Js.truthy devicePath then Some "/api/camera/mjpeg-stream"
  else if negb (String.eqb (platform E) "linux") && Js.truthy cameraType
       then Some "/api/camera/browser"
  else None.

Definition getMjpegProcess (w : World) : option Handle := mjpegProcess w.

End StreamService.

(** ** Capture methods (capture/*.js) *)

Module Capture.

(** ffmpeg arguments of the standard and of the fallback capture *)
Definition captureArgs (captureDevice localPath : string) : list string :=
  ["-f"; "v4l2"; "-s"; "4032x3024"; "-i"; captureDevice; "-frames:v"; "1";
   "-q:v"; "1"; "-compression_level"; "0"; localPath].

(** [`/dev/video${parseInt(devicePath.replace('/dev/video', '')) + 1}`] *)
Definition nextDevicePath (dp : string) : string :=
  "/dev/video" +:+ Js.numToString (Js.succ (Js.parseInt (Js.replace dp "/dev/video" ""))).

(** How a capture child ends: [true] exactly on a 'close' with code 0. *)
Definition captureOutcome (E : Env) (pid : nat) (localPath : string) : M bool :=
  match run E pid with
  | RunClose code written => child_writes localPath written ;; ret (code =? 0)
  | _ => ret false
  end.

(** An exception inside an [async] promise executor rejects the executor's
    own promise; the promise under construction is never settled. *)
Definition in_async_executor {A} (m : M A) : M A :=
  fun w =>
    match m w with
    | (Throw _, w') => (Hang, w')
    | r => r
    end.

(** *** v4l2-capture.js *)

(** "Find best device for capture" (the first [try] block) *)
Definition selectCaptureDevice (E : Env) (w : World) (dp : string) : string :=
  let info := devInfo E dp in
  let isOutput := Js.truthy (Some (exec_stdout info)) &&
                  Js.includes (exec_stdout info) "Video Output" in
  if isOutput then
    let nextDevice := nextDevicePath dp in
    let cd := if existsSync nextDevice w && isCaptureInfo (devInfo E nextDevice)
              then nextDevice else dp in
    if bool_decide (cd = dp) then
      match List.find (fun d => negb (bool_decide (d = cd)) && isCaptureInfo (devInfo E d))
                      (map (fun d => "/dev/" +:+ d) (videoDevices E)) with
      | Some d => d
      | None => cd
      end
    else cd
  else dp.

(** [if (streamer) streamer.startStream(captureDevice, 'canon', 'Canon Camera')] *)
Definition restartStream (E : Env) (streamer : bool) (captureDevice : string) : M unit :=
  if streamer then
    _ <- StreamService.startStream E (Some captureDevice) (Some "canon") (Some "Canon Camera") ;;
    ret tt
  else ret tt.

Definition v4l2Capture (E : Env) (localPath : string) (devicePath : option string)
    (streamer : bool) : M bool :=
  if negb (Js.truthy devicePath) then throw "No v4l2 device available for capture"
  else
    let dp := default "" devicePath in
    captureDevice <- get (fun w => selectCaptureDevice E w dp) ;;
    try_catch
      (when streamer StreamService.stopStream ;;
       log (EvSleep 500) ;;
       pid <- spawn E (CaptureStandard (captureArgs captureDevice localPath)) ;;
       match run E pid with
       | RunClose code written =>
           (* 'close' *)
           child_writes localPath written ;;
           restartStream E streamer captureDevice ;;
           ret (code =? 0)
       | RunError =>
           (* 'error' *)
           restartStream E streamer captureDevice ;;
           ret false
       | RunErrorThenClose code =>
           (* 'error' resolves; the 'close' handler still runs *)
           restartStream E streamer captureDevice ;;
           restartStream E streamer captureDevice ;;
           ret false
       | RunThrows => throw "spawn"
       end)
      (fun e =>
         restartStream E streamer captureDevice ;;
         throw e).

(** *** v4l2-fallback-capture.js *)

Definition selectFallbackDevice (E : Env) (w : World) (devicePath : option string)
  : option string :=
  let dp := default "" devicePath in
  let cd :=
    if Js.truthy devicePath && Js.includes dp "/dev/video" then
      let alternativeDevice := nextDevicePath dp in
      if existsSync alternativeDevice w && isCaptureInfo (devInfo E alternativeDevice)
      then Some alternativeDevice else devicePath
    else devicePath in
  if bool_decide (cd = devicePath) then
    match List.find (fun d => isCaptureInfo (devInfo E d))
                    (filter (fun d => Some d ≠ devicePath)
                            (map (fun d => "/dev/" +:+ d) (videoDevices E))) with
    | Some d => Some d
    | None => cd
    end
  else cd.

Definition v4l2FallbackCapture (E : Env) (localPath : string) (devicePath : option string)
  : M bool :=
  cd <- get (fun w => selectFallbackDevice E w devicePath) ;;
  in_async_executor
    (match cd with
     | None => throw "TypeError: argument must be a string"
     | Some captureDevice =>
         pid <- spawn E (CaptureFallback (captureArgs captureDevice localPath)) ;;
         captureOutcome E pid localPath
     end).

(** *** r6-capture.js and 5d-capture.js
    The promise around the child is returned without [await], so an
    exception while spawning escapes the function's own [try]. *)

Definition r6Capture (E : Env) (localPath : string) (devicePath : option string) : M bool :=
  ready <- try_catch
             (if bool_decide (captureDevices E = [])
              then throw "No capture devices found for Canon R6"
              else ret true)
             (fun _ => ret false) ;;
  if ready then
    pid <- spawn E (CaptureR6 localPath) ;;
    captureOutcome E pid localPath
  else ret false.

Definition mk5dCapture (E : Env) (localPath : string) (devicePath : option string) : M bool :=
  match devicePath, captureDevices E with
  | None, [] => throw "TypeError: argument must be a string"
  | _, _ =>
      pid <- spawn E (Capture5D localPath) ;;
      captureOutcome E pid localPath
  end.

(** *** mock-capture.js *)

Definition mockImagePath (E : Env) : string :=
  cwd E +:+ "/public/mock_images/sample2.jpg".

Definition useMockImage (E : Env) (localPath : string) : M bool :=
  try_catch
    (present <- get (existsSync (mockImagePath E)) ;;
     if present then
       copyFileSync (mockImagePath E) localPath ;;
       ret true
     else ret false)
    (fun _ => ret false).

End Capture.

(** ** Capture orchestrator (camera-capture.service.js) *)

Module CaptureService.

Inductive CaptureResult : Type :=
| Success (path filename : string)       (* { success: true, path, filename } *)
| Failure (error : string).              (* { success: false, error } *)

Definition success (r : CaptureResult) : bool :=
  match r with Success _ _ => true | Failure _ => false end.

Definition tempDir (E : Env) : string := cwd E +:+ "/temp_captures".

(** [timestamp] and [uniqueId] are drawn from the clock and the uuid
    generator; they are inputs here.  Neither contains a path separator,
    so [path.join] is concatenation with '/'. *)
Definition filenameOf (timestamp uniqueId : string) : string :=
  timestamp +:+ "_" +:+ uniqueId +:+ ".jpg".

Definition localPathOf (E : Env) (timestamp uniqueId : string) : string :=
  tempDir E +:+ "/" +:+ filenameOf timestamp uniqueId.

(** [devicePath.includes] is a TypeError on [null]. *)
Definition isCanonR6 (devicePath cameraType cameraModel : option string) : M bool :=
  if Js.truthy cameraModel then
    if Js.includes (default "" cameraModel) "R6 Mark II" ||
       Js.includes (default "" cameraModel) "R6"
    then ret true
    else if Js.seq cameraType (Some "canon") then
      match devicePath with
      | Some dp => ret (Js.includes dp "/dev/video1")
      | None => throw "TypeError: devicePath is null"
      end
    else ret false
  else ret false.

Definition isCanon5D (cameraModel : option string) : bool :=
  Js.truthy cameraModel &&
  (Js.includes (default "" cameraModel) "5D Mark IV" ||
   Js.includes (default "" cameraModel) "EOS 5D" ||
   Js.includes (default "" cameraModel) "5D").

(** step 1: the model-specialized method, when the model calls for one *)
Definition specialized (E : Env) (localPath : string)
    (devicePath cameraType cameraModel : option string) : M bool :=
  r6 <- isCanonR6 devicePath cameraType cameraModel ;;
  if r6 then
    try_catch (Capture.r6Capture E localPath devicePath) (fun _ => ret false)
  else if isCanon5D cameraModel then
    try_catch (Capture.mk5dCapture E localPath devicePath) (fun _ => ret false)
  else ret false.

(** the sequence of methods, up to the final file check *)
Definition run_chain (E : Env) (localPath : string)
    (devicePath cameraType cameraModel : option string) (streamer : bool) : M bool :=
  s1 <- specialized E localPath devicePath cameraType cameraModel ;;
  s2 <- (if negb s1 then Capture.v4l2Capture E localPath devicePath streamer else ret s1) ;;
  s3 <- (if negb s2 then Capture.v4l2FallbackCapture E localPath devicePath else ret s2) ;;
  s4 <- (if negb s3 then Capture.useMockImage E localPath else ret s3) ;;
  ret s4.

Definition capturePhoto (E : Env) (timestamp uniqueId : string)
    (devicePath cameraType cameraModel : option string) (streamer : bool)
  : M CaptureResult :=
  let filename := filenameOf timestamp uniqueId in
  let localPath := localPathOf E timestamp uniqueId in
  try_catch
    (_ <- run_chain E localPath devicePath cameraType cameraModel streamer ;;
     present <- get (existsSync localPath) ;;
     if negb present then throw "Capture failed: No image file created"
     else ret (Success localPath filename))
    (fun e => ret (Failure e)).

End CaptureService.

(** ** Camera service facade (services/camera/index.js) *)

Module CameraService.

(** The object resolved by [detector.detectCamera()]. *)
Record Detection : Type := mkDetection {
  detected : bool;
  det_device : option string;
  det_type : option string;
  det_model : option string
}.

Record Camera : Type := mkCamera {
  cameraConnected : bool;
  cameraType : option string;
  cameraModel : option string;
  v4l2Device : option string;
  cam_mjpegProcess : option Handle;
  cam_mjpegUrl : option string
}.

(** the state left by the constructor *)
Definition new_camera : Camera := mkCamera false None None None None None.

Definition set_connected (b : bool) (c : Camera) : Camera :=
  mkCamera b (cameraType c) (cameraModel c) (v4l2Device c) (cam_mjpegProcess c) (cam_mjpegUrl c).

Definition set_identity (d t m : option string) (c : Camera) : Camera :=
  mkCamera (cameraConnected c) t m d (cam_mjpegProcess c) (cam_mjpegUrl c).

Definition set_stream (p : option Handle) (u : option string) (c : Camera) : Camera :=
  mkCamera (cameraConnected c) (cameraType c) (cameraModel c) (v4l2Device c) p u.

Definition checkCameraAvailability (result : Detection) (c : Camera) : bool * Camera :=
  if detected result
  then (true, set_identity (det_device result) (det_type result) (det_model result) c)
  else (false, c).

Definition startCameraStream (E : Env) (c : Camera) (w : World) : Camera * World :=
  if negb (Js.truthy (v4l2Device c)) then (c, w)
  else
    match StreamService.startStream E (v4l2Device c) (cameraType c) (cameraModel c) w with
    | (Ok streamResult, w') => (set_stream (fst streamResult) (snd streamResult) c, w')
    | (_, w') => (c, w')
    end.

Definition stopCameraStream (c : Camera) (w : World) : Camera * World :=
  match StreamService.stopStream w with
  | (Ok _, w') => (set_stream None None c, w')
  | (_, w') => (c, w')
  end.

(** One reconnection poll; [result] is what detection reports this cycle. *)
Definition checkCameraReconnection (E : Env) (result : Detection) (c : Camera) (w : World)
  : bool * Camera * World :=
  let previouslyConnected := cameraConnected c in
  let previousCameraType := cameraType c in
  let previousCameraModel := cameraModel c in
  let previousDevice := v4l2Device c in
  let '(cameraAvailable, c1) := checkCameraAvailability result c in
  if negb previouslyConnected && cameraAvailable then
    let '(c2, w2) := startCameraStream E (set_connected true c1) w in
    (true, c2, w2)
  else if previouslyConnected && negb cameraAvailable then
    let '(c2, w2) := stopCameraStream (set_connected false c1) w in
    (false, c2, w2)
  else if previouslyConnected && cameraAvailable &&
          (negb (Js.seq previousDevice (v4l2Device c1)) ||
           negb (Js.seq previousCameraType (cameraType c1)) ||
           negb (Js.seq previousCameraModel (cameraModel c1))) then
    let '(c2, w2) := stopCameraStream c1 w in
    let '(c3, w3) := startCameraStream E c2 w2 in
    (true, c3, w3)
  else (cameraAvailable, c1, w).



(** [getStreamUrl()] asks the supervisor; [getMjpegProcess()] returns the
    facade's own copy of the handle. *)
Definition getStreamUrl (E : Env) (c : Camera) (w : World) : option string :=
  StreamService.getStreamUrl E (cameraConnected c) (v4l2Device c) (cameraType c) w.

Definition getMjpegProcess (c : Camera) : option Handle := cam_mjpegProcess c.

(** [capturePhoto(awsAvailable)] up to the hand-over to the image
    processor: the value returned is the pair (path, filename) that
    [processPhoto] is called with.  The facade always passes its streamer. *)
Definition capturePhoto (E : Env) (timestamp uniqueId : string) (c : Camera)
  : M (string * string) :=
  if negb (Js.truthy (v4l2Device c)) then throw "No camera device available for capture"
  else
    captureResult <- CaptureService.capturePhoto E timestamp uniqueId
                       (v4l2Device c) (cameraType c) (cameraModel c) true ;;
    match captureResult with
    | CaptureService.Failure _ => throw "Photo capture failed"
    | CaptureService.Success path filename => ret (path, filename)
    end.

End CameraService.

(** the calls made to the stream supervisor, in order *)
Definition is_stream_call (ev : Event) : bool :=
  match ev with
  | EvStartStream _ _ _ | EvStopStream => true
  | _ => false
  end.

Definition stream_calls (t : list Event) : list Event := List.filter is_stream_call t.



(** ** Capture request guard (controllers/camera/capture-controller.js) *)

Module CaptureController.

Definition MAX_CAPTURE_OPERATIONS : Z := 1.
Definition CAPTURE_COOLDOWN_MS : Z := 5000.

Record State : Type := mkState {
  activeCaptureOperations : Z;
  lastCaptureAttempt : Z
}.

Definition init : State := mkState 0 0.

(** [Proceed]: the handler goes on to [cameraService.capturePhoto];
    [Reject429]: it has answered 429 and returned. *)
Inductive Response : Type :=
| Reject429 (message : string)
| Proceed.

(** the head of [exports.capturePhoto], with [now = Date.now()] *)
Definition capturePhoto (now : Z) (s : State) : Response * State :=
  if MAX_CAPTURE_OPERATIONS <=? activeCaptureOperations s then
    (Reject429 "Photo capture already in progress, please try again in a moment", s)
  else if now - lastCaptureAttempt s <? CAPTURE_COOLDOWN_MS then
    (Reject429 "Please wait a moment before taking another photo", s)
  else
    (Proceed, mkState (activeCaptureOperations s + 1) now).

(** [cleanupCapture], run on the response's 'finish' and 'close' events *)
Definition cleanupCapture (s : State) : State :=
  mkState (Z.max 0 (activeCaptureOperations s - 1)) (lastCaptureAttempt s).

(** [Finished at]: the response of an accepted request fires 'finish' or
    'close' at time [at]; the handler does not look at the clock. *)
Inductive Ev : Type :=
| Request (now : Z)
| Finished (at_ms : Z).

Definition step (s : State) (e : Ev) : State :=
  match e with
  | Request now => snd (capturePhoto now s)
  | Finished _ => cleanupCapture s
  end.

Definition steps (evs : list Ev) (s : State) : State := foldl step s evs.

End CaptureController.

(** ** Restart request guard (controllers/camera.controller.js) *)

Module RestartController.

Definition RESTART_COOLDOWN_PERIOD : Z := 10000.
Definition MAX_RECENT_RESTARTS : nat := 3.

Record State : Type := mkState {
  restartInProgress : bool;
  recentRestarts : list Z
}.

Definition init : State := mkState false [].

(** [Accepted202]: 202 is sent and [processRestartInBackground] is started. *)
Inductive Response : Type :=
| Busy429
| TooMany429 (retryAfter : Z)
| Accepted202.

Definition recent (now : Z) (l : list Z) : list Z :=
  List.filter (fun time => now - time <? RESTART_COOLDOWN_PERIOD) l.

Definition restartCameraServices (now : Z) (s : State) : Response * State :=
  if restartInProgress s then (Busy429, s)
  else
    let recentRestarts' := recent now (recentRestarts s) in
    if (MAX_RECENT_RESTARTS <=? length recentRestarts')%nat then
      (TooMany429 10, mkState false recentRestarts')
    else
      (Accepted202, mkState true (recentRestarts' ++ [now])).

(** the [finally] of [processRestartInBackground] *)
Definition backgroundDone (s : State) : State :=
  mkState false (recentRestarts s).

Inductive Ev : Type :=
| Request (now : Z)
| Done.

Definition step (s : State) (e : Ev) : State :=
  match e with
  | Request now => snd (restartCameraServices now s)
  | Done => backgroundDone s
  end.

Definition steps (evs : list Ev) (s : State) : State := foldl step s evs.


Definition time_of (e : Ev) : list Z :=
  match e with Request now => [now] | Done => [] end.

Definition times (evs : list Ev) : list Z := concat (map time_of evs).

End RestartController.

(** ** Device verification (device-manager.service.js) *)

Module DeviceManager.

Inductive StatResult : Type :=
| StatThrows
| Stat (isCharacterDevice : bool).

(** What the [v4l2-ctl --device <path> --info] child does. *)
Inductive Introspection : Type :=
| SpawnThrows
| ErrorEvent
| ErrorThenClose (code : Z) (output error : string)
| Close (code : Z) (output error : string).

Record Host : Type := mkHost {
  host_platform : string;
  host_existsSync : option string -> bool;
  host_statSync : option string -> StatResult;
  host_v4l2ctl : option string -> Introspection;
  shouldLog : bool                    (* DEBUG_MODE or VERBOSE_LOGGING *)
}.

(** [this.verifiedDevices] *)
Definition Verified : Type := gset (option string).

Definition note (H : Host) (devicePath : option string) (v : Verified) : Verified :=
  if shouldLog H && negb (bool_decide (devicePath ∈ v)) then {[devicePath]} ∪ v else v.

(** the 'close' handler's verdict *)
Definition closeVerdict (code : Z) (output error : string) : bool :=
  if (code =? 0) && negb (Js.includes error "failed") && negb (Js.includes error "error")
  then Js.includes output "Video Capture" || Js.includes output "Video Output"
  else false.

Definition verifyDevice (H : Host) (devicePath : option string) (v : Verified)
  : Res bool * Verified :=
  if negb (String.eqb (host_platform H) "linux") then (Ok true, v)
  else
    if negb (host_existsSync H devicePath) then (Ok false, note H devicePath v)
    else
      match host_statSync H devicePath with
      | StatThrows => (Ok false, v)                      (* outer catch *)
      | Stat false => (Ok false, note H devicePath v)
      | Stat true =>
          match host_v4l2ctl H devicePath with
          | SpawnThrows => (Ok false, v)                 (* inner catch *)
          | ErrorEvent => (Ok false, v)
          | ErrorThenClose _ _ _ =>
              (Ok false, note H devicePath v)            (* first [resolve] wins *)
          | Close code output error =>
              (Ok (closeVerdict code output error), note H devicePath v)
          end
      end.


(** *** Reconnection timer and camera mode *)

(** The callback handed to [startReconnectionTimer]; the facade passes its
    [checkCameraReconnection]. *)
Inductive Callback : Type := CheckCameraReconnection.

(** An interval of the event loop, as created by [setInterval]: the
    callback its handler closes over ([None] is [undefined]) and its
    period. *)
Record Interval : Type := mkInterval {
  reconnectionCallback : option Callback;
  period : Z
}.

Record Manager : Type := mkManager {
  reconnectionTimer : option nat;        (* this.reconnectionTimer *)
  reconnectionInterval : Z;              (* this.reconnectionInterval *)
  isCanonR6 : bool;
  isCanon5D : bool;
  intervals : gmap nat Interval;         (* the intervals alive in the event loop *)
  nextInterval : nat                     (* intervals created so far *)
}.

(** the state left by the constructor *)
Definition new_manager : Manager := mkManager None 2000 false false ∅ 0.

Definition knownWorkingDevices : list string :=
  ["/dev/video14"; "/dev/video15"; "/dev/video21"; "/dev/video22"].

Definition clearInterval (id : nat) (m : Manager) : Manager :=
  mkManager (reconnectionTimer m) (reconnectionInterval m) (isCanonR6 m) (isCanon5D m)
            (delete id (intervals m)) (nextInterval m).

Definition startReconnectionTimer (callback : option Callback) (m : Manager) : Manager :=
  let m1 := match reconnectionTimer m with
            | Some id => clearInterval id m
            | None => m
            end in
  let id := nextInterval m1 in
  mkManager (Some id) (reconnectionInterval m1) (isCanonR6 m1) (isCanon5D m1)
            (<[id := mkInterval callback (reconnectionInterval m1)]> (intervals m1)) (S id).

Definition stopReconnectionTimer (m : Manager) : Manager :=
  match reconnectionTimer m with
  | Some id =>
      let m1 := clearInterval id m in
      mkManager None (reconnectionInterval m1) (isCanonR6 m1) (isCanon5D m1)
                (intervals m1) (nextInterval m1)
  | None => m
  end.

(** One firing of an interval.  Both branches of the handler call the
    callback; calling [undefined] throws inside the [async] handler, whose
    promise nobody awaits. *)
Definition tick (iv : Interval) : Res Callback :=
  match reconnectionCallback iv with
  | Some cb => Ok cb
  | None => Throw "TypeError: reconnectionCallback is not a function"
  end.

Definition setCameraMode (cameraType : string) (m : Manager) : Manager :=
  let r6 := String.eqb cameraType "r6" in
  let d5 := String.eqb cameraType "5d" in
  let m1 := mkManager (reconnectionTimer m) (if r6 || d5 then 10000 else 2000) r6 d5
                      (intervals m) (nextInterval m) in
  match reconnectionTimer m1 with
  | Some _ => startReconnectionTimer None (stopReconnectionTimer m1)
  | None => m1
  end.

(** [deviceNum >= 2], false on [NaN] *)
Definition atLeast2 (n : option Z) : bool :=
  match n with Some z => 2 <=? z | None => false end.

(** the mode named by the output of [v4l2-ctl --device=<path> --all];
    [None]: no indicator was found *)
Definition modeOfInfo (stdout : string) : option string :=
  if Js.includes stdout "Canon" &&
     (Js.includes stdout "R6" || Js.includes stdout "Mark II") then Some "r6"
  else if Js.includes stdout "Canon" &&
     (Js.includes stdout "5D" || Js.includes stdout "Mark IV" || Js.includes stdout "EOS 5")
  then Some "5d"
  else if Js.includes stdout "Canon" || Js.includes stdout "EOS" || Js.includes stdout "MJPG"
  then Some "r6"
  else None.

(** [detectCanonR6(devicePath, isOutput, isCapture)].  [videoDevs] is the
    listing of the video nodes of /dev and [allInfo] the answer of
    [v4l2-ctl --device=<path> --all] ([None]: the command fails).  On a
    [null] path the string methods throw and the outer [catch] selects the
    standard mode. *)
Definition detectCanonR6 (videoDevs : list string) (allInfo : option string)
    (devicePath : option string) (isOutput isCapture : bool) (m : Manager) : Manager :=
  match devicePath with
  | None => if isOutput || isCapture then setCameraMode "standard" m else m
  | Some dp =>
      if bool_decide (dp ∈ knownWorkingDevices) then setCameraMode "r6" m
      else if isOutput && Js.includes dp "video0" &&
              (bool_decide ("/dev/video1" ∈ videoDevs) ||
               bool_decide ("/dev/video2" ∈ videoDevs))
      then setCameraMode "r6" m
      else if isCapture then
        if atLeast2 (Js.parseInt (Js.replace dp "/dev/video" "")) then
          match allInfo with
          | Some stdout =>
              match modeOfInfo stdout with
              | Some mode => setCameraMode mode m
              | None => setCameraMode "standard" m
              end
          | None => setCameraMode "standard" m
          end
        else setCameraMode "standard" m
      else m
  end.

(** The call of [detectCanonR6] made by the 'close' handler of
    [verifyDevice]: it is made exactly when the handler finds the device
    usable, also when an 'error' event has already settled the promise. *)
Definition verifyDevice_detects (H : Host) (videoDevs : list string)
    (allInfo : option string -> option string) (devicePath : option string)
    (m : Manager) : Manager :=
  if negb (String.eqb (host_platform H) "linux") then m
  else if negb (host_existsSync H devicePath) then m
  else
    match host_statSync H devicePath with
    | Stat true =>
        match host_v4l2ctl H devicePath with
        | ErrorThenClose code output error
        | Close code output error =>
            if closeVerdict code output error
            then detectCanonR6 videoDevs (allInfo devicePath) devicePath
                   (Js.includes output "Video Output") (Js.includes output "Video Capture") m
            else m
        | _ => m
        end
    | _ => m
    end.

End DeviceManager.

(** ** Start-up of the facade (services/camera/index.js, [init]) *)

Module CameraLifecycle.
Import CameraService DeviceManager.

(** [init()].  The call of [deviceManager.init()] that comes first only
    prepares the set-up status shown to the user, which is not modelled;
    it catches its own exceptions.  [result] is what detection reports. *)
Definition init (E : Env) (result : Detection) (c : Camera) (m : Manager) (w : World)
  : bool * Camera * Manager * World :=
  let '(cameraAvailable, c1) := checkCameraAvailability result c in
  if negb cameraAvailable then
    (false, set_connected false c1,
     startReconnectionTimer (Some CheckCameraReconnection) m, w)
  else
    let '(c2, w2) := startCameraStream E (set_connected true c1) w in
    (true, c2, startReconnectionTimer (Some CheckCameraReconnection) m, w2).

End CameraLifecycle.

(** ** The restart procedure (controllers/camera.controller.js) *)

Module CameraController.
Import CameraService DeviceManager.

(** the video nodes of /dev, as paths *)
Definition videoNodes (E : Env) : list string :=
  map (fun d => "/dev/" +:+ d) (videoDevices E).

(** The loop of [tryAlternativeDevices] over the devices still to try.
    [verifyDeviceExists] is the device manager's [verifyDevice], whose
    'close' handler may switch the camera mode; the query started by
    [detectCanonR6] is taken to finish before the next device is tried. *)
Fixpoint tryDevices (E : Env) (H : Host) (allInfo : option string -> option string)
    (devices : list string) (c : Camera) (v : Verified) (m : Manager) (w : World)
  : Camera * Verified * Manager * World :=
  match devices with
  | [] => (c, v, m, w)
  | device :: rest =>
      let c1 := set_identity (Some device) (cameraType c) (cameraModel c) c in
      let '(deviceExists, v1) := verifyDevice H (Some device) v in
      let m1 := verifyDevice_detects H (videoNodes E) allInfo (Some device) m in
      match deviceExists with
      | Ok true =>
          let c2 := set_connected true
                      (set_identity (Some device) (Some "canon")
                         (Some "Canon Camera (manual restart)") c1) in
          let '(c3, w3) := startCameraStream E c2 w in
          (c3, v1, m1, w3)
      | Ok false => tryDevices E H allInfo rest c1 v1 m1 w
      | _ => (c1, v1, m1, w)
      end
  end.

Definition tryAlternativeDevices (E : Env) (H : Host)
    (allInfo : option string -> option string)
    (c : Camera) (v : Verified) (m : Manager) (w : World)
  : Camera * Verified * Manager * World :=
  tryDevices E H allInfo (videoNodes E) c v m w.

(** Steps 6 to 10 of [processRestartInBackground]: stop the stream of a
    connected camera, reset the facade, initialize it again and, when no
    camera is connected after that, try the video nodes one by one. *)
Definition reinitialize (E : Env) (H : Host) (allInfo : option string -> option string)
    (result : Detection) (c : Camera) (v : Verified) (m : Manager) (w : World)
  : Camera * Verified * Manager * World :=
  let '(c1, w1) := if cameraConnected c then stopCameraStream c w else (c, w) in
  let c2 := set_connected false (set_identity None None None c1) in
  let '(_, c3, m3, w3) := CameraLifecycle.init E result c2 m w1 in
  if negb (cameraConnected c3) then tryAlternativeDevices E H allInfo c3 v m3 w3
  else (c3, v, m3, w3).

End CameraController.

(** ** Stream endpoints (controllers/camera/stream-controller.js) *)

Module StreamController.
Import CameraService.

Definition MAX_STREAM_CONNECTIONS : Z := 5.
Definition CONNECTION_COOLDOWN_MS : Z := 1000.

Record State : Type := mkState {
  activeStreamConnections : Z;
  lastStreamAttempt : Z
}.

Definition init : State := mkState 0 0.

(** [streamCamera]: a redirect to the stream URL, or 503 *)
Inductive StreamAnswer : Type :=
| Redirect (url : string)
| Unavailable503.

Definition streamCamera (E : Env) (c : Camera) (w : World) : StreamAnswer :=
  match getStreamUrl E c w with
  | Some (String a u) => Redirect (String a u)
  | _ => Unavailable503
  end.

(** What [getMjpegStream] does with a request. *)
Inductive Served : Type :=
| TooManyRequests429                     (* 'Too many stream requests, please wait' *)
| MaxConnections503                      (* 'Maximum stream connections reached' *)
| NoDevice503                            (* 'No camera device available' *)
| Error503 (error : string)              (* the outer [catch] *)
| SharedStream (pid : nat)               (* the service's child is piped to the client *)
| DedicatedStream (args : list string).  (* ffmpeg is spawned for this request alone *)

Definition knownWorkingDevices : list string :=
  ["/dev/video14"; "/dev/video15"; "/dev/video21"; "/dev/video22"].

Definition preferredDevices (cameraModel : string) : list string :=
  if Js.includes cameraModel "R6" then knownWorkingDevices ++ ["/dev/video2"]
  else knownWorkingDevices.

(** "Find the best device for Canon cameras".  [None]: reading
    [cameraModel.includes] of [null] throws a TypeError. *)
Definition selectStreamDevice (E : Env) (w : World) (c : Camera) : option string :=
  let streamDevice := default "" (v4l2Device c) in
  if Js.seq (cameraType c) (Some "canon") then
    match cameraModel c with
    | None => None
    | Some model =>
        let videoDevices := map (fun d => "/dev/" +:+ d) (videoDevices E) in
        match List.find (fun device => bool_decide (device ∈ videoDevices) && existsSync device w)
                        (preferredDevices model) with
        | Some device => Some device
        | None => Some streamDevice
        end
    end
  else Some streamDevice.

(** Arguments of the dedicated ffmpeg child.  [supportsJpeg] and
    [supportsYUYV]: the format query had answered so by the time the
    500 ms wait was over. *)
Definition dedicatedArgs (cameraModel : option string) (supportsJpeg supportsYUYV : bool)
    (streamDevice : string) : list string :=
  let is5D := Js.truthy cameraModel && Js.includes (default "" cameraModel) "5D" in
  ["-loglevel"; "warning"; "-f"; "v4l2"] ++
  (if is5D && supportsYUYV then ["-input_format"; "yuv"]
   else if supportsJpeg then ["-input_format"; "mjpeg"]
   else []) ++
  ["-video_size"; "800x600"; "-i"; streamDevice; "-c:v"; "mjpeg"; "-q:v"; "5";
   "-r"; (if is5D then "12" else "15"); "-f"; "mpjpeg"; "pipe:1"].

(** [getMjpegStream], with [now = Date.now()]. *)
Definition getMjpegStream (E : Env) (now : Z) (supportsJpeg supportsYUYV : bool)
    (c : Camera) (w : World) (s : State) : Served * State :=
  if (now - lastStreamAttempt s <? CONNECTION_COOLDOWN_MS) &&
     (3 <=? activeStreamConnections s)
  then (TooManyRequests429, s)
  else if MAX_STREAM_CONNECTIONS <=? activeStreamConnections s
  then (MaxConnections503, s)
  else
    let s' := mkState (activeStreamConnections s + 1) now in
    if negb (Js.truthy (v4l2Device c)) then (NoDevice503, s')
    else
      match selectStreamDevice E w c with
      | None => (Error503 "TypeError: Cannot read properties of null (reading 'includes')", s')
      | Some streamDevice =>
          match getMjpegProcess c with
          | Some (HProc p) => (SharedStream p, s')
          | _ => (DedicatedStream
                    (dedicatedArgs (cameraModel c) supportsJpeg supportsYUYV streamDevice), s')
          end
      end.

(** [cleanupConnection], run on the request's 'close' and 'end' events *)
Definition cleanupConnection (s : State) : State :=
  mkState (Z.max 0 (activeStreamConnections s - 1)) (lastStreamAttempt s).

Inductive Ev : Type :=
| Request (now : Z) (supportsJpeg supportsYUYV : bool) (c : Camera) (w : World)
| Closed.

Definition step (E : Env) (s : State) (e : Ev) : State :=
  match e with
  | Request now j y c w => snd (getMjpegStream E now j y c w s)
  | Closed => cleanupConnection s
  end.

Definition steps (E : Env) (evs : list Ev) (s : State) : State := foldl (step E) s evs.

End StreamController.

(** ** Image processing (image-processing.service.js) *)

Module ImageProcessing.

(** What the storage side does.  [watermark c]: the content of the image
    after [addWatermark] when the image was changed, for an image of
    content [c]; temporary files of the watermarking tools are not
    modelled.  [publicDirReady]: public/captures exists or can be created.
    [upload]: [None] when [s3.send] rejects, otherwise the [Location] of
    the result.  [signed]: [None] when [getSignedUrl] rejects. *)
Record Cloud : Type := mkCloud {
  credentials : bool;    (* AWS_ACCESS_KEY_ID, AWS_SECRET_ACCESS_KEY, S3_BUCKET_NAME all set *)
  baseUrl : option string;               (* process.env.BASE_URL *)
  watermark : string -> option string;
  publicDirReady : bool;
  upload : option (option string);
  signed : option string
}.

(** the object a processing method resolves to; [success] is [true] in
    every one of them *)
Record Processed : Type := mkProcessed {
  s3Path : option string;
  imageUrl : string;
  signedUrl : option string;
  filename : string;
  awsStatus : string;
  localPath : option string;
  publicPath : option string;
  p_cameraType : option string;
  p_cameraModel : option string
}.

(** [process.env.BASE_URL || 'http://localhost:3000'] *)
Definition base (C : Cloud) : string :=
  if Js.truthy (baseUrl C) then default "" (baseUrl C) else "http://localhost:3000".

Definition publicPathOf (E : Env) (filename : string) : string :=
  cwd E +:+ "/public/captures/" +:+ filename.

(** [fs.unlinkSync(p)]: throws when the file is missing *)
Definition unlinkSync (p : string) : M unit :=
  fun w =>
    match files w !! p with
    | Some _ => (Ok tt, set_files (delete p (files w)) w)
    | None => (Throw "ENOENT", w)
    end.

(** [addWatermark(imagePath)]: catches everything *)
Definition addWatermark (C : Cloud) (imagePath : string) : M unit :=
  fun w =>
    match files w !! imagePath with
    | Some c =>
        match watermark C c with
        | Some c' => (Ok tt, set_files (<[imagePath := c']> (files w)) w)
        | None => (Ok tt, w)
        end
    | None => (Ok tt, w)
    end.

Definition processPhotoLocally (C : Cloud) (localPath publicPath filename : string)
    (cameraType cameraModel : option string) : M Processed :=
  ret (mkProcessed None (base C +:+ "/captures/" +:+ filename) None filename "unavailable"
         (Some localPath) (Some publicPath) cameraType cameraModel).

Definition processPhotoForAWS (C : Cloud) (localPath publicPath filename : string)
    (cameraType cameraModel : option string) : M Processed :=
  if negb (credentials C)
  then processPhotoLocally C localPath publicPath filename cameraType cameraModel
  else
    try_catch
      (readable <- get (existsSync localPath) ;;
       (if readable then ret tt else throw "ENOENT") ;;
       match upload C with
       | None => throw "upload failed"
       | Some location =>
           match signed C with
           | None => throw "signing failed"
           | Some url =>
               try_catch
                 (unlinkSync localPath ;;
                  still <- get (existsSync publicPath) ;;
                  if negb (bool_decide (publicPath = localPath)) && still
                  then unlinkSync publicPath else ret tt)
                 (fun _ => ret tt) ;;
               ret (mkProcessed location (base C +:+ "/api/photo/view/" +:+ filename)
                      (Some url) filename "available" None None cameraType cameraModel)
           end
       end)
      (fun _ => processPhotoLocally C localPath publicPath filename cameraType cameraModel).

Definition processPhoto (E : Env) (C : Cloud) (localPath filename : string)
    (awsAvailable : bool) (cameraType cameraModel : option string) : M Processed :=
  let publicPath := publicPathOf E filename in
  try_catch
    (addWatermark C localPath ;;
     (if publicDirReady C then ret tt else throw "EACCES") ;;
     copyFileSync localPath publicPath ;;
     if awsAvailable
     then processPhotoForAWS C localPath publicPath filename cameraType cameraModel
     else processPhotoLocally C localPath publicPath filename cameraType cameraModel)
    (fun _ => processPhotoLocally C localPath publicPath filename cameraType cameraModel).

End ImageProcessing.

(** ** Vocabulary for stating what an operation did *)

Definition logged (evs : list Event) (w : World) : World :=
  set_trace (trace w ++ evs) w.

(** a child was spawned: it gets the next pid *)
Definition with_child (what : Purpose) (w : World) : World :=
  set_trace (trace w ++ [EvSpawn (nspawn w) what]) (set_nspawn (S (nspawn w)) w).

Definition recorded (h : option Handle) (u : option string) (w : World) : World :=
  set_mjpegUrl u (set_mjpegProcess h w).

Definition watching (p : nat) (w : World) : World := set_watched (p :: watched w) w.

Definition queued (t : Pending) (w : World) : World := set_pending (pending w ++ [t]) w.

(** what [stopStream] does to the recorded handle *)
Definition stop_teardown (w : World) : list Event :=
  match mjpegProcess w with
  | Some (HProc p) => [EvKill p "SIGTERM"; EvDestroyPipes p]
  | _ => []
  end ++ [EvReleaseDevices].

Definition is_teardown (ev : Event) : bool :=
  match ev with
  | EvKill _ _ | EvDestroyPipes _ | EvReleaseDevices => true
  | _ => false
  end.

(** events a (re)start of the preview may add after the call itself *)
Definition is_stream_setup (ev : Event) : bool :=
  match ev with
  | EvSpawn _ (PreviewStandard _) | EvSpawn _ PreviewR6 | EvSpawn _ Preview5D => true
  | EvReleaseDevices => true
  | _ => false
  end.


(** Consistency of the supervisor's bookkeeping: the recorded child was
    spawned and has never been signalled by the server; every pid that
    occurs is one that was handed out. *)
Record stream_inv (w : World) : Prop := mkInv {
  inv_recorded : forall p, mjpegProcess w = Some (HProc p) ->
      (exists what, EvSpawn p what ∈ trace w) /\ (forall sig, EvKill p sig ∉ trace w);
  inv_spawned : forall p what, EvSpawn p what ∈ trace w -> (p < nspawn w)%nat;
  inv_killed : forall p sig, EvKill p sig ∈ trace w -> (p < nspawn w)%nat;
  inv_watched : forall p, p ∈ watched w -> (p < nspawn w)%nat
}.

(** outcome of [capturePhoto] seen as a boolean *)
Definition reported_success (r : Res CaptureService.CaptureResult) : bool :=
  match r with
  | Ok res => CaptureService.success res
  | _ => false
  end.

(** "the external introspection command fails": it cannot be spawned, it
    exits with a non-zero code, or its error output says so *)
Definition introspection_fails (i : DeviceManager.Introspection) : bool :=
  match i with
  | DeviceManager.SpawnThrows | DeviceManager.ErrorEvent
  | DeviceManager.ErrorThenClose _ _ _ => true
  | DeviceManager.Close code _ error =>
      negb (code =? 0) || Js.includes error "failed" || Js.includes error "error"
  end.



(** ** Concrete hosts for the examples *)

Definition capture_node : ExecResult := mkExec false "Capabilities: Video Capture".
Definition output_node : ExecResult := mkExec false "Capabilities: Video Output".

(** a webcam on /dev/video0; every child exits with code 1 and writes nothing *)
Definition env_failing : Env :=
  mkEnv "linux" "/srv/booth" ["video0"] (fun _ => capture_node) (fun _ => RunClose 1 None).

Definition placeholder_only : gmap string string :=
  {[ "/srv/booth/public/mock_images/sample2.jpg" := "placeholder" ]}.

(** the first child leaves a file but exits with code 1; setting up the
    second child throws *)
Definition env_partial : Env :=
  mkEnv "linux" "/srv/booth" ["video0"] (fun _ => capture_node)
        (fun n => match n with
                  | O => RunClose 1 (Some "partial frame")
                  | S O => RunThrows
                  | _ => RunClose 1 None
                  end).

(** a loopback pair: /dev/video0 is the output side, /dev/video1 captures *)
Definition env_loopback : Env :=
  mkEnv "linux" "/srv/booth" ["video0"; "video1"]
        (fun d => if String.eqb d "/dev/video1" then capture_node else output_node)
        (fun _ => RunClose 0 (Some "frame")).

Definition loopback_nodes : gmap string string :=
  {[ "/dev/video0" := ""; "/dev/video1" := "" ]}.

(** a development machine that is not Linux, with no device nodes *)
Definition host_mac : DeviceManager.Host :=
  DeviceManager.mkHost "darwin" (fun _ => false) (fun _ => DeviceManager.StatThrows)
                       (fun _ => DeviceManager.SpawnThrows) false.

(** a Linux host on which /dev/video0 is a character device whose
    introspection exits with code 1 *)
Definition host_linux : DeviceManager.Host :=
  DeviceManager.mkHost "linux"
    (fun p => bool_decide (p = Some "/dev/video0"))
    (fun _ => DeviceManager.Stat true)
    (fun _ => DeviceManager.Close 1 "" "Cannot open device")
    false.

(** an operation that leaves every file but [lp] as it was *)
Definition touches_only (lp : string) {A} (m : M A) : Prop :=
  forall w p, p <> lp -> files (snd (m w)) !! p = files w !! p.

(** a 5D camera: the failing input of the watchdog *)
Definition start_5D : StreamService.StreamEvent :=
  StreamService.CallStart (Some "/dev/video0") (Some "canon") (Some "Canon EOS 5D Mark IV").

Definition vanished : string := "[video4linux2,v4l2] /dev/video0: No such device".

(** ** Vocabulary for the handle and the URL *)

(** the recorded handle and the advertised URL are set together *)
Definition url_follows_handle (w : World) : Prop :=
  (mjpegProcess w = None /\ mjpegUrl w = None) \/
  (exists h, mjpegProcess w = Some h /\ mjpegUrl w = Some StreamService.STREAM_URL).

(** a webcam on /dev/video0 *)
Definition start_webcam : StreamService.StreamEvent :=
  StreamService.CallStart (Some "/dev/video0") (Some "webcam") (Some "USB Webcam").

(** ** Vocabulary for the reconnection timer *)

(** the calls that reach the device manager *)
Inductive ManagerCall : Type :=
| CallStartTimer (callback : option DeviceManager.Callback)
| CallStopTimer
| CallSetCameraMode (cameraType : string)
| CallDetectCanonR6 (videoDevs : list string) (allInfo : option string)
    (devicePath : option string) (isOutput isCapture : bool).

Definition manager_step (m : DeviceManager.Manager) (call : ManagerCall)
  : DeviceManager.Manager :=
  match call with
  | CallStartTimer callback => DeviceManager.startReconnectionTimer callback m
  | CallStopTimer => DeviceManager.stopReconnectionTimer m
  | CallSetCameraMode cameraType => DeviceManager.setCameraMode cameraType m
  | CallDetectCanonR6 videoDevs allInfo devicePath isOutput isCapture =>
      DeviceManager.detectCanonR6 videoDevs allInfo devicePath isOutput isCapture m
  end.

Definition manager_steps (calls : list ManagerCall) (m : DeviceManager.Manager)
  : DeviceManager.Manager := foldl manager_step m calls.

(** the interval the manager holds is the only one alive, and it runs
    with the manager's current period *)
Definition one_timer (m : DeviceManager.Manager) : Prop :=
  match DeviceManager.reconnectionTimer m with
  | None => DeviceManager.intervals m = ∅
  | Some id =>
      exists callback,
        DeviceManager.intervals m =
          {[ id := DeviceManager.mkInterval callback (DeviceManager.reconnectionInterval m) ]}
  end.

(** the manager holds an interval, and that interval calls [undefined] *)
Definition callback_lost (m : DeviceManager.Manager) : Prop :=
  exists id iv,
    DeviceManager.reconnectionTimer m = Some id /\
    DeviceManager.intervals m !! id = Some iv /\
    DeviceManager.reconnectionCallback iv = None.

(** a Linux host on which /dev/video0 is a capture device *)
Definition host_capture : DeviceManager.Host :=
  DeviceManager.mkHost "linux"
    (fun p => bool_decide (p = Some "/dev/video0"))
    (fun _ => DeviceManager.Stat true)
    (fun _ => DeviceManager.Close 0 "Capabilities: Video Capture" "")
    false.

(* ================================================================== *)
(** * Part II : properties *)
(* ================================================================== *)

(** ** String primitives *)

Lemma startsWith_spec s p :
  Js.startsWith s p = true <-> exists rest, s = p +:+ rest.
Proof.
  revert s. induction p as [|a p IH]; intros s.
  - split; [intros _; exists s; reflexivity | intros _; destruct s; reflexivity].
  - destruct s as [|b s]; simpl.
    + split; [discriminate | intros [rest H]; discriminate].
    + destruct (Ascii.eqb a b) eqn:Hab.
      * apply Ascii.eqb_eq in Hab. subst b. rewrite IH.
        split; intros [rest H]; exists rest; [rewrite H; reflexivity|].
        simpl in H. inversion H. reflexivity.
      * apply Ascii.eqb_neq in Hab.
        split; [discriminate | intros [rest H]; simpl in H; inversion H; congruence].
Qed.

Lemma includes_nil sub : Js.includes "" sub = Js.startsWith "" sub.
Proof. destruct sub; reflexivity. Qed.

Lemma includes_cons c s sub :
  Js.includes (String c s) sub = Js.startsWith (String c s) sub || Js.includes s sub.
Proof. destruct sub; reflexivity. Qed.

(** [includes] is the substring relation. *)
Lemma includes_spec s sub :
  Js.includes s sub = true <-> exists pre post, s = pre +:+ sub +:+ post.
Proof.
  induction s as [|c s IH].
  - rewrite includes_nil, startsWith_spec. split.
    + intros [rest H]. exists "", rest. exact H.
    + intros [pre [post H]]. destruct pre; simpl in H; [eauto | discriminate].
  - rewrite includes_cons, orb_true_iff, startsWith_spec, IH. split.
    + intros [[rest H] | [pre [post H]]].
      * exists "", rest. exact H.
      * exists (String c pre), post. simpl. rewrite H. reflexivity.
    + intros [pre [post H]]. destruct pre as [|c' pre]; simpl in H.
      * left. eauto.
      * right. exists pre, post. inversion H. reflexivity.
Qed.

(** The match is case-sensitive. *)
Lemma includes_case_sensitive :
  Js.includes "error: no such device" "No such device" = false /\
  Js.includes "error: No such device" "No such device" = true.
Proof. split; reflexivity. Qed.

Lemma parseInt_device_numbers :
  Js.parseInt (Js.replace "/dev/video14" "/dev/video" "") = Some 14 /\
  Js.numToString (Js.succ (Js.parseInt "7abc")) = "8" /\
  Js.numToString (Js.succ (Js.parseInt "x")) = "NaN" /\
  Capture.nextDevicePath "/dev/video0" = "/dev/video1".
Proof. repeat split; reflexivity. Qed.

Lemma truthy_default d :
  Js.truthy d = true -> Js.truthy (Some (default "" d)) = true /\ d = Some (default "" d).
Proof. destruct d as [[|c s]|]; simpl; intros H; try discriminate; auto. Qed.

(** ** Tactics for monadic code *)

Ltac munfold :=
  unfold kill, when, log in *;
  unfold bind, ret, get, modify, try_catch, throw in *.

Arguments StreamService.mjpegArgs : simpl never.
Arguments StreamService.isR6 : simpl never.
Arguments StreamService.is5D : simpl never.
Arguments Js.truthy : simpl never.
Arguments Capture.captureArgs : simpl never.
Arguments Capture.selectCaptureDevice : simpl never.

(** ** The supervisor's operations, case by case *)

Section StreamShapes.
Import StreamService.
Variable E : Env.

(** [startStream] does one of six things. *)
Lemma startStream_shape d t m w :
  let call := EvStartStream d t m in
  let p := nspawn w in
  let dp := default "" d in
  (exists h, mjpegProcess w = Some h /\
     startStream E d t m w = (Ok (Some h, mjpegUrl w), logged [call] w)) \/
  (mjpegProcess w = None /\
     startStream E d t m w = (Ok (None, None), logged [call] w)) \/
  (mjpegProcess w = None /\
     startStream E d t m w =
       (Ok (Some (HProc p), Some STREAM_URL),
        watching p (recorded (Some (HProc p)) (Some STREAM_URL)
          (with_child (PreviewStandard (mjpegArgs dp t m)) (logged [call] w))))) \/
  (mjpegProcess w = None /\
     startStream E d t m w =
       (Ok (None, None),
        recorded None None
          (with_child (PreviewStandard (mjpegArgs dp t m)) (logged [call] w)))) \/
  (mjpegProcess w = None /\
     startStream E d t m w =
       (Ok (None, mjpegUrl w),
        queued (PendingR6 dp t m) (logged [call; EvReleaseDevices] w))) \/
  (mjpegProcess w = None /\
     startStream E d t m w =
       (Ok (Some (HPromise (ntask w)), Some STREAM_URL),
        recorded (Some (HPromise (ntask w))) (Some STREAM_URL)
          (queued (Pending5D (ntask w)) (set_ntask (S (ntask w)) (logged [call] w))))).
Proof.
  intros call p dp.
  unfold startStream. munfold. simpl.
  destruct (mjpegProcess w) as [h|] eqn:Hcur.
  { left. exists h. split; reflexivity. }
  right.
  destruct (Js.truthy d) eqn:Hd; simpl.
  2:{ left. split; reflexivity. }
  right.
  destruct (isR6 (default "" d) t m) eqn:HR6; simpl.
  { right. right. left. split; [reflexivity|].
    unfold setupSpecializedR6Stream_start. munfold. simpl. rewrite Hcur.
    unfold queued, logged. simpl. rewrite <- app_assoc. reflexivity. }
  destruct (is5D m) eqn:H5D; simpl.
  { right. right. right. split; [reflexivity|].
    unfold setupSpecialized5DStream, setupStreamErrorHandling, standardSetup_unless_running.
    munfold. simpl. reflexivity. }
  unfold standardSetup, setupMjpegStream, spawn, record_stream, setupStreamErrorHandling.
  munfold. simpl.
  destruct (truthy_default d Hd) as [Hd' _]. rewrite Hd'. simpl.
  destruct (run E (nspawn w)) eqn:Hrun; simpl.
  { right. left. split; reflexivity. }
  all: left; split; reflexivity.
Qed.

Lemma stopStream_shape w :
  stopStream w = (Ok tt, recorded None None (logged (EvStopStream :: stop_teardown w) w)).
Proof.
  unfold stopStream, stop_teardown. munfold. simpl.
  destruct (mjpegProcess w) as [[p|t]|] eqn:Hcur; simpl;
    unfold recorded, logged; destruct w; simpl in *; subst;
    rewrite <- ?app_assoc; reflexivity.
Qed.

(** Completion of an asynchronous setup does one of four things. *)
Lemma finish_pending_shape t w :
  let p := nspawn w in
  finish_pending E t w = (Ok tt, w) \/
  (exists what, finish_pending E t w = (Ok tt, with_child what w)) \/
  (exists what, mjpegProcess w = None /\
     finish_pending E t w =
       (Ok tt, recorded (Some (HProc p)) (Some STREAM_URL) (watching p (with_child what w)))) \/
  (exists what, finish_pending E t w = (Ok tt, watching p (with_child what w))).
Proof.
  intros p. destruct t as [dp ty mo|k]; unfold finish_pending.
  - unfold setupSpecializedR6Stream_finish, record_stream, setupStreamErrorHandling, spawn.
    munfold. simpl.
    destruct (bool_decide (captureDevices E = [])); simpl.
    { left. destruct w; reflexivity. }
    destruct (run E (nspawn w)) eqn:Hrun; simpl.
    { right. left. exists PreviewR6. destruct w; reflexivity. }
    all: destruct (mjpegProcess w) eqn:Hcur;
      [ right; right; right; exists PreviewR6; destruct w; reflexivity
      | right; right; left; exists PreviewR6; split; [reflexivity|];
        destruct w; reflexivity ].
  - unfold spawn. munfold. simpl.
    destruct (run E (nspawn w)); simpl; right; left; exists Preview5D; destruct w; reflexivity.
Qed.

(** The watchdog: a matching chunk signals the child and clears the handle. *)
Lemma on_stderr_data_fires p chunk w :
  Js.includes chunk "No such device" = true \/
  Js.includes chunk "Device or resource busy" = true ->
  on_stderr_data p chunk w =
    (Ok tt, recorded None None (logged [EvKill p "SIGTERM"] w)).
Proof.
  intros H. unfold on_stderr_data.
  replace (Js.includes chunk "No such device" || Js.includes chunk "Device or resource busy")
    with true by (destruct H as [-> | ->]; [reflexivity | rewrite orb_true_r; reflexivity]).
  munfold. reflexivity.
Qed.

Lemma on_stderr_data_shape p chunk w :
  on_stderr_data p chunk w = (Ok tt, w) \/
  on_stderr_data p chunk w = (Ok tt, recorded None None (logged [EvKill p "SIGTERM"] w)).
Proof.
  unfold on_stderr_data. munfold.
  destruct (_ || _); [right; reflexivity|].
  destruct (Js.includes _ _); [right; reflexivity | left; reflexivity].
Qed.

End StreamShapes.

(** ** The supervisor keeps its bookkeeping consistent *)

Ltac elems :=
  repeat match goal with
  | H : _ ∈ _ ++ _ |- _ => apply elem_of_app in H; destruct H
  | H : _ ∈ _ :: _ |- _ => apply elem_of_cons in H; destruct H
  | H : _ ∈ [] |- _ => apply elem_of_nil in H; destruct H
  | H : Some _ = Some _ |- _ => inversion H; clear H; subst
  | H : EvSpawn _ _ = _ |- _ => inversion H; clear H; subst
  | H : EvKill _ _ = _ |- _ => inversion H; clear H; subst
  end; try discriminate.

Section StreamInvariant.
Import StreamService.
Variable E : Env.

Lemma inv_init fs : stream_inv (init_world fs).
Proof. constructor; simpl; intros; elems. Qed.

(** events other than spawns and signals do not disturb the bookkeeping *)
Lemma inv_logged evs w :
  stream_inv w ->
  (forall p what, EvSpawn p what ∉ evs) -> (forall p sig, EvKill p sig ∉ evs) ->
  stream_inv (logged evs w).
Proof.
  intros [Hr Hs Hk Hw] Hns Hnk. constructor; simpl; intros.
  - destruct (Hr p H) as [[what Hin] Hnot]. split.
    + exists what. apply elem_of_app. auto.
    + intros sig Hin'. elems; [eapply Hnot | eapply Hnk]; eauto.
  - elems; [eauto | exfalso; eapply Hns; eauto].
  - elems; [eauto | exfalso; eapply Hnk; eauto].
  - eauto.
Qed.

Lemma inv_with_child what w : stream_inv w -> stream_inv (with_child what w).
Proof.
  intros [Hr Hs Hk Hw]. constructor; simpl; intros.
  - destruct (Hr p H) as [[what' Hin] Hnot]. split.
    + exists what'. apply elem_of_app. auto.
    + intros sig Hin'. elems. eapply Hnot; eauto.
  - elems; [apply Nat.lt_lt_succ_r; eauto | lia].
  - elems. apply Nat.lt_lt_succ_r; eauto.
  - apply Nat.lt_lt_succ_r; eauto.
Qed.

(** a freshly spawned child may be recorded and watched *)
Lemma inv_record_child what u w :
  stream_inv w ->
  stream_inv (watching (nspawn w) (recorded (Some (HProc (nspawn w))) u (with_child what w))).
Proof.
  intros [Hr Hs Hk Hw]. constructor; simpl; intros.
  - inversion H; subst. split.
    + exists what. apply elem_of_app. right. apply list_elem_of_singleton. reflexivity.
    + intros sig Hin. elems. apply Hk in H0. lia.
  - elems; [apply Nat.lt_lt_succ_r; eauto | lia].
  - elems. apply Nat.lt_lt_succ_r; eauto.
  - elems; [lia | apply Nat.lt_lt_succ_r; eauto].
Qed.

Lemma inv_watch_child what w :
  stream_inv w -> stream_inv (watching (nspawn w) (with_child what w)).
Proof.
  intros [Hr Hs Hk Hw]. constructor; simpl; intros.
  - destruct (Hr p H) as [[what' Hin] Hnot]. split.
    + exists what'. apply elem_of_app. auto.
    + intros sig Hin'. elems. eapply Hnot; eauto.
  - elems; [apply Nat.lt_lt_succ_r; eauto | lia].
  - elems. apply Nat.lt_lt_succ_r; eauto.
  - elems; [lia | apply Nat.lt_lt_succ_r; eauto].
Qed.

(** clearing the handle, or recording a promise, is always consistent *)
Lemma inv_recorded_no_child h u w :
  stream_inv w -> (forall p, h <> Some (HProc p)) -> stream_inv (recorded h u w).
Proof.
  intros [Hr Hs Hk Hw] Hh. constructor; simpl; intros; eauto.
  exfalso. eapply Hh; eauto.
Qed.

Lemma inv_queued t w : stream_inv w -> stream_inv (queued t w).
Proof. intros [Hr Hs Hk Hw]. constructor; simpl; intros; eauto. Qed.

Lemma inv_set_pending l w : stream_inv w -> stream_inv (set_pending l w).
Proof. intros [Hr Hs Hk Hw]. constructor; simpl; intros; eauto. Qed.

Lemma inv_set_ntask n w : stream_inv w -> stream_inv (set_ntask n w).
Proof. intros [Hr Hs Hk Hw]. constructor; simpl; intros; eauto. Qed.

(** signalling known children and clearing the handle is consistent *)
Lemma inv_signal_and_clear evs w :
  stream_inv w ->
  (forall p what, EvSpawn p what ∉ evs) ->
  (forall p sig, EvKill p sig ∈ evs -> (p < nspawn w)%nat) ->
  stream_inv (recorded None None (logged evs w)).
Proof.
  intros [Hr Hs Hk Hw] Hns Hkk. constructor; simpl; intros.
  - discriminate.
  - elems; [eauto | exfalso; eapply Hns; eauto].
  - elems; eauto.
  - eauto.
Qed.

Lemma startStream_inv d t m w :
  stream_inv w -> stream_inv (snd (startStream E d t m w)).
Proof.
  intros HI.
  assert (Hcall : stream_inv (logged [EvStartStream d t m] w)).
  { apply inv_logged; auto; intros; intros Hin; elems. }
  destruct (startStream_shape E d t m w)
    as [[h [_ ->]]|[[_ ->]|[[_ ->]|[[_ ->]|[[_ ->]|[_ ->]]]]]]; simpl.
  - exact Hcall.
  - exact Hcall.
  - apply (inv_record_child _ _ _ Hcall).
  - apply inv_recorded_no_child; [apply inv_with_child, Hcall | discriminate].
  - apply inv_queued, inv_logged; auto; intros; intros Hin; elems.
  - apply inv_recorded_no_child; [|discriminate].
    apply inv_queued, inv_set_ntask, Hcall.
Qed.

Lemma stopStream_inv w : stream_inv w -> stream_inv (snd (stopStream w)).
Proof.
  intros HI. rewrite stopStream_shape. simpl.
  apply inv_signal_and_clear; auto.
  - intros p what Hin. unfold stop_teardown in Hin.
    destruct (mjpegProcess w) as [[q|k]|]; simpl in Hin; elems.
  - intros p sig Hin. unfold stop_teardown in Hin.
    destruct (mjpegProcess w) as [[q|k]|] eqn:Hcur; simpl in Hin; elems.
    destruct (inv_recorded w HI _ Hcur) as [[what Hs] _].
    eapply inv_spawned; eauto.
Qed.

Lemma finish_pending_inv t w :
  stream_inv w -> stream_inv (snd (finish_pending E t w)).
Proof.
  intros HI.
  destruct (finish_pending_shape E t w) as [->|[[what ->]|[[what [_ ->]]|[what ->]]]]; simpl.
  - exact HI.
  - apply inv_with_child, HI.
  - apply (inv_record_child what (Some STREAM_URL) w HI).
  - apply inv_watch_child, HI.
Qed.

Lemma if_watched_inv p m w :
  (m w = (Ok tt, w) \/ m w = (Ok tt, recorded None None (logged [EvKill p "SIGTERM"] w)) \/
   m w = (Ok tt, recorded None None w)) ->
  stream_inv w -> stream_inv (if_watched p m w).
Proof.
  intros Hm HI. unfold if_watched. case_bool_decide as Hp; [|exact HI].
  destruct Hm as [-> | [-> | ->]]; simpl; auto.
  - apply inv_signal_and_clear; auto.
    + intros q what Hin. elems.
    + intros q sig Hin. elems. eapply inv_watched; eauto.
  - apply inv_recorded_no_child; [auto | discriminate].
Qed.

Lemma step_inv ev w : stream_inv w -> stream_inv (step E ev w).
Proof.
  intros HI. destruct ev as [d t m| |i|p chunk|p|p code]; simpl.
  - apply startStream_inv, HI.
  - apply stopStream_inv, HI.
  - destruct (pending w !! i); [|exact HI].
    apply finish_pending_inv, inv_set_pending, HI.
  - apply if_watched_inv; auto.
    destruct (on_stderr_data_shape p chunk w) as [->| ->]; auto.
  - apply if_watched_inv; auto.
  - apply if_watched_inv; auto.
Qed.

Lemma steps_inv evs w : stream_inv w -> stream_inv (steps E evs w).
Proof.
  revert w. induction evs as [|ev evs IH]; intros w HI; simpl; [exact HI|].
  apply IH, step_inv, HI.
Qed.

End StreamInvariant.



(** ** Calls to the supervisor, as seen in the trace *)

Section StreamCalls.
Import StreamService.
Variable E : Env.

Lemma startStream_trace d t m w :
  exists r w' rest,
    startStream E d t m w = (Ok r, w') /\
    trace w' = trace w ++ EvStartStream d t m :: rest /\
    Forall (fun e => is_stream_setup e = true) rest /\
    files w' = files w.
Proof.
  destruct (startStream_shape E d t m w)
    as [[h [_ ->]]|[[_ ->]|[[_ ->]|[[_ ->]|[[_ ->]|[_ ->]]]]]];
    do 3 eexists; (split; [reflexivity|]); simpl; rewrite <- ?app_assoc; simpl;
    (split; [reflexivity|]); split; try reflexivity; repeat constructor.
Qed.

Lemma stopStream_trace w :
  exists w',
    stopStream w = (Ok tt, w') /\
    trace w' = trace w ++ EvStopStream :: stop_teardown w /\
    Forall (fun e => is_teardown e = true) (stop_teardown w) /\
    files w' = files w /\ nspawn w' = nspawn w /\ mjpegProcess w' = None.
Proof.
  eexists. split; [apply stopStream_shape|]. simpl. repeat split; auto.
  unfold stop_teardown. destruct (mjpegProcess w) as [[p|k]|]; repeat constructor.
Qed.

Lemma stream_calls_app t1 t2 : stream_calls (t1 ++ t2) = stream_calls t1 ++ stream_calls t2.
Proof. apply List.filter_app. Qed.

Lemma stream_calls_setup rest :
  Forall (fun e => is_stream_setup e = true) rest -> stream_calls rest = [].
Proof.
  induction 1 as [|e rest He _ IH]; [reflexivity|]. simpl.
  destruct e as [| | | ? [] | | | |]; simpl in *; try discriminate; exact IH.
Qed.

Lemma stream_calls_teardown rest :
  Forall (fun e => is_teardown e = true) rest -> stream_calls rest = [].
Proof.
  induction 1 as [|e rest He _ IH]; [reflexivity|]. simpl.
  destruct e; simpl in *; try discriminate; exact IH.
Qed.

Lemma startCameraStream_calls c w :
  Js.truthy (CameraService.v4l2Device c) = true ->
  let cw := CameraService.startCameraStream E c w in
  stream_calls (trace (snd cw)) =
    stream_calls (trace w) ++
      [EvStartStream (CameraService.v4l2Device c) (CameraService.cameraType c)
                     (CameraService.cameraModel c)] /\
  CameraService.cameraConnected (fst cw) = CameraService.cameraConnected c /\
  CameraService.v4l2Device (fst cw) = CameraService.v4l2Device c /\
  CameraService.cameraType (fst cw) = CameraService.cameraType c /\
  CameraService.cameraModel (fst cw) = CameraService.cameraModel c.
Proof.
  intros Hd. unfold CameraService.startCameraStream. rewrite Hd. simpl.
  destruct (startStream_trace (CameraService.v4l2Device c) (CameraService.cameraType c)
              (CameraService.cameraModel c) w) as (r & w' & rest & -> & Htr & Hrest & _).
  simpl. rewrite Htr, stream_calls_app. simpl.
  rewrite (stream_calls_setup rest Hrest). auto.
Qed.

Lemma stopCameraStream_calls c w :
  let cw := CameraService.stopCameraStream c w in
  stream_calls (trace (snd cw)) = stream_calls (trace w) ++ [EvStopStream] /\
  CameraService.cameraConnected (fst cw) = CameraService.cameraConnected c /\
  CameraService.v4l2Device (fst cw) = CameraService.v4l2Device c /\
  CameraService.cameraType (fst cw) = CameraService.cameraType c /\
  CameraService.cameraModel (fst cw) = CameraService.cameraModel c.
Proof.
  unfold CameraService.stopCameraStream.
  destruct (stopStream_trace w) as (w' & -> & Htr & Htd & _).
  simpl. rewrite Htr, stream_calls_app. simpl.
  rewrite (stream_calls_teardown _ Htd). auto.
Qed.



End StreamCalls.



(** ** The standard capture method *)

Section StandardCapture.
Import StreamService Capture.
Variable E : Env.

Arguments restartStream : simpl never.

Lemma restartStream_trace cd w :
  let restart := EvStartStream (Some cd) (Some "canon") (Some "Canon Camera") in
  exists w' rest,
    restartStream E true cd w = (Ok tt, w') /\
    trace w' = trace w ++ restart :: rest /\
    Forall (fun e => is_stream_setup e = true) rest /\
    files w' = files w.
Proof.
  intros restart. unfold restartStream. munfold.
  destruct (startStream_trace E (Some cd) (Some "canon") (Some "Canon Camera") w)
    as (r & w' & rest & -> & Htr & Hrest & Hf).
  exists w', rest. auto.
Qed.

(** Everything the standard method does, for every behaviour of the
    capture child: the trace it leaves and the files it touches. *)
Lemma v4l2Capture_trace localPath devicePath w :
  Js.truthy devicePath = true ->
  let cd := selectCaptureDevice E w (default "" devicePath) in
  let restart := EvStartStream (Some cd) (Some "canon") (Some "Canon Camera") in
  let launch := EvSpawn (nspawn w) (CaptureStandard (captureArgs cd localPath)) in
  exists rest,
    trace (snd (v4l2Capture E localPath devicePath true w)) =
      trace w ++ EvStopStream :: stop_teardown w ++ [EvSleep 500; launch; restart] ++ rest /\
    Forall (fun e => is_stream_setup e = true \/ e = restart) rest /\
    (forall p, p <> localPath ->
       files (snd (v4l2Capture E localPath devicePath true w)) !! p = files w !! p) /\
    fst (v4l2Capture E localPath devicePath true w) =
      match run E (nspawn w) with
      | RunThrows => Throw "spawn"
      | RunClose code _ => Ok (code =? 0)
      | _ => Ok false
      end.
Proof.
  intros Hd cd restart launch.
  unfold v4l2Capture. rewrite Hd. munfold. simpl. fold cd. fold launch. clearbody cd.
  destruct (stopStream_trace w) as (w1 & -> & Htr1 & _ & Hf1 & Hn1 & _).
  simpl. unfold spawn. simpl. rewrite Hn1.
  set (w2 := set_trace _ (set_nspawn _ _)).
  assert (Htr2 : trace w2 = trace w ++ EvStopStream :: stop_teardown w ++ [EvSleep 500; launch]).
  { subst w2. simpl. rewrite Htr1, <- !app_assoc. simpl. rewrite <- ?app_assoc. reflexivity. }
  assert (Hf2 : files w2 = files w) by (subst w2; simpl; exact Hf1).
  clearbody w2.
  destruct (run E (nspawn w)) as [| |code|code written] eqn:Hrun; simpl;
    rewrite ?Hn1, ?Hrun; simpl.
  - (* setting the child up throws *)
    destruct (restartStream_trace cd w2) as (w3 & rest & HR & Htr3 & Hrest & Hf3).
    rewrite HR. simpl.
    exists rest. rewrite Htr3, Htr2, <- !app_assoc. simpl. rewrite <- ?app_assoc.
    split; [reflexivity|]. split; [eapply Forall_impl; [exact Hrest | auto]|].
    split; [intros p _; congruence | reflexivity].
  - (* 'error' *)
    destruct (restartStream_trace cd w2) as (w3 & rest & HR & Htr3 & Hrest & Hf3).
    rewrite HR. simpl.
    exists rest. rewrite Htr3, Htr2, <- !app_assoc. simpl. rewrite <- ?app_assoc.
    split; [reflexivity|]. split; [eapply Forall_impl; [exact Hrest | auto]|].
    split; [intros p _; congruence | reflexivity].
  - (* 'error' then 'close' *)
    destruct (restartStream_trace cd w2) as (w3 & rest & HR & Htr3 & Hrest & Hf3).
    rewrite HR. simpl.
    destruct (restartStream_trace cd w3) as (w4 & rest' & HR' & Htr4 & Hrest' & Hf4).
    rewrite HR'. simpl.
    exists (rest ++ restart :: rest').
    rewrite Htr4, Htr3, Htr2, <- !app_assoc. simpl. rewrite <- ?app_assoc.
    split; [reflexivity|]. split.
    { apply Forall_app. split; [eapply Forall_impl; [exact Hrest | auto]|].
      constructor; [auto|]. eapply Forall_impl; [exact Hrest' | auto]. }
    split; [intros p _; congruence | reflexivity].
  - (* 'close' *)
    unfold child_writes. munfold.
    destruct written as [content|]; simpl.
    + set (w2' := set_files _ w2).
      destruct (restartStream_trace cd w2') as (w3 & rest & HR & Htr3 & Hrest & Hf3).
      rewrite HR. simpl.
      exists rest. rewrite Htr3. subst w2'. simpl.
      rewrite Htr2, <- !app_assoc. simpl. rewrite <- ?app_assoc.
      split; [reflexivity|]. split; [eapply Forall_impl; [exact Hrest | auto]|].
      split; [|reflexivity].
      intros p Hp. rewrite Hf3. simpl. rewrite lookup_insert_ne by congruence.
      congruence.
    + destruct (restartStream_trace cd w2) as (w3 & rest & HR & Htr3 & Hrest & Hf3).
      rewrite HR. simpl.
      exists rest. rewrite Htr3, Htr2, <- !app_assoc. simpl. rewrite <- ?app_assoc.
      split; [reflexivity|]. split; [eapply Forall_impl; [exact Hrest | auto]|].
      split; [intros p _; congruence | reflexivity].
Qed.

End StandardCapture.

(** C8.  In the standard capture method, with the streamer it is given:
    the preview stream is stopped (the recorded child, if any, is sent
    SIGTERM and its pipes destroyed), then 500 ms are waited, then the
    capture child is launched, and the restart of the preview is the very
    next action -- for every behaviour of the capture child: exit code
    zero or not, a failure to launch reported by the 'error' event, or an
    exception while setting the child up.  Nothing but stream set-up and
    further restarts follows. *)
Theorem standard_capture_brackets_stream (E : Env) (localPath : string)
    (devicePath : option string) (w : World) :
  Js.truthy devicePath = true ->
  let cd := Capture.selectCaptureDevice E w (default "" devicePath) in
  let restart := EvStartStream (Some cd) (Some "canon") (Some "Canon Camera") in
  let launch := EvSpawn (nspawn w) (CaptureStandard (Capture.captureArgs cd localPath)) in
  let out := Capture.v4l2Capture E localPath devicePath true w in
  exists rest,
    trace (snd out) =
      trace w ++ [EvStopStream] ++ stop_teardown w ++ [EvSleep 500; launch; restart] ++ rest /\
    Forall (fun e => is_teardown e = true) (stop_teardown w) /\
    Forall (fun e => is_stream_setup e = true \/ e = restart) rest /\
    fst out = match run E (nspawn w) with
              | RunThrows => Throw "spawn"
              | RunClose code _ => Ok (code =? 0)
              | _ => Ok false
              end.
Proof.
  intros Hd cd restart launch out.
  destruct (v4l2Capture_trace E localPath devicePath w Hd) as (rest & Htr & Hrest & _ & Hres).
  exists rest. repeat split; auto.
  unfold stop_teardown. destruct (mjpegProcess w) as [[p|k]|]; repeat constructor.
Qed.

(** C8 on a loopback pair whose capture child exits with code 1. *)
Lemma standard_capture_brackets_stream_witness :
  Js.truthy (Some "/dev/video0") = true /\
  fst (Capture.v4l2Capture env_failing "/srv/booth/temp_captures/a.jpg"
         (Some "/dev/video0") true (init_world placeholder_only)) = Ok false /\
  EvStartStream (Some "/dev/video0") (Some "canon") (Some "Canon Camera")
    ∈ trace (snd (Capture.v4l2Capture env_failing "/srv/booth/temp_captures/a.jpg"
                    (Some "/dev/video0") true (init_world placeholder_only))).
Proof.
  split; [reflexivity|].
  destruct (standard_capture_brackets_stream env_failing "/srv/booth/temp_captures/a.jpg"
              (Some "/dev/video0") (init_world placeholder_only) eq_refl)
    as (rest & Htr & _ & _ & Hres).
  split; [exact Hres|].
  rewrite Htr. apply elem_of_app. right.
  apply elem_of_cons. right. apply elem_of_app. right.
  apply elem_of_cons. right. apply elem_of_cons. right. apply elem_of_cons. left.
  reflexivity.
Defined.

(** C10.  After every standard-method capture attempt the restart of the
    preview is invoked -- at least once -- and every such invocation passes
    the capture device chosen during the attempt together with the fixed
    type 'canon' and model 'Canon Camera'.  Hence whenever the camera bound
    before the capture had another type, another model, or another device
    than the one chosen, no restart with the bound identity takes place. *)
Theorem restart_identity_is_fixed (E : Env) (localPath : string)
    (devicePath : option string) (w : World) :
  Js.truthy devicePath = true ->
  let cd := Capture.selectCaptureDevice E w (default "" devicePath) in
  let restart := EvStartStream (Some cd) (Some "canon") (Some "Canon Camera") in
  exists evs,
    trace (snd (Capture.v4l2Capture E localPath devicePath true w)) = trace w ++ evs /\
    restart ∈ evs /\
    (forall d t m, EvStartStream d t m ∈ evs -> EvStartStream d t m = restart) /\
    (forall boundType boundModel,
       boundType <> Some "canon" \/ boundModel <> Some "Canon Camera" \/
       devicePath <> Some cd ->
       EvStartStream devicePath boundType boundModel ∉ evs).
Proof.
  intros Hd cd restart.
  destruct (v4l2Capture_trace E localPath devicePath w Hd) as (rest & Htr & Hrest & _).
  eexists. split; [exact Htr|].
  assert (Hstarts : forall d t m,
            EvStartStream d t m ∈ EvStopStream :: stop_teardown w ++
              [EvSleep 500;
               EvSpawn (nspawn w) (CaptureStandard (Capture.captureArgs cd localPath));
               restart] ++ rest ->
            EvStartStream d t m = restart).
  { intros d t m Hin.
    apply elem_of_cons in Hin. destruct Hin as [Hin|Hin]; [discriminate|].
    apply elem_of_app in Hin. destruct Hin as [Hin|Hin].
    - unfold stop_teardown in Hin. destruct (mjpegProcess w) as [[p|k]|]; simpl in Hin; elems.
    - apply elem_of_app in Hin. destruct Hin as [Hin|Hin].
      + elems. assumption.
      + rewrite Forall_forall in Hrest. destruct (Hrest _ Hin) as [Hs|Hs];
          [discriminate | exact Hs]. }
  split; [|split].
  - apply elem_of_cons. right. apply elem_of_app. right.
    apply elem_of_app. left. apply elem_of_cons. right. apply elem_of_cons. right.
    apply elem_of_cons. left. reflexivity.
  - exact Hstarts.
  - intros bt bm Hne Hin. apply Hstarts in Hin. unfold restart in Hin.
    inversion Hin as [[H1 H2 H3]]. destruct Hne as [Hne|[Hne|Hne]]; apply Hne; assumption.
Qed.

(** C10 on a loopback pair with a webcam bound to the output node
    /dev/video0: the stream is restarted on /dev/video1 as a Canon camera,
    and never with the bound identity. *)
Lemma restart_identity_is_fixed_witness :
  Js.truthy (Some "/dev/video0") = true /\
  EvStartStream (Some "/dev/video1") (Some "canon") (Some "Canon Camera")
    ∈ trace (snd (Capture.v4l2Capture env_loopback "/srv/booth/temp_captures/a.jpg"
                    (Some "/dev/video0") true (init_world loopback_nodes))) /\
  EvStartStream (Some "/dev/video0") (Some "webcam") (Some "USB Webcam")
    ∉ trace (snd (Capture.v4l2Capture env_loopback "/srv/booth/temp_captures/a.jpg"
                    (Some "/dev/video0") true (init_world loopback_nodes))).
Proof.
  split; [reflexivity|].
  destruct (restart_identity_is_fixed env_loopback "/srv/booth/temp_captures/a.jpg"
              (Some "/dev/video0") (init_world loopback_nodes) eq_refl)
    as (evs & Htr & Hin & _ & Hnot).
  rewrite Htr. simpl. split.
  - exact Hin.
  - apply Hnot. left. discriminate.
Defined.

(** ** The watchdog *)

(** On a child with the error handlers installed, a chunk that contains
    one of the two patterns sends SIGTERM to that child and clears the
    recorded process and URL, at once. *)
Lemma watchdog_fires_on_watched_child (E : Env) (p : nat) (chunk : string) (w : World) :
  p ∈ watched w ->
  Js.includes chunk "No such device" = true \/
  Js.includes chunk "Device or resource busy" = true ->
  StreamService.step E (StreamService.ChildStderr p chunk) w =
    recorded None None (logged [EvKill p "SIGTERM"] w).
Proof.
  intros Hp Hc. simpl. unfold StreamService.if_watched.
  rewrite bool_decide_eq_true_2 by exact Hp.
  rewrite (on_stderr_data_fires p chunk w Hc). reflexivity.
Qed.

(** The standard preview path installs the handlers on the child it records. *)
Lemma standard_stream_is_watched (E : Env) (d t m : option string) (w : World) (p : nat) :
  mjpegProcess w = None ->
  StreamService.isR6 (default "" d) t m = false ->
  StreamService.is5D m = false ->
  mjpegProcess (snd (StreamService.startStream E d t m w)) = Some (HProc p) ->
  p ∈ watched (snd (StreamService.startStream E d t m w)).
Proof.
  intros Hcur HR6 H5D.
  unfold StreamService.startStream. munfold. simpl. rewrite Hcur.
  destruct (Js.truthy d) eqn:Hd; simpl; [|rewrite Hcur; discriminate].
  rewrite HR6, H5D. simpl.
  unfold StreamService.standardSetup, StreamService.setupMjpegStream, spawn,
    StreamService.record_stream, StreamService.setupStreamErrorHandling.
  munfold. simpl.
  destruct (truthy_default d Hd) as [Hd' _]. rewrite Hd'. simpl.
  destruct (run E (nspawn w)); simpl; try discriminate;
    intros H; inversion H; subst; apply elem_of_cons; left; reflexivity.
Qed.

(** C9, at the failing input.  A preview is started for a camera whose
    model names the 5D; the asynchronous 5D set-up then spawns the ffmpeg
    child 0.  What the supervisor recorded is the promise of the set-up,
    not the child, and no error handler is installed on the child.  When
    the child then reports "No such device" on stderr, nothing happens: no
    signal is sent and the handle and URL stay recorded. *)
Theorem watchdog_missing_on_5D_stream :
  let w1 := StreamService.steps env_failing [start_5D; StreamService.AsyncDone 0]
              (init_world ∅) in
  let w2 := StreamService.step env_failing (StreamService.ChildStderr 0 vanished) w1 in
  EvSpawn 0 Preview5D ∈ trace w1 /\
  mjpegProcess w1 = Some (HPromise 0) /\
  mjpegUrl w1 = Some StreamService.STREAM_URL /\
  watched w1 = [] /\
  Js.includes vanished "No such device" = true /\
  w2 = w1 /\
  (forall sig, EvKill 0 sig ∉ trace w2) /\
  mjpegProcess w2 = Some (HPromise 0).
Proof.
  intros w1 w2.
  assert (Htr : trace w1 =
            [EvStartStream (Some "/dev/video0") (Some "canon") (Some "Canon EOS 5D Mark IV");
             EvSpawn 0 Preview5D]) by (vm_compute; reflexivity).
  assert (H21 : w2 = w1) by (vm_compute; reflexivity).
  split.
  { rewrite Htr. apply elem_of_cons. right. apply elem_of_cons. left. reflexivity. }
  split; [vm_compute; reflexivity|].
  split; [vm_compute; reflexivity|].
  split; [vm_compute; reflexivity|].
  split; [vm_compute; reflexivity|].
  split; [exact H21|].
  split; [|rewrite H21; vm_compute; reflexivity].
  intros sig Hin. rewrite H21, Htr in Hin. elems.
Qed.

(** ** Files touched by the capture methods *)

Section Frames.
Import StreamService Capture CaptureService.
Variable E : Env.
Variable lp : string.

Lemma frame_ret {A} (a : A) : touches_only lp (ret a).
Proof. intros w p _. reflexivity. Qed.

Lemma frame_throw {A} e : touches_only lp (@throw A e).
Proof. intros w p _. reflexivity. Qed.

Lemma frame_get {A} (f : World -> A) : touches_only lp (get f).
Proof. intros w p _. reflexivity. Qed.

Lemma frame_log ev : touches_only lp (log ev).
Proof. intros w p _. reflexivity. Qed.

Lemma frame_bind {A B} (m : M A) (k : A -> M B) :
  touches_only lp m -> (forall a, touches_only lp (k a)) -> touches_only lp (bind m k).
Proof.
  intros Hm Hk w p Hp. unfold bind. specialize (Hm w p Hp).
  destruct (m w) as [[a|e|] w1]; simpl in *; [|exact Hm|exact Hm].
  rewrite <- Hm. apply Hk, Hp.
Qed.

Lemma frame_try_catch {A} (m : M A) (h : string -> M A) :
  touches_only lp m -> (forall e, touches_only lp (h e)) -> touches_only lp (try_catch m h).
Proof.
  intros Hm Hh w p Hp. unfold try_catch. specialize (Hm w p Hp).
  destruct (m w) as [[a|e|] w1]; simpl in *; [exact Hm| |exact Hm].
  rewrite <- Hm. apply Hh, Hp.
Qed.

Lemma frame_in_async_executor {A} (m : M A) :
  touches_only lp m -> touches_only lp (in_async_executor m).
Proof.
  intros Hm w p Hp. unfold in_async_executor. specialize (Hm w p Hp).
  destruct (m w) as [[a|e|] w1]; exact Hm.
Qed.

Lemma frame_spawn what : touches_only lp (spawn E what).
Proof. intros w p _. unfold spawn. destruct (run E (nspawn w)); reflexivity. Qed.

Lemma frame_child_writes written : touches_only lp (child_writes lp written).
Proof.
  intros w p Hp. destruct written; simpl; [|reflexivity].
  apply lookup_insert_ne. congruence.
Qed.

Lemma frame_captureOutcome pid : touches_only lp (captureOutcome E pid lp).
Proof.
  unfold captureOutcome. destruct (run E pid); try apply frame_ret.
  apply frame_bind; [apply frame_child_writes | intros; apply frame_ret].
Qed.

Lemma frame_startStream d t m : touches_only lp (startStream E d t m).
Proof.
  intros w p _. destruct (startStream_trace E d t m w) as (r & w' & rest & -> & _ & _ & Hf).
  simpl. rewrite Hf. reflexivity.
Qed.

Lemma frame_stopStream : touches_only lp stopStream.
Proof. intros w p _. rewrite stopStream_shape. reflexivity. Qed.

Lemma frame_restartStream st cd : touches_only lp (restartStream E st cd).
Proof.
  unfold restartStream. destruct st; [|apply frame_ret].
  apply frame_bind; [apply frame_startStream | intros; apply frame_ret].
Qed.

Lemma frame_v4l2Capture dev st : touches_only lp (v4l2Capture E lp dev st).
Proof.
  unfold v4l2Capture. destruct (negb (Js.truthy dev)); [apply frame_throw|].
  apply frame_bind; [apply frame_get|]. intros cd.
  apply frame_try_catch.
  - apply frame_bind.
    { unfold when. destruct st; [apply frame_stopStream | apply frame_ret]. }
    intros _. apply frame_bind; [apply frame_log|]. intros _.
    apply frame_bind; [apply frame_spawn|]. intros pid.
    destruct (run E pid).
    + apply frame_throw.
    + apply frame_bind; [apply frame_restartStream | intros; apply frame_ret].
    + apply frame_bind; [apply frame_restartStream|]. intros _.
      apply frame_bind; [apply frame_restartStream | intros; apply frame_ret].
    + apply frame_bind; [apply frame_child_writes|]. intros _.
      apply frame_bind; [apply frame_restartStream | intros; apply frame_ret].
  - intros e. apply frame_bind; [apply frame_restartStream | intros; apply frame_throw].
Qed.

Lemma frame_v4l2FallbackCapture dev : touches_only lp (v4l2FallbackCapture E lp dev).
Proof.
  unfold v4l2FallbackCapture. apply frame_bind; [apply frame_get|]. intros cd.
  apply frame_in_async_executor. destruct cd; [|apply frame_throw].
  apply frame_bind; [apply frame_spawn | intros; apply frame_captureOutcome].
Qed.

Lemma frame_r6Capture dev : touches_only lp (r6Capture E lp dev).
Proof.
  unfold r6Capture. apply frame_bind.
  - apply frame_try_catch; [|intros; apply frame_ret].
    destruct (bool_decide _); [apply frame_throw | apply frame_ret].
  - intros [|]; [|apply frame_ret].
    apply frame_bind; [apply frame_spawn | intros; apply frame_captureOutcome].
Qed.

Lemma frame_mk5dCapture dev : touches_only lp (mk5dCapture E lp dev).
Proof.
  unfold mk5dCapture.
  destruct dev, (captureDevices E); try apply frame_throw;
    (apply frame_bind; [apply frame_spawn | intros; apply frame_captureOutcome]).
Qed.

Lemma frame_specialized dev ty mo : touches_only lp (specialized E lp dev ty mo).
Proof.
  unfold specialized. apply frame_bind.
  - unfold isCanonR6. destruct (Js.truthy mo); [|apply frame_ret].
    destruct (_ || _); [apply frame_ret|].
    destruct (Js.seq ty _); [|apply frame_ret].
    destruct dev; [apply frame_ret | apply frame_throw].
  - intros [|].
    + apply frame_try_catch; [apply frame_r6Capture | intros; apply frame_ret].
    + destruct (isCanon5D mo); [|apply frame_ret].
      apply frame_try_catch; [apply frame_mk5dCapture | intros; apply frame_ret].
Qed.

End Frames.

(** the output path is never the placeholder's path *)
Lemma localPath_not_placeholder (E : Env) (ts id : string) :
  Capture.mockImagePath E <> CaptureService.localPathOf E ts id.
Proof.
  unfold Capture.mockImagePath, CaptureService.localPathOf, CaptureService.tempDir.
  induction (cwd E) as [|c s IH]; simpl.
  - discriminate.
  - intros H. inversion H. auto.
Qed.

(** ** The capture chain *)

Section CaptureChain.
Import Capture CaptureService.
Variable E : Env.


End CaptureChain.



(** C2, as the code has it.  When the chain of methods runs to its end,
    whatever it reported, capturePhoto returns success exactly when a file
    exists at the output path, and then with that path and file name.  When
    the chain is cut short by an exception (the standard method rejects on
    an empty device path or on a failed child set-up), the result is a
    failure carrying that exception and the file check is not made; when a
    method never settles, neither does capturePhoto. *)
Theorem capture_result_follows_file (E : Env) (timestamp uniqueId : string)
    (devicePath cameraType cameraModel : option string) (streamer : bool) (w : World) :
  let lp := CaptureService.localPathOf E timestamp uniqueId in
  let fn := CaptureService.filenameOf timestamp uniqueId in
  let chain := CaptureService.run_chain E lp devicePath cameraType cameraModel streamer w in
  let out := CaptureService.capturePhoto E timestamp uniqueId devicePath cameraType
               cameraModel streamer w in
  match fst chain with
  | Ok reported =>
      snd out = snd chain /\
      (reported_success (fst out) = true <-> existsSync lp (snd chain) = true) /\
      fst out = Ok (if existsSync lp (snd chain)
                    then CaptureService.Success lp fn
                    else CaptureService.Failure "Capture failed: No image file created")
  | Throw e => out = (Ok (CaptureService.Failure e), snd chain)
  | Hang => out = (Hang, snd chain)
  end.
Proof.
  intros lp fn chain out. subst out chain. unfold CaptureService.capturePhoto.
  fold lp. fold fn.
  unfold try_catch. unfold bind.
  destruct (CaptureService.run_chain E lp devicePath cameraType cameraModel streamer w)
    as [[reported|e|] w1]; simpl; [|reflexivity|reflexivity].
  munfold. simpl.
  destruct (existsSync lp w1); simpl; repeat split; auto; discriminate.
Qed.

(** C2 fails as stated: with a Canon R6 whose specialized child leaves a
    file but exits with code 1, capturePhoto reports failure although the
    file exists -- both when the device path is empty (the standard method
    rejects) and when setting up the standard child throws. *)
Lemma capture_failure_despite_file :
  let lp := CaptureService.localPathOf env_partial "t" "u" in
  let out1 := CaptureService.capturePhoto env_partial "t" "u"
                (Some "") (Some "canon") (Some "Canon EOS R6") true (init_world ∅) in
  let out2 := CaptureService.capturePhoto env_partial "t" "u"
                (Some "/dev/video0") (Some "canon") (Some "Canon EOS R6") true (init_world ∅) in
  ~ (reported_success (fst out1) = true <-> existsSync lp (snd out1) = true) /\
  ~ (reported_success (fst out2) = true <-> existsSync lp (snd out2) = true) /\
  fst out1 = Ok (CaptureService.Failure "No v4l2 device available for capture") /\
  fst out2 = Ok (CaptureService.Failure "spawn").
Proof.
  intros lp out1 out2.
  assert (F1 : reported_success (fst out1) = false) by (vm_compute; reflexivity).
  assert (F2 : reported_success (fst out2) = false) by (vm_compute; reflexivity).
  assert (X1 : existsSync lp (snd out1) = true) by (vm_compute; reflexivity).
  assert (X2 : existsSync lp (snd out2) = true) by (vm_compute; reflexivity).
  split; [|split; [|split]].
  - rewrite F1, X1. intros [_ H]. discriminate (H eq_refl).
  - rewrite F2, X2. intros [_ H]. discriminate (H eq_refl).
  - vm_compute; reflexivity.
  - vm_compute; reflexivity.
Qed.

(** ** The capture request guard *)





(** ** The restart request guard *)

Section RestartGuard.
Import RestartController.






End RestartGuard.



(** ** Device verification *)

(** C7, as the code has it.  verifyDevice never throws: on every host and
    for every argument it resolves to a boolean.  On a Linux host it
    resolves to false when the path does not exist and when the
    introspection command fails (it cannot be spawned, it exits with a
    non-zero code, or its error output contains 'failed' or 'error').  On
    any other platform it resolves to true without looking at the device. *)
Theorem verifyDevice_fails_closed (H : DeviceManager.Host) (devicePath : option string)
    (v : DeviceManager.Verified) :
  (exists b, fst (DeviceManager.verifyDevice H devicePath v) = Ok b) /\
  (DeviceManager.host_platform H <> "linux" ->
     fst (DeviceManager.verifyDevice H devicePath v) = Ok true) /\
  (DeviceManager.host_platform H = "linux" ->
     DeviceManager.host_existsSync H devicePath = false ->
     fst (DeviceManager.verifyDevice H devicePath v) = Ok false) /\
  (DeviceManager.host_platform H = "linux" ->
     introspection_fails (DeviceManager.host_v4l2ctl H devicePath) = true ->
     fst (DeviceManager.verifyDevice H devicePath v) = Ok false).
Proof.
  unfold DeviceManager.verifyDevice.
  split; [|split; [|split]].
  - destruct (negb _); [eauto|].
    destruct (negb _); [eauto|].
    destruct (DeviceManager.host_statSync H devicePath) as [|[|]]; eauto.
    destruct (DeviceManager.host_v4l2ctl H devicePath); eauto.
  - intros Hp. apply String.eqb_neq in Hp. rewrite Hp. reflexivity.
  - intros Hp Hex. rewrite Hp, Hex. reflexivity.
  - intros Hp Hfail. rewrite Hp. simpl.
    destruct (negb _); [reflexivity|].
    destruct (DeviceManager.host_statSync H devicePath) as [|[|]]; try reflexivity.
    destruct (DeviceManager.host_v4l2ctl H devicePath) as [| | |code output error];
      try reflexivity.
    simpl in *. unfold DeviceManager.closeVerdict.
    destruct (code =? 0); simpl in *; [|reflexivity].
    destruct (Js.includes error "failed"); simpl in *; [reflexivity|].
    destruct (Js.includes error "error"); simpl in *; [reflexivity|discriminate].
Qed.

(** C7 on a Linux host: a missing node, and a node whose introspection
    exits with code 1. *)
Lemma verifyDevice_fails_closed_witness :
  fst (DeviceManager.verifyDevice host_linux (Some "/dev/video7") ∅) = Ok false /\
  fst (DeviceManager.verifyDevice host_linux (Some "/dev/video0") ∅) = Ok false.
Proof.
  split.
  - apply (proj1 (proj2 (proj2
             (verifyDevice_fails_closed host_linux (Some "/dev/video7") ∅))));
      vm_compute; reflexivity.
  - apply (proj2 (proj2 (proj2
             (verifyDevice_fails_closed host_linux (Some "/dev/video0") ∅))));
      vm_compute; reflexivity.
Defined.

(** C7 fails as stated: off Linux, a path that does not exist and whose
    introspection cannot even be spawned is reported usable. *)
Lemma verifyDevice_true_off_linux :
  DeviceManager.host_existsSync host_mac (Some "/dev/video9") = false /\
  introspection_fails (DeviceManager.host_v4l2ctl host_mac (Some "/dev/video9")) = true /\
  fst (DeviceManager.verifyDevice host_mac (Some "/dev/video9") ∅) = Ok true.
Proof. repeat split. Qed.

(** ** Scope of the single-handle guarantee *)

(** The guarantee of C3 is about the recorded reference.  Two start
    requests for an R6 in quick succession both begin the asynchronous
    set-up; each set-up spawns an ffmpeg child and installs the handlers,
    and only the first to finish is recorded. *)
Lemma second_R6_child_is_not_recorded :
  let start := StreamService.CallStart (Some "/dev/video1") (Some "canon")
                 (Some "Canon Camera (v4l2 mode)") in
  let w := StreamService.steps env_failing
             [start; start; StreamService.AsyncDone 0; StreamService.AsyncDone 0]
             (init_world ∅) in
  nspawn w = 2%nat /\ mjpegProcess w = Some (HProc 0) /\ watched w = [1%nat; 0%nat].
Proof. repeat split; vm_compute; reflexivity. Qed.

(* ================================================================== *)
(** * Part III : further properties of the services *)
(* ================================================================== *)

(** ** The handle and the URL of the supervisor *)

Section StreamUrl.
Import StreamService.
Variable E : Env.

Lemma url_follows_handle_step ev w :
  url_follows_handle w -> url_follows_handle (step E ev w).
Proof.
  intros HU.
  assert (Hclear : forall w0, url_follows_handle (recorded None None w0))
    by (intros; left; split; reflexivity).
  destruct ev as [d t m| |i|p chunk|p|p code]; simpl.
  - destruct (startStream_shape E d t m w)
      as [[h [_ ->]]|[[_ ->]|[[_ ->]|[[_ ->]|[[_ ->]|[_ ->]]]]]]; simpl;
      try exact HU; try apply Hclear.
    + right. eexists. split; reflexivity.
    + right. eexists. split; reflexivity.
  - rewrite stopStream_shape. apply Hclear.
  - destruct (pending w !! i) as [t|]; [|exact HU].
    assert (HU' : url_follows_handle (set_pending (delete i (pending w)) w)) by exact HU.
    destruct (finish_pending_shape E t (set_pending (delete i (pending w)) w))
      as [->|[[what ->]|[[what [_ ->]]|[what ->]]]]; simpl; try exact HU'.
    right. eexists. split; reflexivity.
  - unfold if_watched. destruct (bool_decide _); [|exact HU].
    destruct (on_stderr_data_shape p chunk w) as [->| ->]; [exact HU | apply Hclear].
  - unfold if_watched. destruct (bool_decide _); [|exact HU]. apply Hclear.
  - unfold if_watched. destruct (bool_decide _); [|exact HU]. apply Hclear.
Qed.

Lemma url_follows_handle_steps evs w :
  url_follows_handle w -> url_follows_handle (steps E evs w).
Proof.
  revert w. induction evs as [|ev evs IH]; intros w HU; simpl; [exact HU|].
  apply IH, url_follows_handle_step, HU.
Qed.

End StreamUrl.

(** X1.  The supervisor sets and clears its two properties together:
    after any sequence of calls, asynchronous completions and child
    events, either no handle and no URL are recorded, or a handle is
    recorded and the URL is the MJPEG endpoint. *)
Theorem stream_url_follows_handle (E : Env) (fs : gmap string string)
    (evs : list StreamService.StreamEvent) :
  url_follows_handle (StreamService.steps E evs (init_world fs)).
Proof.
  apply url_follows_handle_steps. left. split; reflexivity.
Qed.

(** X2.  What the stream endpoint answers, in every state the supervisor
    can reach: a redirect to the MJPEG endpoint as soon as a handle is
    recorded or the facade holds a connected camera with a device -- the
    latter also when no preview child is running; off Linux a redirect to
    the browser page when a camera type is known; 503 otherwise. *)
Theorem streamCamera_answer (E : Env) (fs : gmap string string)
    (evs : list StreamService.StreamEvent) (c : CameraService.Camera) :
  let w := StreamService.steps E evs (init_world fs) in
  StreamController.streamCamera E c w =
    if bool_decide (is_Some (mjpegProcess w)) ||
       (CameraService.cameraConnected c && Js.truthy (CameraService.v4l2Device c))
    then StreamController.Redirect "/api/camera/mjpeg-stream"
    else if negb (String.eqb (platform E) "linux") && Js.truthy (CameraService.cameraType c)
    then StreamController.Redirect "/api/camera/browser"
    else StreamController.Unavailable503.
Proof.
  intros w.
  unfold StreamController.streamCamera, CameraService.getStreamUrl, StreamService.getStreamUrl.
  destruct (stream_url_follows_handle E fs evs) as [[Hp Hu]|[h [Hp Hu]]]; fold w in Hp, Hu;
    rewrite Hp, Hu.
  - rewrite bool_decide_eq_false_2 by (intros [x Hx]; discriminate).
    change (Js.truthy None) with false. cbn [orb].
    destruct (CameraService.cameraConnected c && Js.truthy (CameraService.v4l2Device c));
      [reflexivity|].
    destruct (negb _ && _); reflexivity.
  - rewrite bool_decide_eq_true_2 by eauto. reflexivity.
Qed.

(** X3.  Stopping is idempotent: whatever the state, after [stopStream]
    no handle and no URL are recorded, and a second [stopStream] sends no
    signal -- it only logs the call and starts the device cleanup again. *)
Theorem stopStream_twice (w : World) :
  let w1 := snd (StreamService.stopStream w) in
  mjpegProcess w1 = None /\ mjpegUrl w1 = None /\
  StreamService.stopStream w1 = (Ok tt, logged [EvStopStream; EvReleaseDevices] w1).
Proof.
  intros w1. subst w1. rewrite stopStream_shape. cbn [snd].
  split; [reflexivity|]. split; [reflexivity|].
  rewrite stopStream_shape. reflexivity.
Qed.

(** X4.  The 'close' (or 'error') event of any child that ever had the
    handlers installed clears whatever handle is recorded at that time,
    also when the recorded child is another, newer one: the newer child
    keeps running, is sent no signal and is no longer referenced. *)
Theorem stale_close_drops_running_stream (E : Env) (p q : nat) (code : Z) (w : World) :
  p ∈ watched w ->
  mjpegProcess w = Some (HProc q) ->
  p <> q ->
  let w1 := StreamService.step E (StreamService.ChildClose p code) w in
  let w2 := StreamService.step E (StreamService.ChildError p) w in
  mjpegProcess w1 = None /\ mjpegUrl w1 = None /\ trace w1 = trace w /\
  (forall sig, EvKill q sig ∉ trace w -> EvKill q sig ∉ trace w1) /\
  w2 = w1.
Proof.
  intros Hp Hq Hne w1 w2. subst w1 w2. simpl. unfold StreamService.if_watched.
  rewrite bool_decide_eq_true_2 by exact Hp. simpl. auto.
Qed.

(** X4 on a webcam: the preview is started, stopped and started again;
    the 'close' of the first child then arrives and clears the handle of
    the second. *)
Lemma stale_close_drops_running_stream_witness :
  let w := StreamService.steps env_failing
             [start_webcam; StreamService.CallStop; start_webcam] (init_world ∅) in
  mjpegProcess w = Some (HProc 1) /\
  mjpegProcess (StreamService.step env_failing (StreamService.ChildClose 0 0) w) = None /\
  forall sig, EvKill 1 sig ∉
    trace (StreamService.step env_failing (StreamService.ChildClose 0 0) w).
Proof.
  intros w.
  assert (Hw : 0%nat ∈ watched w).
  { apply (bool_decide_unpack _). vm_compute. exact I. }
  assert (Hq : mjpegProcess w = Some (HProc 1)) by (vm_compute; reflexivity).
  destruct (stale_close_drops_running_stream env_failing 0 1 0 w Hw Hq ltac:(lia))
    as (H1 & _ & Htr & Hk & _).
  split; [exact Hq|]. split; [exact H1|].
  intros sig. apply Hk.
  assert (HI : stream_inv w) by (apply steps_inv, inv_init).
  apply (inv_recorded w HI 1%nat Hq).
Defined.

(** X5.  The watchdog acts on three messages only.  For a child with the
    handlers installed, a chunk of stderr that contains "No such device",
    "Device or resource busy" or "Not a video capture device" sends
    SIGTERM to that child and clears the handle and the URL; any other
    chunk changes nothing.  Output of a child without the handlers never
    changes anything. *)
Theorem watchdog_patterns (E : Env) (p : nat) (chunk : string) (w : World) :
  StreamService.step E (StreamService.ChildStderr p chunk) w =
    if bool_decide (p ∈ watched w) &&
       (Js.includes chunk "No such device" ||
        Js.includes chunk "Device or resource busy" ||
        Js.includes chunk "Not a video capture device")
    then recorded None None (logged [EvKill p "SIGTERM"] w)
    else w.
Proof.
  simpl. unfold StreamService.if_watched, StreamService.on_stderr_data.
  destruct (bool_decide (p ∈ watched w)); [|reflexivity]. cbn [andb].
  destruct (Js.includes chunk "No such device" || Js.includes chunk "Device or resource busy");
    cbn [orb]; [munfold; reflexivity|].
  destruct (Js.includes chunk "Not a video capture device"); munfold; reflexivity.
Qed.

(** ** The reconnection poll, case by case *)

(** X6.  A poll that finds the camera as it was makes no call to the
    supervisor and changes nothing: neither when no camera was connected
    and none is detected, nor when the connected camera is detected again
    with the same device, type and model. *)
Theorem poll_without_change_is_quiet (E : Env) (result : CameraService.Detection)
    (c : CameraService.Camera) (w : World) :
  (CameraService.cameraConnected c = false /\ CameraService.detected result = false) \/
  (CameraService.cameraConnected c = true /\ CameraService.detected result = true /\
   CameraService.det_device result = CameraService.v4l2Device c /\
   CameraService.det_type result = CameraService.cameraType c /\
   CameraService.det_model result = CameraService.cameraModel c) ->
  CameraService.checkCameraReconnection E result c w = (CameraService.cameraConnected c, c, w).
Proof.
  unfold CameraService.checkCameraReconnection, CameraService.checkCameraAvailability.
  intros [[Hc Hd] | (Hc & Hd & Hdev & Hty & Hmo)]; rewrite Hd, Hc.
  - reflexivity.
  - cbn [negb andb fst snd]. unfold CameraService.set_identity. rewrite Hdev, Hty, Hmo.
    cbn [CameraService.v4l2Device CameraService.cameraType CameraService.cameraModel].
    unfold Js.seq. rewrite !bool_decide_eq_true_2 by reflexivity.
    destruct c; reflexivity.
Qed.

(** X6 on a connected webcam that is detected again. *)
Lemma poll_without_change_is_quiet_witness :
  let c := CameraService.mkCamera true (Some "webcam") (Some "USB Webcam")
             (Some "/dev/video0") None None in
  CameraService.checkCameraReconnection env_failing
    (CameraService.mkDetection true (Some "/dev/video0") (Some "webcam") (Some "USB Webcam"))
    c (init_world ∅) = (true, c, init_world ∅).
Proof.
  intros c.
  apply (poll_without_change_is_quiet env_failing
           (CameraService.mkDetection true (Some "/dev/video0") (Some "webcam")
              (Some "USB Webcam")) c (init_world ∅)).
  right. repeat split; reflexivity.
Defined.

(** X7.  A poll that finds the connected camera under another device
    path, type or model makes exactly two calls to the supervisor, in this
    order: stop, then start with the identity just detected, which is also
    the identity the facade holds afterwards. *)
Theorem poll_changed_identity_restarts (E : Env) (c : CameraService.Camera) (w : World)
    (d t m : option string) :
  CameraService.cameraConnected c = true ->
  Js.truthy d = true ->
  d <> CameraService.v4l2Device c \/ t <> CameraService.cameraType c \/
  m <> CameraService.cameraModel c ->
  let out := CameraService.checkCameraReconnection E (CameraService.mkDetection true d t m) c w in
  fst (fst out) = true /\
  stream_calls (trace (snd out)) =
    stream_calls (trace w) ++ [EvStopStream; EvStartStream d t m] /\
  CameraService.cameraConnected (snd (fst out)) = true /\
  CameraService.v4l2Device (snd (fst out)) = d /\
  CameraService.cameraType (snd (fst out)) = t /\
  CameraService.cameraModel (snd (fst out)) = m.
Proof.
  intros Hc Hd Hne out. subst out.
  unfold CameraService.checkCameraReconnection, CameraService.checkCameraAvailability.
  cbn [CameraService.detected CameraService.det_device CameraService.det_type
       CameraService.det_model]. rewrite Hc. cbn [negb andb].
  set (c1 := CameraService.set_identity d t m c).
  replace (negb (Js.seq (CameraService.v4l2Device c) (CameraService.v4l2Device c1)) ||
           negb (Js.seq (CameraService.cameraType c) (CameraService.cameraType c1)) ||
           negb (Js.seq (CameraService.cameraModel c) (CameraService.cameraModel c1)))
    with true.
  2:{ symmetry. unfold Js.seq. subst c1. simpl.
      destruct Hne as [Hne|[Hne|Hne]].
      - rewrite (bool_decide_eq_false_2 (CameraService.v4l2Device c = d)) by congruence.
        reflexivity.
      - rewrite (bool_decide_eq_false_2 (CameraService.cameraType c = t)) by congruence.
        apply orb_true_iff. left. apply orb_true_r.
      - rewrite (bool_decide_eq_false_2 (CameraService.cameraModel c = m)) by congruence.
        apply orb_true_r. }
  destruct (stopCameraStream_calls c1 w) as (Hcalls1 & Hcon1 & Hv1 & Hty1 & Hmo1).
  destruct (CameraService.stopCameraStream c1 w) as [c2 w2]. cbn [fst snd] in *.
  assert (Hdev2 : Js.truthy (CameraService.v4l2Device c2) = true) by (rewrite Hv1; exact Hd).
  destruct (startCameraStream_calls E c2 w2 Hdev2) as (Hcalls2 & Hcon2 & Hv2 & Hty2 & Hmo2).
  destruct (CameraService.startCameraStream E c2 w2) as [c3 w3]. cbn [fst snd] in *.
  split; [reflexivity|]. split.
  { rewrite Hcalls2, Hcalls1, Hv1, Hty1, Hmo1, <- app_assoc. reflexivity. }
  rewrite Hcon2, Hcon1, Hv2, Hv1, Hty2, Hty1, Hmo2, Hmo1. subst c1. simpl. auto.
Qed.

(** X7 on a webcam that moved from /dev/video0 to /dev/video2. *)
Lemma poll_changed_identity_restarts_witness :
  let c := CameraService.mkCamera true (Some "webcam") (Some "USB Webcam")
             (Some "/dev/video0") None None in
  stream_calls (trace (snd (CameraService.checkCameraReconnection env_failing
     (CameraService.mkDetection true (Some "/dev/video2") (Some "webcam") (Some "USB Webcam"))
     c (init_world ∅)))) =
  [EvStopStream; EvStartStream (Some "/dev/video2") (Some "webcam") (Some "USB Webcam")].
Proof.
  intros c.
  apply (poll_changed_identity_restarts env_failing c (init_world ∅)
           (Some "/dev/video2") (Some "webcam") (Some "USB Webcam")).
  - reflexivity.
  - reflexivity.
  - left. discriminate.
Defined.

(** ** Captures through the facade *)

(** X8.  What a capture through the facade can yield.  The image
    processor is handed a path and a file name only when a file exists at
    that path, which is the computed output path.  Without a bound device
    the facade throws 'No camera device available for capture' and does
    nothing.  Every failure of the capture service -- whatever its cause --
    is rethrown as 'Photo capture failed'. *)
Theorem facade_capture_outcomes (E : Env) (timestamp uniqueId : string)
    (c : CameraService.Camera) (w : World) :
  let out := CameraService.capturePhoto E timestamp uniqueId c w in
  match fst out with
  | Ok (path, filename) =>
      path = CaptureService.localPathOf E timestamp uniqueId /\
      filename = CaptureService.filenameOf timestamp uniqueId /\
      existsSync path (snd out) = true /\
      Js.truthy (CameraService.v4l2Device c) = true
  | Throw e =>
      (e = "No camera device available for capture" /\ snd out = w /\
       Js.truthy (CameraService.v4l2Device c) = false) \/
      (e = "Photo capture failed" /\ Js.truthy (CameraService.v4l2Device c) = true)
  | Hang => Js.truthy (CameraService.v4l2Device c) = true
  end.
Proof.
  intros out. subst out. unfold CameraService.capturePhoto.
  destruct (Js.truthy (CameraService.v4l2Device c)) eqn:Hd; cbn [negb].
  2:{ simpl. left. auto. }
  unfold CaptureService.capturePhoto. munfold.
  destruct (CaptureService.run_chain E _ _ _ _ true w) as [[reported|e|] w1];
    cbn [fst snd]; [|right; auto|reflexivity].
  destruct (existsSync (CaptureService.localPathOf E timestamp uniqueId) w1) eqn:Hex;
    cbn [negb fst snd].
  - auto.
  - right. auto.
Qed.

(** X9.  The facade forgets no identity on a disconnect.  After the poll
    that reports the camera gone, the facade is marked disconnected but
    still holds the device, type and model of the camera that has
    vanished; a capture request is therefore not refused with 'No camera
    device available for capture': it runs the capture chain on the old
    device, exactly as before the disconnect. *)
Theorem capture_after_disconnect (E : Env) (gone : CameraService.Detection)
    (c : CameraService.Camera) (w : World) (timestamp uniqueId : string) :
  CameraService.cameraConnected c = true ->
  CameraService.detected gone = false ->
  Js.truthy (CameraService.v4l2Device c) = true ->
  let c' := snd (fst (CameraService.checkCameraReconnection E gone c w)) in
  CameraService.cameraConnected c' = false /\
  CameraService.v4l2Device c' = CameraService.v4l2Device c /\
  CameraService.cameraType c' = CameraService.cameraType c /\
  CameraService.cameraModel c' = CameraService.cameraModel c /\
  forall w',
    CameraService.capturePhoto E timestamp uniqueId c' w' =
      CameraService.capturePhoto E timestamp uniqueId c w' /\
    fst (CameraService.capturePhoto E timestamp uniqueId c' w')
      <> Throw "No camera device available for capture".
Proof.
  intros Hc Hgone Hd c'. subst c'.
  unfold CameraService.checkCameraReconnection, CameraService.checkCameraAvailability.
  rewrite Hgone, Hc. cbn [negb andb].
  destruct (stopCameraStream_calls (CameraService.set_connected false c) w)
    as (_ & Hcon & Hv & Hty & Hmo).
  destruct (CameraService.stopCameraStream (CameraService.set_connected false c) w)
    as [c2 w2]. cbn [fst snd] in *.
  split; [exact Hcon|]. split; [exact Hv|]. split; [exact Hty|]. split; [exact Hmo|].
  intros w'.
  assert (Heq : CameraService.capturePhoto E timestamp uniqueId c2 w' =
                CameraService.capturePhoto E timestamp uniqueId c w').
  { unfold CameraService.capturePhoto. rewrite Hv, Hty, Hmo. reflexivity. }
  split; [exact Heq|]. rewrite Heq.
  unfold CameraService.capturePhoto. rewrite Hd. cbn [negb].
  unfold CaptureService.capturePhoto. munfold.
  destruct (CaptureService.run_chain E _ _ _ _ true w') as [[reported|e|] w1];
    cbn [fst snd]; try discriminate.
  destruct (existsSync _ w1); cbn [negb fst snd]; discriminate.
Qed.

(** X9 on a webcam that has been unplugged. *)
Lemma capture_after_disconnect_witness :
  let c := CameraService.mkCamera true (Some "webcam") (Some "USB Webcam")
             (Some "/dev/video0") None None in
  let c' := snd (fst (CameraService.checkCameraReconnection env_failing
                        (CameraService.mkDetection false None None None) c (init_world ∅))) in
  CameraService.cameraConnected c' = false /\
  CameraService.v4l2Device c' = Some "/dev/video0".
Proof.
  intros c c'.
  destruct (capture_after_disconnect env_failing
              (CameraService.mkDetection false None None None) c (init_world ∅) "t" "u"
              eq_refl eq_refl eq_refl) as (H1 & H2 & _).
  split; [exact H1 | exact H2].
Defined.

(** ** The facade's copy of the handle *)

Section StartCases.
Import StreamService.
Variable E : Env.

(** the standard path, when the child can be set up *)
Lemma startStream_standard d t m w :
  mjpegProcess w = None ->
  Js.truthy d = true ->
  isR6 (default "" d) t m = false ->
  is5D m = false ->
  run E (nspawn w) <> RunThrows ->
  startStream E d t m w =
    (Ok (Some (HProc (nspawn w)), Some STREAM_URL),
     watching (nspawn w) (recorded (Some (HProc (nspawn w))) (Some STREAM_URL)
       (with_child (PreviewStandard (mjpegArgs (default "" d) t m))
          (logged [EvStartStream d t m] w)))).
Proof.
  intros Hcur Hd HR6 H5D Hrun.
  unfold startStream. munfold. simpl. rewrite Hcur, Hd. simpl. rewrite HR6, H5D. simpl.
  unfold standardSetup, setupMjpegStream, spawn, record_stream, setupStreamErrorHandling.
  munfold. simpl.
  destruct (truthy_default d Hd) as [Hd' _]. rewrite Hd'. simpl.
  destruct (run E (nspawn w)) eqn:Hr; simpl; [congruence| | |]; reflexivity.
Qed.

(** the R6 path: only the asynchronous set-up is started *)
Lemma startStream_R6 d t m w :
  mjpegProcess w = None ->
  Js.truthy d = true ->
  isR6 (default "" d) t m = true ->
  startStream E d t m w =
    (Ok (None, mjpegUrl w),
     queued (PendingR6 (default "" d) t m) (logged [EvStartStream d t m; EvReleaseDevices] w)).
Proof.
  intros Hcur Hd HR6.
  unfold startStream. munfold. simpl. rewrite Hcur, Hd. simpl. rewrite HR6. simpl.
  unfold setupSpecializedR6Stream_start. munfold. simpl. rewrite Hcur.
  unfold queued, logged. simpl. rewrite <- app_assoc. reflexivity.
Qed.

(** the R6 set-up, when a capture device is found and the child starts *)
Lemma finish_R6_records dp t m w :
  mjpegProcess w = None ->
  captureDevices E <> [] ->
  run E (nspawn w) <> RunThrows ->
  finish_pending E (PendingR6 dp t m) w =
    (Ok tt, recorded (Some (HProc (nspawn w))) (Some STREAM_URL)
              (watching (nspawn w) (with_child PreviewR6 w))).
Proof.
  intros Hcur Hdev Hrun.
  unfold finish_pending, setupSpecializedR6Stream_finish, record_stream,
    setupStreamErrorHandling, spawn.
  munfold. simpl.
  rewrite bool_decide_eq_false_2 by exact Hdev. simpl.
  destruct (run E (nspawn w)) eqn:Hr; simpl; [congruence| | |];
    rewrite Hcur; destruct w; reflexivity.
Qed.

End StartCases.

(** a request that passes the two guards of [getMjpegStream] with a bound
    device is served from the facade's copy of the handle when that is a
    child process *)
Lemma getMjpegStream_shared (E : Env) (now : Z) (j y : bool) (c : CameraService.Camera)
    (w : World) (s : StreamController.State) (p : nat) :
  StreamController.activeStreamConnections s < 3 ->
  Js.truthy (CameraService.v4l2Device c) = true ->
  (CameraService.cameraType c = Some "canon" -> CameraService.cameraModel c <> None) ->
  CameraService.getMjpegProcess c = Some (HProc p) ->
  fst (StreamController.getMjpegStream E now j y c w s) = StreamController.SharedStream p.
Proof.
  intros Hs Hd Hm Hp. unfold StreamController.getMjpegStream.
  replace (3 <=? StreamController.activeStreamConnections s) with false
    by (symmetry; apply Z.leb_gt; lia).
  rewrite andb_false_r.
  replace (StreamController.MAX_STREAM_CONNECTIONS <=? StreamController.activeStreamConnections s)
    with false by (symmetry; apply Z.leb_gt; unfold StreamController.MAX_STREAM_CONNECTIONS; lia).
  rewrite Hd. cbn [negb].
  unfold StreamController.selectStreamDevice, Js.seq.
  case_bool_decide as Hty.
  - destruct (CameraService.cameraModel c) as [model|]; [|exfalso; apply (Hm Hty); reflexivity].
    destruct (List.find _ _); rewrite Hp; reflexivity.
  - rewrite Hp. reflexivity.
Qed.

(** X10.  The facade keeps its own copy of the stream handle and never
    learns that the supervisor dropped it.  A preview is started through
    the facade on a camera of the standard kind; its child then reports a
    vanished or busy device.  The watchdog sends SIGTERM and the
    supervisor forgets the child, but [getMjpegProcess] of the facade
    still returns it, and a stream request that passes the guards is
    served by piping the output of the child that has just been killed. *)
Theorem shared_stream_outlives_watchdog (E : Env) (c : CameraService.Camera) (w : World)
    (chunk : string) :
  mjpegProcess w = None ->
  Js.truthy (CameraService.v4l2Device c) = true ->
  StreamService.isR6 (default "" (CameraService.v4l2Device c)) (CameraService.cameraType c)
    (CameraService.cameraModel c) = false ->
  StreamService.is5D (CameraService.cameraModel c) = false ->
  run E (nspawn w) <> RunThrows ->
  Js.includes chunk "No such device" = true \/
  Js.includes chunk "Device or resource busy" = true ->
  (CameraService.cameraType c = Some "canon" -> CameraService.cameraModel c <> None) ->
  let p := nspawn w in
  let cw := CameraService.startCameraStream E c w in
  let w2 := StreamService.step E (StreamService.ChildStderr p chunk) (snd cw) in
  mjpegProcess (snd cw) = Some (HProc p) /\
  mjpegProcess w2 = None /\
  EvKill p "SIGTERM" ∈ trace w2 /\
  CameraService.getMjpegProcess (fst cw) = Some (HProc p) /\
  forall now j y s,
    StreamController.activeStreamConnections s < 3 ->
    fst (StreamController.getMjpegStream E now j y (fst cw) w2 s)
      = StreamController.SharedStream p.
Proof.
  intros Hcur Hd HR6 H5D Hrun Hchunk Hmodel p cw w2.
  assert (Hcw : cw = (CameraService.set_stream (Some (HProc p)) (Some StreamService.STREAM_URL) c,
                      watching p (recorded (Some (HProc p)) (Some StreamService.STREAM_URL)
                        (with_child (PreviewStandard
                           (StreamService.mjpegArgs (default "" (CameraService.v4l2Device c))
                              (CameraService.cameraType c) (CameraService.cameraModel c)))
                           (logged [EvStartStream (CameraService.v4l2Device c)
                                      (CameraService.cameraType c)
                                      (CameraService.cameraModel c)] w))))).
  { subst cw. unfold CameraService.startCameraStream. rewrite Hd. cbn [negb].
    rewrite (startStream_standard E _ _ _ w Hcur Hd HR6 H5D Hrun). reflexivity. }
  assert (Hw2 : w2 = recorded None None (logged [EvKill p "SIGTERM"] (snd cw))).
  { subst w2. apply watchdog_fires_on_watched_child; [|exact Hchunk].
    rewrite Hcw. simpl. apply elem_of_cons. left. reflexivity. }
  split; [rewrite Hcw; reflexivity|].
  split; [rewrite Hw2; reflexivity|].
  split.
  { rewrite Hw2. simpl. apply elem_of_app. right. apply list_elem_of_singleton. reflexivity. }
  split; [rewrite Hcw; reflexivity|].
  intros now j y s Hs. apply getMjpegStream_shared; auto; rewrite Hcw; simpl; auto.
Qed.

(** X10 on a webcam that is unplugged while the preview runs. *)
Lemma shared_stream_outlives_watchdog_witness :
  let c := CameraService.mkCamera true (Some "webcam") (Some "USB Webcam")
             (Some "/dev/video0") None None in
  let cw := CameraService.startCameraStream env_failing c (init_world ∅) in
  let w2 := StreamService.step env_failing (StreamService.ChildStderr 0 vanished) (snd cw) in
  mjpegProcess w2 = None /\
  fst (StreamController.getMjpegStream env_failing 1700000000000 false false (fst cw) w2
         StreamController.init) = StreamController.SharedStream 0.
Proof.
  intros c cw w2.
  destruct (shared_stream_outlives_watchdog env_failing c (init_world ∅) vanished)
    as (_ & H2 & _ & _ & H5).
  - reflexivity.
  - reflexivity.
  - vm_compute; reflexivity.
  - vm_compute; reflexivity.
  - discriminate.
  - left. vm_compute; reflexivity.
  - discriminate.
  - split; [exact H2|]. apply H5. vm_compute; reflexivity.
Defined.

(** X11.  For a camera that takes the R6 path the facade never sees the
    handle.  [startStream] returns before the asynchronous set-up has
    spawned anything, so the facade records no process; when the set-up
    finishes, the supervisor records and watches the new child, but the
    facade's copy stays empty, and every stream request that passes the
    guards starts an ffmpeg child of its own instead of sharing the
    supervisor's. *)
Theorem r6_stream_is_never_shared (E : Env) (c : CameraService.Camera) (w : World) :
  mjpegProcess w = None ->
  Js.truthy (CameraService.v4l2Device c) = true ->
  StreamService.isR6 (default "" (CameraService.v4l2Device c)) (CameraService.cameraType c)
    (CameraService.cameraModel c) = true ->
  captureDevices E <> [] ->
  run E (nspawn w) <> RunThrows ->
  let cw := CameraService.startCameraStream E c w in
  let w2 := StreamService.step E (StreamService.AsyncDone (length (pending w))) (snd cw) in
  CameraService.getMjpegProcess (fst cw) = None /\
  nspawn (snd cw) = nspawn w /\
  mjpegProcess w2 = Some (HProc (nspawn w)) /\
  nspawn w ∈ watched w2 /\
  forall now j y s,
    StreamController.activeStreamConnections s < 3 ->
    exists args,
      fst (StreamController.getMjpegStream E now j y (fst cw) w2 s)
        = StreamController.DedicatedStream args.
Proof.
  intros Hcur Hd HR6 Hdev Hrun cw w2.
  set (d := CameraService.v4l2Device c) in *. set (t := CameraService.cameraType c) in *.
  set (m := CameraService.cameraModel c) in *.
  assert (Hcw : cw = (CameraService.set_stream None (mjpegUrl w) c,
                      queued (PendingR6 (default "" d) t m)
                        (logged [EvStartStream d t m; EvReleaseDevices] w))).
  { subst cw. unfold CameraService.startCameraStream. fold d t m. rewrite Hd. cbn [negb].
    rewrite (startStream_R6 E d t m w Hcur Hd HR6). reflexivity. }
  assert (Hw2 : w2 = recorded (Some (HProc (nspawn w))) (Some StreamService.STREAM_URL)
                       (watching (nspawn w) (with_child PreviewR6
                          (set_pending (pending w)
                             (logged [EvStartStream d t m; EvReleaseDevices] w))))).
  { subst w2. rewrite Hcw. cbn [snd StreamService.step]. unfold queued.
    cbn [pending set_pending logged set_trace].
    rewrite (list_lookup_middle (pending w) [] _ (length (pending w)) eq_refl).
    rewrite (delete_middle (pending w) []), app_nil_r.
    rewrite finish_R6_records; [reflexivity|exact Hcur|exact Hdev|exact Hrun]. }
  split; [rewrite Hcw; reflexivity|].
  split; [rewrite Hcw; reflexivity|].
  split; [rewrite Hw2; reflexivity|].
  split; [rewrite Hw2; simpl; apply elem_of_cons; left; reflexivity|].
  intros now j y s Hs. rewrite Hcw. cbn [fst].
  unfold StreamController.getMjpegStream.
  replace (3 <=? StreamController.activeStreamConnections s) with false
    by (symmetry; apply Z.leb_gt; lia).
  rewrite andb_false_r.
  replace (StreamController.MAX_STREAM_CONNECTIONS <=? StreamController.activeStreamConnections s)
    with false by (symmetry; apply Z.leb_gt; unfold StreamController.MAX_STREAM_CONNECTIONS; lia).
  assert (Hd' : Js.truthy (CameraService.v4l2Device (CameraService.set_stream None (mjpegUrl w) c))
                = true) by exact Hd.
  rewrite Hd'. cbn [negb].
  assert (Hmodel : exists model, m = Some model).
  { unfold StreamService.isR6 in HR6. fold m in HR6.
    destruct m as [model|]; [eauto|]. discriminate. }
  destruct Hmodel as [model Hmodel].
  unfold StreamController.selectStreamDevice. simpl. fold m. rewrite Hmodel.
  destruct (Js.seq _ _); [destruct (List.find _ _)|]; eexists; reflexivity.
Qed.

(** X11 on an R6 that appears as /dev/video1. *)
Lemma r6_stream_is_never_shared_witness :
  let c := CameraService.mkCamera true (Some "canon") (Some "Canon Camera (v4l2 mode)")
             (Some "/dev/video1") None None in
  let cw := CameraService.startCameraStream env_failing c (init_world ∅) in
  let w2 := StreamService.step env_failing (StreamService.AsyncDone 0) (snd cw) in
  CameraService.getMjpegProcess (fst cw) = None /\ mjpegProcess w2 = Some (HProc 0).
Proof.
  intros c cw w2.
  destruct (r6_stream_is_never_shared env_failing c (init_world ∅))
    as (H1 & _ & H3 & _).
  - reflexivity.
  - reflexivity.
  - vm_compute; reflexivity.
  - vm_compute; discriminate.
  - discriminate.
  - split; [exact H1 | exact H3].
Defined.

(** ** Device selection of the capture methods *)

(** X12.  The standard method only ever replaces the bound device by a
    node that reports 'Video Capture', and only when the bound device
    reports 'Video Output': the device it captures from is the bound one,
    or another one that is capture-capable -- the next-numbered node when
    it exists, otherwise a node of the /dev listing. *)
Theorem selectCaptureDevice_sound (E : Env) (w : World) (dp : string) :
  let cd := Capture.selectCaptureDevice E w dp in
  cd = dp \/
  (cd <> dp /\
   isCaptureInfo (devInfo E cd) = true /\
   Js.includes (exec_stdout (devInfo E dp)) "Video Output" = true /\
   ((cd = Capture.nextDevicePath dp /\ existsSync cd w = true) \/
    cd ∈ map (fun d => "/dev/" +:+ d) (videoDevices E))).
Proof.
  intros cd. subst cd. unfold Capture.selectCaptureDevice.
  destruct (Js.truthy (Some (exec_stdout (devInfo E dp))) &&
            Js.includes (exec_stdout (devInfo E dp)) "Video Output") eqn:Hout;
    [|left; reflexivity].
  apply andb_true_iff in Hout. destruct Hout as [_ Hout].
  destruct (existsSync (Capture.nextDevicePath dp) w &&
            isCaptureInfo (devInfo E (Capture.nextDevicePath dp))) eqn:Hnext.
  - apply andb_true_iff in Hnext. destruct Hnext as [Hex Hcap].
    case_bool_decide as Heq; [|right; auto 6].
    destruct (List.find _ _) as [d|] eqn:Hfind; [|left; exact Heq].
    apply find_some in Hfind. destruct Hfind as [Hin Hd].
    apply andb_true_iff in Hd. destruct Hd as [Hne Hcapd].
    apply negb_true_iff, bool_decide_eq_false in Hne.
    right. split; [congruence|]. split; [exact Hcapd|]. split; [exact Hout|].
    right. apply list_elem_of_In. exact Hin.
  - rewrite bool_decide_eq_true_2 by reflexivity.
    destruct (List.find _ _) as [d|] eqn:Hfind; [|left; reflexivity].
    apply find_some in Hfind. destruct Hfind as [Hin Hd].
    apply andb_true_iff in Hd. destruct Hd as [Hne Hcapd].
    apply negb_true_iff, bool_decide_eq_false in Hne.
    right. split; [exact Hne|]. split; [exact Hcapd|]. split; [exact Hout|].
    right. apply list_elem_of_In. exact Hin.
Qed.

(** X13.  The fallback method captures from the bound device, or from
    another device that reports 'Video Capture'; and it never uses the
    bound device when the /dev listing holds another capture-capable
    node. *)
Theorem selectFallbackDevice_sound (E : Env) (w : World) (devicePath : option string) :
  let cd := Capture.selectFallbackDevice E w devicePath in
  (cd = devicePath \/
   exists d, cd = Some d /\ Some d <> devicePath /\ isCaptureInfo (devInfo E d) = true) /\
  (forall d, d ∈ map (fun d => "/dev/" +:+ d) (videoDevices E) ->
     Some d <> devicePath -> isCaptureInfo (devInfo E d) = true -> cd <> devicePath).
Proof.
  intros cd. subst cd. unfold Capture.selectFallbackDevice.
  set (alt := Capture.nextDevicePath (default "" devicePath)).
  set (listing := filter (fun d => Some d ≠ devicePath)
                    (map (fun d => "/dev/" +:+ d) (videoDevices E))).
  assert (Hfound : forall d, List.find (fun d => isCaptureInfo (devInfo E d)) listing = Some d ->
            Some d <> devicePath /\ isCaptureInfo (devInfo E d) = true).
  { intros d Hfind. apply find_some in Hfind. destruct Hfind as [Hin Hcap].
    apply list_elem_of_In, list_elem_of_filter in Hin. destruct Hin as [Hne _]. auto. }
  assert (Hnone : List.find (fun d => isCaptureInfo (devInfo E d)) listing = None ->
            forall d, d ∈ map (fun d => "/dev/" +:+ d) (videoDevices E) ->
              Some d <> devicePath -> isCaptureInfo (devInfo E d) = true -> False).
  { intros Hfind d Hin Hne Hcap.
    assert (Hl : In d listing) by (apply list_elem_of_In, list_elem_of_filter; auto).
    pose proof (find_none _ _ Hfind d Hl) as Hf. simpl in Hf. congruence. }
  destruct (Js.truthy devicePath && Js.includes (default "" devicePath) "/dev/video") eqn:Hdev.
  - destruct (existsSync alt w && isCaptureInfo (devInfo E alt)) eqn:Halt.
    + apply andb_true_iff in Halt. destruct Halt as [_ Hcap].
      case_bool_decide as Heq.
      * destruct (List.find _ listing) as [d|] eqn:Hfind.
        -- destruct (Hfound d eq_refl) as [Hne Hc]. split; [right; eauto|].
           intros; congruence.
        -- split; [left; exact Heq|]. intros d Hin Hne Hc. exfalso. eauto.
      * split; [right; exists alt; auto|]. intros; exact Heq.
    + rewrite bool_decide_eq_true_2 by reflexivity.
      destruct (List.find _ listing) as [d|] eqn:Hfind.
      * destruct (Hfound d eq_refl) as [Hne Hc]. split; [right; eauto|]. intros; congruence.
      * split; [left; reflexivity|]. intros d Hin Hne Hc. exfalso. eauto.
  - rewrite bool_decide_eq_true_2 by reflexivity.
    destruct (List.find _ listing) as [d|] eqn:Hfind.
    + destruct (Hfound d eq_refl) as [Hne Hc]. split; [right; eauto|]. intros; congruence.
    + split; [left; reflexivity|]. intros d Hin Hne Hc. exfalso. eauto.
Qed.

(** ** The capture chain, continued *)

(** a child is spawned and its outcome awaited *)
Lemma spawn_then_outcome (E : Env) (what : Purpose) (lp : string) (w : World) :
  fst (bind (spawn E what) (fun pid => Capture.captureOutcome E pid lp) w) = Ok true ->
  exists written, run E (nspawn w) = RunClose 0 written.
Proof.
  unfold bind, spawn.
  destruct (run E (nspawn w)) as [| |code|code written] eqn:Hrun; simpl;
    try discriminate; unfold Capture.captureOutcome; rewrite Hrun; simpl; try discriminate.
  unfold child_writes. munfold.
  destruct written; simpl; intros H; inversion H as [Hc];
    apply Z.eqb_eq in Hc; subst; eauto.
Qed.

(** X14.  No ffmpeg-based capture method reports success unless the
    child it spawned -- the next child of the server -- was closed with
    exit code 0. *)
Theorem capture_success_means_exit_0 (E : Env) (lp : string) (devicePath : option string)
    (streamer : bool) (w : World) :
  (fst (Capture.v4l2Capture E lp devicePath streamer w) = Ok true ->
     exists written, run E (nspawn w) = RunClose 0 written) /\
  (fst (Capture.v4l2FallbackCapture E lp devicePath w) = Ok true ->
     exists written, run E (nspawn w) = RunClose 0 written) /\
  (fst (Capture.r6Capture E lp devicePath w) = Ok true ->
     exists written, run E (nspawn w) = RunClose 0 written) /\
  (fst (Capture.mk5dCapture E lp devicePath w) = Ok true ->
     exists written, run E (nspawn w) = RunClose 0 written).
Proof.
  split; [|split; [|split]].
  - destruct streamer.
    + destruct (Js.truthy devicePath) eqn:Hd.
      * destruct (v4l2Capture_trace E lp devicePath w Hd) as (rest & _ & _ & _ & ->).
        destruct (run E (nspawn w)) as [| |code|code written]; try discriminate.
        intros H. inversion H as [Hc]. apply Z.eqb_eq in Hc. subst. eauto.
      * unfold Capture.v4l2Capture. rewrite Hd. discriminate.
    + unfold Capture.v4l2Capture.
      destruct (Js.truthy devicePath); cbn [negb]; [|discriminate].
      unfold Capture.restartStream, spawn. munfold. simpl.
      destruct (run E (nspawn w)) as [| |code|code written] eqn:Hrun; simpl;
        rewrite ?Hrun; simpl; try discriminate.
      unfold child_writes. munfold.
      destruct written; simpl; intros H; inversion H as [Hc];
        apply Z.eqb_eq in Hc; subst; eauto.
  - unfold Capture.v4l2FallbackCapture. unfold bind at 1. unfold get.
    destruct (Capture.selectFallbackDevice E w devicePath) as [cd|];
      unfold Capture.in_async_executor; [|discriminate].
    pose proof (spawn_then_outcome E
                  (CaptureFallback (Capture.captureArgs cd lp)) lp w) as HS.
    destruct (bind (spawn E (CaptureFallback (Capture.captureArgs cd lp)))
                (fun pid => Capture.captureOutcome E pid lp) w) as [[b|e|] w1];
      simpl in *; try discriminate; exact HS.
  - unfold Capture.r6Capture. unfold bind at 1. unfold try_catch.
    destruct (bool_decide (captureDevices E = [])); simpl; [discriminate|].
    apply spawn_then_outcome.
  - unfold Capture.mk5dCapture.
    destruct devicePath, (captureDevices E); try discriminate; apply spawn_then_outcome.
Qed.

(** X15.  The chain stops at the first method that reports success: no
    later method is run, so no further child is spawned and the
    placeholder is not copied.  The state capturePhoto leaves is the state
    left by that method, and the result is decided by the file check
    alone. *)
Theorem chain_stops_at_first_success (E : Env) (timestamp uniqueId : string)
    (devicePath cameraType cameraModel : option string) (streamer : bool) (w : World) :
  let lp := CaptureService.localPathOf E timestamp uniqueId in
  let r1 := CaptureService.specialized E lp devicePath cameraType cameraModel w in
  let r2 := Capture.v4l2Capture E lp devicePath streamer (snd r1) in
  let r3 := Capture.v4l2FallbackCapture E lp devicePath (snd r2) in
  let out := CaptureService.capturePhoto E timestamp uniqueId devicePath cameraType
               cameraModel streamer w in
  let verdict w' :=
    Ok (if existsSync lp w'
        then CaptureService.Success lp (CaptureService.filenameOf timestamp uniqueId)
        else CaptureService.Failure "Capture failed: No image file created") in
  (fst r1 = Ok true -> out = (verdict (snd r1), snd r1)) /\
  (fst r1 = Ok false -> fst r2 = Ok true -> out = (verdict (snd r2), snd r2)) /\
  (fst r1 = Ok false -> fst r2 = Ok false -> fst r3 = Ok true ->
     out = (verdict (snd r3), snd r3)).
Proof.
  intros lp r1 r2 r3 out verdict. subst out r3 r2 r1 verdict.
  unfold CaptureService.capturePhoto, CaptureService.run_chain. fold lp. munfold.
  destruct (CaptureService.specialized E lp devicePath cameraType cameraModel w)
    as [a1 w1]. cbn [fst snd].
  split; [|split].
  - intros ->. cbn [negb]. destruct (existsSync lp w1); reflexivity.
  - intros ->. cbn [negb].
    destruct (Capture.v4l2Capture E lp devicePath streamer w1) as [a2 w2]. cbn [fst snd].
    intros ->. cbn [negb]. destruct (existsSync lp w2); reflexivity.
  - intros ->. cbn [negb].
    destruct (Capture.v4l2Capture E lp devicePath streamer w1) as [a2 w2]. cbn [fst snd].
    intros ->. cbn [negb].
    destruct (Capture.v4l2FallbackCapture E lp devicePath w2) as [a3 w3]. cbn [fst snd].
    intros ->. cbn [negb]. destruct (existsSync lp w3); reflexivity.
Qed.

(** X15 on a loopback pair whose capture child succeeds: the standard
    method is the last one to run, and the capture child is the only child
    spawned. *)
Lemma chain_stops_at_first_success_witness :
  let out := CaptureService.capturePhoto env_loopback "t" "u" (Some "/dev/video0")
               (Some "webcam") (Some "USB Webcam") true (init_world loopback_nodes) in
  fst out = Ok (CaptureService.Success "/srv/booth/temp_captures/t_u.jpg" "t_u.jpg") /\
  nspawn (snd out) = 1%nat.
Proof.
  intros out.
  destruct (chain_stops_at_first_success env_loopback "t" "u" (Some "/dev/video0")
              (Some "webcam") (Some "USB Webcam") true (init_world loopback_nodes))
    as (_ & H2 & _).
  subst out. rewrite H2.
  - split; vm_compute; reflexivity.
  - vm_compute; reflexivity.
  - vm_compute; reflexivity.
Defined.

(** X16.  Without the placeholder nothing absorbs a failed chain: when
    the three ffmpeg-based steps have reported failure, the bundled
    placeholder is missing and no child has left a file at the output
    path, capturePhoto returns the failure 'Capture failed: No image file
    created' and copies nothing. *)
Theorem no_placeholder_no_photo (E : Env) (timestamp uniqueId : string)
    (devicePath cameraType cameraModel : option string) (streamer : bool) (w : World) :
  let lp := CaptureService.localPathOf E timestamp uniqueId in
  let r1 := CaptureService.specialized E lp devicePath cameraType cameraModel w in
  let r2 := Capture.v4l2Capture E lp devicePath streamer (snd r1) in
  let r3 := Capture.v4l2FallbackCapture E lp devicePath (snd r2) in
  fst r1 = Ok false -> fst r2 = Ok false -> fst r3 = Ok false ->
  files w !! Capture.mockImagePath E = None ->
  files (snd r3) !! lp = None ->
  CaptureService.capturePhoto E timestamp uniqueId devicePath cameraType cameraModel
    streamer w
  = (Ok (CaptureService.Failure "Capture failed: No image file created"), snd r3).
Proof.
  intros lp r1 r2 r3 H1 H2 H3 Hmock Hfile.
  assert (Hne : Capture.mockImagePath E <> lp) by apply localPath_not_placeholder.
  assert (Hmock3 : files (snd r3) !! Capture.mockImagePath E = None).
  { subst r3 r2 r1.
    rewrite (frame_v4l2FallbackCapture E lp devicePath _ _ Hne).
    rewrite (frame_v4l2Capture E lp devicePath streamer _ _ Hne).
    rewrite (frame_specialized E lp devicePath cameraType cameraModel _ _ Hne).
    exact Hmock. }
  subst r3 r2 r1.
  unfold CaptureService.capturePhoto, CaptureService.run_chain. fold lp.
  unfold Capture.useMockImage, existsSync. munfold.
  destruct (CaptureService.specialized E lp devicePath cameraType cameraModel w)
    as [a1 w1]. cbn [fst snd] in *. subst a1. cbn [negb].
  destruct (Capture.v4l2Capture E lp devicePath streamer w1) as [a2 w2].
  cbn [fst snd] in *. subst a2. cbn [negb].
  destruct (Capture.v4l2FallbackCapture E lp devicePath w2) as [a3 w3].
  cbn [fst snd] in *. subst a3. cbn [negb].
  rewrite Hmock3.
  rewrite (bool_decide_eq_false_2 (is_Some None)) by (intros [x Hx]; discriminate).
  cbn [negb fst snd]. rewrite Hfile.
  rewrite (bool_decide_eq_false_2 (is_Some None)) by (intros [x Hx]; discriminate).
  reflexivity.
Qed.

(** X16 on a host where every capture child fails and nothing is
    installed. *)
Lemma no_placeholder_no_photo_witness :
  fst (CaptureService.capturePhoto env_failing "t" "u" (Some "/dev/video0")
         (Some "webcam") (Some "USB Webcam") true (init_world ∅))
  = Ok (CaptureService.Failure "Capture failed: No image file created").
Proof.
  rewrite (no_placeholder_no_photo env_failing "t" "u" (Some "/dev/video0")
             (Some "webcam") (Some "USB Webcam") true (init_world ∅));
    [reflexivity | vm_compute; reflexivity ..].
Defined.

(** ** Files touched by a capture *)

Section CaptureFrame.
Import Capture CaptureService.
Variable E : Env.
Variable lp : string.

Lemma frame_useMockImage : touches_only lp (useMockImage E lp).
Proof.
  unfold useMockImage. apply frame_try_catch; [|intros; apply frame_ret].
  apply frame_bind; [apply frame_get|]. intros [|]; [|apply frame_ret].
  apply frame_bind; [|intros; apply frame_ret].
  intros w p Hp. unfold copyFileSync.
  destruct (files w !! mockImagePath E); [|reflexivity].
  simpl. apply lookup_insert_ne. congruence.
Qed.

Lemma frame_run_chain dev ty mo st : touches_only lp (run_chain E lp dev ty mo st).
Proof.
  unfold run_chain.
  apply frame_bind; [apply frame_specialized|]. intros s1.
  apply frame_bind.
  { destruct (negb s1); [apply frame_v4l2Capture | apply frame_ret]. }
  intros s2. apply frame_bind.
  { destruct (negb s2); [apply frame_v4l2FallbackCapture | apply frame_ret]. }
  intros s3. apply frame_bind.
  { destruct (negb s3); [apply frame_useMockImage | apply frame_ret]. }
  intros s4. apply frame_ret.
Qed.

End CaptureFrame.

(** X17.  A capture request writes to one path only.  Whatever the
    camera, the devices and the behaviour of the ffmpeg children (each of
    which writes at most its output file), every file other than the
    computed output path -- the placeholder and the earlier photos among
    them -- is after capturePhoto as it was before. *)
Theorem capturePhoto_touches_only_output (E : Env) (timestamp uniqueId : string)
    (devicePath cameraType cameraModel : option string) (streamer : bool) :
  touches_only (CaptureService.localPathOf E timestamp uniqueId)
    (CaptureService.capturePhoto E timestamp uniqueId devicePath cameraType cameraModel
       streamer).
Proof.
  unfold CaptureService.capturePhoto.
  apply frame_try_catch; [|intros; apply frame_ret].
  apply frame_bind; [apply frame_run_chain|]. intros _.
  apply frame_bind; [apply frame_get|]. intros present.
  destruct (negb present); [apply frame_throw | apply frame_ret].
Qed.

(** X17 on a host where every capture child fails: the placeholder is
    copied to the output path and is itself left as it was. *)
Lemma capturePhoto_touches_only_output_witness :
  files (snd (CaptureService.capturePhoto env_failing "t" "u" (Some "/dev/video0")
                (Some "webcam") (Some "USB Webcam") true (init_world placeholder_only)))
    !! "/srv/booth/public/mock_images/sample2.jpg" = Some "placeholder".
Proof.
  rewrite (capturePhoto_touches_only_output env_failing "t" "u" (Some "/dev/video0")
             (Some "webcam") (Some "USB Webcam") true (init_world placeholder_only)).
  - reflexivity.
  - vm_compute. discriminate.
Defined.

(** ** Counters and windows of the request guards *)

(** X18.  The counter of active capture operations stays between 0 and
    its maximum of 1 over every history of requests and response events --
    also when a response fires both 'finish' and 'close', or fires them
    for a request that was never counted. *)
Theorem capture_counter_bounds (evs : list CaptureController.Ev) :
  0 <= CaptureController.activeCaptureOperations
         (CaptureController.steps evs CaptureController.init)
    <= CaptureController.MAX_CAPTURE_OPERATIONS.
Proof.
  unfold CaptureController.steps.
  assert (Hgen : forall s,
            0 <= CaptureController.activeCaptureOperations s <= 1 ->
            0 <= CaptureController.activeCaptureOperations
                   (foldl CaptureController.step s evs) <= 1).
  { induction evs as [|e evs IH]; intros s Hs; simpl; [exact Hs|].
    apply IH. destruct e as [now|at_ms]; simpl.
    - unfold CaptureController.capturePhoto, CaptureController.MAX_CAPTURE_OPERATIONS.
      destruct (1 <=? CaptureController.activeCaptureOperations s) eqn:Hb; simpl; [exact Hs|].
      apply Z.leb_gt in Hb.
      destruct (_ <? _); simpl; lia.
    - lia. }
  apply Hgen. simpl. lia.
Qed.

Section RestartWindow.
Import RestartController.

Lemma recent_subset now l t : t ∈ recent now l -> t ∈ l.
Proof.
  unfold recent. intros H. apply list_elem_of_In in H. apply filter_In in H.
  apply list_elem_of_In. tauto.
Qed.

Lemma recent_length now l : (length (recent now l) <= length l)%nat.
Proof.
  unfold recent. induction l as [|x l IH]; simpl; [lia|].
  destruct (_ <? _); simpl; lia.
Qed.

(** the record holds at most three times, all of them request times *)
Lemma restart_record_inv evs :
  forall s seen,
    (length (recentRestarts s) <= MAX_RECENT_RESTARTS)%nat ->
    (forall t, t ∈ recentRestarts s -> t ∈ seen) ->
    (length (recentRestarts (steps evs s)) <= MAX_RECENT_RESTARTS)%nat /\
    (forall t, t ∈ recentRestarts (steps evs s) -> t ∈ seen ++ times evs).
Proof.
  induction evs as [|e evs IH]; intros s seen Hlen Hsub.
  - simpl. split; [exact Hlen|]. intros t Ht. rewrite app_nil_r. auto.
  - destruct e as [now|].
    + change (steps (Request now :: evs) s)
        with (steps evs (snd (restartCameraServices now s))).
      change (times (Request now :: evs)) with ([now] ++ times evs).
      rewrite app_assoc. apply IH.
      * unfold restartCameraServices. destruct (restartInProgress s); [exact Hlen|].
        destruct (Nat.leb MAX_RECENT_RESTARTS (length (recent now (recentRestarts s))))
          eqn:Hb; cbn [snd recentRestarts].
        -- etransitivity; [apply recent_length | exact Hlen].
        -- apply Nat.leb_gt in Hb. rewrite length_app. simpl. lia.
      * intros t Ht. apply elem_of_app.
        unfold restartCameraServices in Ht. destruct (restartInProgress s); [left; auto|].
        destruct (Nat.leb _ _); cbn [snd recentRestarts] in Ht.
        -- left. apply Hsub. eapply recent_subset, Ht.
        -- apply elem_of_app in Ht. destruct Ht as [Ht|Ht];
             [left; apply Hsub; eapply recent_subset, Ht | right; exact Ht].
    + change (steps (Done :: evs) s) with (steps evs (backgroundDone s)).
      change (times (Done :: evs)) with (times evs).
      apply IH; [exact Hlen | exact Hsub].
Qed.

End RestartWindow.

(** X19.  The record of recent restarts never holds more than three
    entries, and every entry is the arrival time of a request of the
    history: nothing else is ever written to it. *)
Theorem restart_record_bounded (evs : list RestartController.Ev) :
  let s := RestartController.steps evs RestartController.init in
  (length (RestartController.recentRestarts s) <= RestartController.MAX_RECENT_RESTARTS)%nat /\
  (forall t, t ∈ RestartController.recentRestarts s -> t ∈ RestartController.times evs).
Proof.
  intros s.
  destruct (restart_record_inv evs RestartController.init []) as [H1 H2].
  - simpl. unfold RestartController.MAX_RECENT_RESTARTS. lia.
  - simpl. intros t Ht. apply elem_of_nil in Ht. destruct Ht.
  - split; [exact H1 | exact H2].
Qed.

(** X20.  The restart guard recovers.  When no restart is in progress
    and every request of the history arrived at least 10000 ms ago, the
    next request is accepted, whatever happened before; it is then the
    only entry of the record. *)
Theorem restart_accepted_after_quiet_period (evs : list RestartController.Ev) (now : Z) :
  (forall t, t ∈ RestartController.times evs ->
     RestartController.RESTART_COOLDOWN_PERIOD <= now - t) ->
  RestartController.restartInProgress
    (RestartController.steps evs RestartController.init) = false ->
  RestartController.restartCameraServices now
    (RestartController.steps evs RestartController.init)
  = (RestartController.Accepted202, RestartController.mkState true [now]).
Proof.
  intros Hquiet Hidle.
  destruct (restart_record_inv evs RestartController.init []) as [_ Hsub].
  { simpl. unfold RestartController.MAX_RECENT_RESTARTS. lia. }
  { simpl. intros t Ht. apply elem_of_nil in Ht. destruct Ht. }
  simpl in Hsub.
  set (s := RestartController.steps evs RestartController.init) in *.
  assert (Hrec : RestartController.recent now (RestartController.recentRestarts s) = []).
  { unfold RestartController.recent.
    induction (RestartController.recentRestarts s) as [|x l IH]; [reflexivity|]. simpl.
    assert (Hx : RestartController.RESTART_COOLDOWN_PERIOD <= now - x).
    { apply Hquiet, Hsub. apply elem_of_cons. left. reflexivity. }
    apply Z.ltb_ge in Hx. rewrite Hx. apply IH.
    intros t Ht. apply Hsub. apply elem_of_cons. right. exact Ht. }
  unfold RestartController.restartCameraServices. rewrite Hidle, Hrec. reflexivity.
Qed.

(** X20 after a burst of three restarts: a request twenty seconds later
    is accepted. *)
Lemma restart_accepted_after_quiet_period_witness :
  fst (RestartController.restartCameraServices 1700000024000
         (RestartController.steps
            [RestartController.Request 1700000000000; RestartController.Done;
             RestartController.Request 1700000002000; RestartController.Done;
             RestartController.Request 1700000004000; RestartController.Done]
            RestartController.init))
  = RestartController.Accepted202.
Proof.
  rewrite (restart_accepted_after_quiet_period
             [RestartController.Request 1700000000000; RestartController.Done;
              RestartController.Request 1700000002000; RestartController.Done;
              RestartController.Request 1700000004000; RestartController.Done]
             1700000024000).
  - reflexivity.
  - intros t Ht. simpl in Ht.
    repeat (apply elem_of_cons in Ht; destruct Ht as [->|Ht]; [vm_compute; discriminate|]).
    apply elem_of_nil in Ht. destruct Ht.
  - vm_compute; reflexivity.
Defined.

(** ** Admission of stream requests *)

Section StreamAdmission.
Import StreamController.
Variable E : Env.

Lemma getMjpegStream_counter now j y c w s :
  0 <= activeStreamConnections s <= MAX_STREAM_CONNECTIONS ->
  0 <= activeStreamConnections (snd (getMjpegStream E now j y c w s))
    <= MAX_STREAM_CONNECTIONS.
Proof.
  unfold getMjpegStream, MAX_STREAM_CONNECTIONS. intros Hs.
  destruct (_ && _); [exact Hs|].
  destruct (5 <=? activeStreamConnections s) eqn:Hb; [exact Hs|].
  apply Z.leb_gt in Hb.
  destruct (negb _); [simpl; lia|].
  destruct (selectStreamDevice E w c); [|simpl; lia].
  destruct (CameraService.getMjpegProcess c) as [[p|t]|]; simpl; lia.
Qed.

Lemma stream_counter_inv evs :
  forall s, 0 <= activeStreamConnections s <= MAX_STREAM_CONNECTIONS ->
    0 <= activeStreamConnections (steps E evs s) <= MAX_STREAM_CONNECTIONS.
Proof.
  induction evs as [|e evs IH]; intros s Hs; [exact Hs|].
  change (steps E (e :: evs) s) with (steps E evs (step E s e)).
  apply IH. destruct e as [now j y c w|]; simpl.
  - apply getMjpegStream_counter, Hs.
  - unfold MAX_STREAM_CONNECTIONS in *. lia.
Qed.

End StreamAdmission.

(** X21.  The counter of active stream connections stays between 0 and
    5 over every history of requests and connection events; and a request
    that passes the two guards takes a slot whatever happens to it next --
    also when it is then answered 503 because no device is bound or
    because the device selection throws. *)
Theorem stream_counter_bounds (E : Env) (evs : list StreamController.Ev)
    (now : Z) (j y : bool) (c : CameraService.Camera) (w : World) :
  let s := StreamController.steps E evs StreamController.init in
  let out := StreamController.getMjpegStream E now j y c w s in
  0 <= StreamController.activeStreamConnections s <= StreamController.MAX_STREAM_CONNECTIONS /\
  (fst out = StreamController.TooManyRequests429 \/
   fst out = StreamController.MaxConnections503 ->
   snd out = s) /\
  (fst out <> StreamController.TooManyRequests429 ->
   fst out <> StreamController.MaxConnections503 ->
   snd out = StreamController.mkState (StreamController.activeStreamConnections s + 1) now).
Proof.
  intros s out.
  assert (Hs : 0 <= StreamController.activeStreamConnections s
                 <= StreamController.MAX_STREAM_CONNECTIONS).
  { apply stream_counter_inv. simpl. unfold StreamController.MAX_STREAM_CONNECTIONS. lia. }
  split; [exact Hs|].
  subst out. unfold StreamController.getMjpegStream.
  destruct (_ && _); [split; [reflexivity | intros H; contradiction]|].
  destruct (_ <=? _); [split; [reflexivity | intros _ H; contradiction]|].
  destruct (negb _); [split; [intros [H|H]; discriminate | reflexivity]|].
  destruct (StreamController.selectStreamDevice E w c);
    [|split; [intros [H|H]; discriminate | reflexivity]].
  destruct (CameraService.getMjpegProcess c) as [[p|t]|]; simpl;
    (split; [intros [H|H]; discriminate | reflexivity]).
Qed.

(** X22.  Which guard answers.  In every reachable state a stream
    request is answered 429 exactly when at least three connections are
    active and the last admitted request is less than 1000 ms old; it is
    answered 503 'Maximum stream connections reached' exactly when five
    connections are active and the last admitted request is at least
    1000 ms old.  With fewer than three active connections no request is
    turned away by the guards, however fast the requests arrive. *)
Theorem stream_admission (E : Env) (evs : list StreamController.Ev)
    (now : Z) (j y : bool) (c : CameraService.Camera) (w : World) :
  let s := StreamController.steps E evs StreamController.init in
  let answer := fst (StreamController.getMjpegStream E now j y c w s) in
  (answer = StreamController.TooManyRequests429 <->
     3 <= StreamController.activeStreamConnections s /\
     now - StreamController.lastStreamAttempt s < StreamController.CONNECTION_COOLDOWN_MS) /\
  (answer = StreamController.MaxConnections503 <->
     StreamController.activeStreamConnections s = 5 /\
     StreamController.CONNECTION_COOLDOWN_MS <= now - StreamController.lastStreamAttempt s) /\
  (StreamController.activeStreamConnections s < 3 ->
     answer <> StreamController.TooManyRequests429 /\
     answer <> StreamController.MaxConnections503).
Proof.
  intros s answer.
  assert (Hs : 0 <= StreamController.activeStreamConnections s
                 <= StreamController.MAX_STREAM_CONNECTIONS).
  { apply stream_counter_inv. simpl. unfold StreamController.MAX_STREAM_CONNECTIONS. lia. }
  unfold StreamController.MAX_STREAM_CONNECTIONS in Hs.
  subst answer. unfold StreamController.getMjpegStream,
    StreamController.MAX_STREAM_CONNECTIONS, StreamController.CONNECTION_COOLDOWN_MS.
  destruct (now - StreamController.lastStreamAttempt s <? 1000) eqn:Hc;
    destruct (3 <=? StreamController.activeStreamConnections s) eqn:H3;
    destruct (5 <=? StreamController.activeStreamConnections s) eqn:H5;
    cbn [andb fst];
    try apply Z.ltb_lt in Hc; try apply Z.ltb_ge in Hc;
    try apply Z.leb_le in H3; try apply Z.leb_gt in H3;
    try apply Z.leb_le in H5; try apply Z.leb_gt in H5;
    try (destruct (negb (Js.truthy (CameraService.v4l2Device c)));
         [|destruct (StreamController.selectStreamDevice E w c);
           [destruct (CameraService.getMjpegProcess c) as [[p|t]|]|]]);
    cbn [fst];
    (split; [split; [intros H; try discriminate H; lia | intros H; try reflexivity; lia]|]);
    (split; [split; [intros H; try discriminate H; lia | intros H; try reflexivity; lia]|]);
    intros H; (split; [try discriminate; lia | try discriminate; lia]).
Qed.

(** X23.  The device a dedicated stream reads from.  When the selection
    does not throw, the device is the bound one, or -- for a camera of
    type 'canon' only -- one of the four known devices or /dev/video2 that
    is listed in /dev and exists; /dev/video2 is chosen only for a model
    whose name contains 'R6'.  The selection throws exactly for a camera
    of type 'canon' without a model. *)
Theorem selectStreamDevice_sound (E : Env) (w : World) (c : CameraService.Camera) :
  (StreamController.selectStreamDevice E w c = None <->
     CameraService.cameraType c = Some "canon" /\ CameraService.cameraModel c = None) /\
  (forall d, StreamController.selectStreamDevice E w c = Some d ->
     d = default "" (CameraService.v4l2Device c) \/
     (CameraService.cameraType c = Some "canon" /\
      d ∈ StreamController.knownWorkingDevices ++ ["/dev/video2"] /\
      d ∈ map (fun x => "/dev/" +:+ x) (videoDevices E) /\
      existsSync d w = true /\
      (d = "/dev/video2" ->
       exists model, CameraService.cameraModel c = Some model /\
                     Js.includes model "R6" = true))).
Proof.
  unfold StreamController.selectStreamDevice, Js.seq.
  case_bool_decide as Hty.
  2:{ split; [split; [discriminate | intros [H _]; contradiction]|].
      intros d H. inversion H. left. reflexivity. }
  destruct (CameraService.cameraModel c) as [model|] eqn:Hmodel.
  2:{ split; [split; auto | discriminate]. }
  split.
  { destruct (List.find _ _); split; try discriminate; intros [_ H]; discriminate. }
  intros d H.
  destruct (List.find _ _) as [d'|] eqn:Hfind; inversion H; subst; [|left; reflexivity].
  apply find_some in Hfind. destruct Hfind as [Hin Hd].
  apply andb_true_iff in Hd. destruct Hd as [Hlist Hex].
  apply bool_decide_eq_true in Hlist.
  right. split; [exact Hty|].
  unfold StreamController.preferredDevices in Hin.
  destruct (Js.includes model "R6") eqn:HR6.
  - split; [apply list_elem_of_In; exact Hin|]. split; [exact Hlist|].
    split; [exact Hex|]. intros _. eauto.
  - split; [apply elem_of_app; left; apply list_elem_of_In; exact Hin|].
    split; [exact Hlist|]. split; [exact Hex|].
    intros ->. exfalso. simpl in Hin.
    repeat (destruct Hin as [Hin|Hin]; [discriminate|]). exact Hin.
Qed.

(** ** The reconnection timer of the device manager *)

Section Timer.
Import DeviceManager.

Lemma one_timer_start callback m :
  one_timer m -> one_timer (startReconnectionTimer callback m).
Proof.
  unfold one_timer, startReconnectionTimer. intros Hm.
  destruct (reconnectionTimer m) as [id|]; simpl.
  - destruct Hm as [cb Hm]. exists callback. rewrite Hm.
    rewrite delete_singleton_eq, insert_empty. reflexivity.
  - exists callback. rewrite Hm, insert_empty. reflexivity.
Qed.

Lemma one_timer_stop m : one_timer m -> one_timer (stopReconnectionTimer m).
Proof.
  unfold one_timer, stopReconnectionTimer. intros Hm.
  destruct (reconnectionTimer m) as [id|] eqn:Ht; simpl.
  - destruct Hm as [cb Hm]. rewrite Hm. apply delete_singleton_eq.
  - rewrite Ht. exact Hm.
Qed.

(** [setCameraMode], case by case *)
Lemma setCameraMode_cases cameraType m :
  let r6 := String.eqb cameraType "r6" in
  let d5 := String.eqb cameraType "5d" in
  let period := if r6 || d5 then 10000 else 2000 in
  isCanonR6 (setCameraMode cameraType m) = r6 /\
  isCanon5D (setCameraMode cameraType m) = d5 /\
  reconnectionInterval (setCameraMode cameraType m) = period /\
  match reconnectionTimer m with
  | None =>
      reconnectionTimer (setCameraMode cameraType m) = None /\
      intervals (setCameraMode cameraType m) = intervals m
  | Some id =>
      reconnectionTimer (setCameraMode cameraType m) = Some (nextInterval m) /\
      intervals (setCameraMode cameraType m) =
        <[nextInterval m := mkInterval None period]> (delete id (intervals m))
  end.
Proof.
  intros r6 d5 period. unfold setCameraMode. fold r6 d5. cbn [reconnectionTimer].
  destruct (reconnectionTimer m) as [id|] eqn:Ht.
  - unfold startReconnectionTimer, stopReconnectionTimer. cbn. auto.
  - cbn. auto.
Qed.

Lemma one_timer_setCameraMode cameraType m :
  one_timer m -> one_timer (setCameraMode cameraType m).
Proof.
  intros Hm. unfold one_timer in *.
  destruct (setCameraMode_cases cameraType m) as (_ & _ & Hp & Hcase).
  destruct (reconnectionTimer m) as [id|].
  - destruct Hcase as [-> ->]. destruct Hm as [cb Hm]. exists None.
    rewrite Hm, delete_singleton_eq, insert_empty, Hp. reflexivity.
  - destruct Hcase as [-> ->]. exact Hm.
Qed.

(** [detectCanonR6] changes the manager through [setCameraMode] only *)
Lemma detectCanonR6_cases videoDevs allInfo devicePath isOutput isCapture m :
  detectCanonR6 videoDevs allInfo devicePath isOutput isCapture m = m \/
  exists mode, detectCanonR6 videoDevs allInfo devicePath isOutput isCapture m
               = setCameraMode mode m.
Proof.
  unfold detectCanonR6. destruct devicePath as [dp|].
  - destruct (bool_decide _); [eauto|].
    destruct (_ && _ && _); [eauto|].
    destruct isCapture; [|auto].
    destruct (atLeast2 _); [|eauto].
    destruct allInfo as [stdout|]; [|eauto].
    destruct (modeOfInfo stdout); eauto.
  - destruct (_ || _); eauto.
Qed.

(** on a capture device [detectCanonR6] always sets a mode *)
Lemma detectCanonR6_capture videoDevs allInfo devicePath isOutput m :
  exists mode, detectCanonR6 videoDevs allInfo devicePath isOutput true m
               = setCameraMode mode m.
Proof.
  unfold detectCanonR6. destruct devicePath as [dp|].
  - destruct (bool_decide _); [eauto|].
    destruct (_ && _ && _); [eauto|].
    destruct (atLeast2 _); [|eauto].
    destruct allInfo as [stdout|]; [|eauto].
    destruct (modeOfInfo stdout); eauto.
  - rewrite orb_true_r. eauto.
Qed.

Lemma period_of_mode m :
  reconnectionInterval m = (if isCanonR6 m || isCanon5D m then 10000 else 2000) ->
  forall cameraType,
    reconnectionInterval (setCameraMode cameraType m) =
      (if isCanonR6 (setCameraMode cameraType m) || isCanon5D (setCameraMode cameraType m)
       then 10000 else 2000).
Proof.
  intros _ cameraType.
  destruct (setCameraMode_cases cameraType m) as (-> & -> & -> & _). reflexivity.
Qed.

Lemma manager_inv calls :
  forall m,
    one_timer m ->
    reconnectionInterval m = (if isCanonR6 m || isCanon5D m then 10000 else 2000) ->
    one_timer (manager_steps calls m) /\
    reconnectionInterval (manager_steps calls m) =
      (if isCanonR6 (manager_steps calls m) || isCanon5D (manager_steps calls m)
       then 10000 else 2000).
Proof.
  induction calls as [|call calls IH]; intros m H1 H2; [split; assumption|].
  change (manager_steps (call :: calls) m) with (manager_steps calls (manager_step m call)).
  destruct call as [cb| |ty|vd ai dp io ic]; cbn [manager_step].
  - apply IH; [apply one_timer_start, H1|].
    unfold startReconnectionTimer. destruct (reconnectionTimer m); exact H2.
  - apply IH; [apply one_timer_stop, H1|].
    unfold stopReconnectionTimer. destruct (reconnectionTimer m); exact H2.
  - apply IH; [apply one_timer_setCameraMode, H1 | apply period_of_mode, H2].
  - destruct (detectCanonR6_cases vd ai dp io ic m) as [-> | [mode ->]].
    + apply IH; assumption.
    + apply IH; [apply one_timer_setCameraMode, H1 | apply period_of_mode, H2].
Qed.

(** a running timer loses its callback in [setCameraMode] *)
Lemma setCameraMode_loses_callback cameraType m :
  is_Some (reconnectionTimer m) -> callback_lost (setCameraMode cameraType m).
Proof.
  intros [id Hid].
  destruct (setCameraMode_cases cameraType m) as (_ & _ & _ & Hcase).
  rewrite Hid in Hcase. destruct Hcase as [Ht Hi].
  exists (nextInterval m),
    (mkInterval None
       (if String.eqb cameraType "r6" || String.eqb cameraType "5d" then 10000 else 2000)).
  split; [exact Ht|]. split; [|reflexivity].
  rewrite Hi. apply lookup_insert_eq.
Qed.

Lemma callback_lost_running m : callback_lost m -> is_Some (reconnectionTimer m).
Proof. intros (id & iv & H & _). eauto. Qed.

Lemma detectCanonR6_keeps_running videoDevs allInfo devicePath isOutput isCapture m :
  is_Some (reconnectionTimer m) ->
  is_Some (reconnectionTimer
             (detectCanonR6 videoDevs allInfo devicePath isOutput isCapture m)).
Proof.
  intros Hm.
  destruct (detectCanonR6_cases videoDevs allInfo devicePath isOutput isCapture m)
    as [-> | [mode ->]]; [exact Hm|].
  apply callback_lost_running, setCameraMode_loses_callback, Hm.
Qed.

Lemma detectCanonR6_keeps_lost videoDevs allInfo devicePath isOutput isCapture m :
  callback_lost m ->
  callback_lost (detectCanonR6 videoDevs allInfo devicePath isOutput isCapture m).
Proof.
  intros Hm.
  destruct (detectCanonR6_cases videoDevs allInfo devicePath isOutput isCapture m)
    as [-> | [mode ->]]; [exact Hm|].
  apply setCameraMode_loses_callback, callback_lost_running, Hm.
Qed.

End Timer.

(** X24.  The device manager never leaks an interval.  After any sequence
    of timer starts and stops, mode changes and camera detections, the
    interval the manager holds is the only one alive in the event loop
    (none is alive when it holds none), its period is the manager's
    current reconnection interval, and that interval is 10000 ms exactly
    in R6 or 5D mode and 2000 ms otherwise. *)
Theorem reconnection_timer_is_unique (calls : list ManagerCall) :
  let m := manager_steps calls DeviceManager.new_manager in
  one_timer m /\
  DeviceManager.reconnectionInterval m =
    (if DeviceManager.isCanonR6 m || DeviceManager.isCanon5D m then 10000 else 2000).
Proof.
  intros m. apply manager_inv.
  - unfold one_timer. reflexivity.
  - reflexivity.
Qed.

(** X25.  A mode change while the timer runs drops the reconnection
    callback.  [setCameraMode] restarts a running timer by calling
    [startReconnectionTimer()] without an argument: the new interval -- the
    only one alive -- runs with the period of the new mode and calls
    [undefined], so each firing throws a TypeError and runs no reconnection
    check.  When no timer runs, [setCameraMode] creates none. *)
Theorem setCameraMode_drops_callback (calls : list ManagerCall) (cameraType : string) :
  let m := manager_steps calls DeviceManager.new_manager in
  let m' := DeviceManager.setCameraMode cameraType m in
  let period := if String.eqb cameraType "r6" || String.eqb cameraType "5d"
                then 10000 else 2000 in
  (DeviceManager.reconnectionTimer m = None ->
     DeviceManager.reconnectionTimer m' = None /\ DeviceManager.intervals m' = ∅) /\
  (DeviceManager.reconnectionTimer m <> None ->
     exists id,
       DeviceManager.reconnectionTimer m' = Some id /\
       DeviceManager.intervals m' = {[ id := DeviceManager.mkInterval None period ]} /\
       forall id' iv, DeviceManager.intervals m' !! id' = Some iv ->
         DeviceManager.tick iv = Throw "TypeError: reconnectionCallback is not a function").
Proof.
  intros m m' period.
  destruct (manager_inv calls DeviceManager.new_manager) as [Hone _];
    [unfold one_timer; reflexivity | reflexivity |]. fold m in Hone.
  destruct (setCameraMode_cases cameraType m) as (_ & _ & _ & Hcase). fold m' in Hcase.
  unfold one_timer in Hone.
  destruct (DeviceManager.reconnectionTimer m) as [id|].
  - split; [discriminate|]. intros _.
    destruct Hcase as [Ht Hi]. destruct Hone as [cb Hone].
    rewrite Hone, delete_singleton_eq, insert_empty in Hi.
    exists (DeviceManager.nextInterval m). split; [exact Ht|]. split; [exact Hi|].
    intros id' iv Hl. rewrite Hi in Hl. apply lookup_singleton_Some in Hl.
    destruct Hl as [_ <-]. reflexivity.
  - split; [|intros H; contradiction]. intros _.
    destruct Hcase as [Ht Hi]. split; [exact Ht|]. rewrite Hi. exact Hone.
Qed.

(** X25 after the facade has started the timer with its poll. *)
Lemma setCameraMode_drops_callback_witness :
  let m' := DeviceManager.setCameraMode "r6"
              (manager_steps [CallStartTimer (Some DeviceManager.CheckCameraReconnection)]
                 DeviceManager.new_manager) in
  DeviceManager.intervals m' = {[ 1%nat := DeviceManager.mkInterval None 10000 ]}.
Proof.
  intros m'.
  destruct (proj2 (setCameraMode_drops_callback
                     [CallStartTimer (Some DeviceManager.CheckCameraReconnection)] "r6"))
    as (id & Ht & Hi & _).
  - discriminate.
  - subst m'. rewrite Hi. inversion Ht. reflexivity.
Defined.

(** X26.  When camera detection selects the 5D mode.  [detectCanonR6]
    switches the manager to 5D mode only for a capture device that is not
    one of the four known devices, whose number is 2 or higher, and whose
    full description names 'Canon' but neither 'R6' nor 'Mark II'.  In
    particular a 5D behind one of the known devices is handled as an R6,
    and one behind /dev/video0 or /dev/video1 as a standard camera. *)
Theorem detect_selects_5D_mode (videoDevs : list string) (allInfo : option string)
    (devicePath : option string) (isOutput isCapture : bool) (m : DeviceManager.Manager) :
  let m' := DeviceManager.detectCanonR6 videoDevs allInfo devicePath isOutput isCapture m in
  (DeviceManager.isCanon5D m = false -> DeviceManager.isCanon5D m' = true ->
     isCapture = true /\
     exists dp stdout,
       devicePath = Some dp /\ allInfo = Some stdout /\
       (dp ∉ DeviceManager.knownWorkingDevices) /\
       DeviceManager.atLeast2 (Js.parseInt (Js.replace dp "/dev/video" "")) = true /\
       Js.includes stdout "Canon" = true /\
       Js.includes stdout "R6" = false /\ Js.includes stdout "Mark II" = false) /\
  (forall dp, devicePath = Some dp -> dp ∈ DeviceManager.knownWorkingDevices ->
     DeviceManager.isCanonR6 m' = true /\ DeviceManager.isCanon5D m' = false) /\
  (forall dp, devicePath = Some dp -> dp = "/dev/video0" \/ dp = "/dev/video1" ->
     isCapture = true -> isOutput = false ->
     DeviceManager.isCanonR6 m' = false /\ DeviceManager.isCanon5D m' = false).
Proof.
  intros m'. subst m'.
  assert (Hmode : forall mode,
            DeviceManager.isCanonR6 (DeviceManager.setCameraMode mode m) = String.eqb mode "r6" /\
            DeviceManager.isCanon5D (DeviceManager.setCameraMode mode m) = String.eqb mode "5d").
  { intros mode. destruct (setCameraMode_cases mode m) as (H1 & H2 & _). auto. }
  split; [|split].
  - intros H0 H1. unfold DeviceManager.detectCanonR6 in H1.
    destruct devicePath as [dp|].
    2:{ destruct (isOutput || isCapture); [rewrite (proj2 (Hmode _)) in H1|]; 
        [discriminate | congruence]. }
    destruct (bool_decide (dp ∈ DeviceManager.knownWorkingDevices)) eqn:Hk.
    { rewrite (proj2 (Hmode _)) in H1. discriminate. }
    apply bool_decide_eq_false in Hk.
    destruct (_ && _ && _).
    { rewrite (proj2 (Hmode _)) in H1. discriminate. }
    destruct isCapture; [|congruence].
    destruct (DeviceManager.atLeast2 _) eqn:H2.
    2:{ rewrite (proj2 (Hmode _)) in H1. discriminate. }
    destruct allInfo as [stdout|].
    2:{ rewrite (proj2 (Hmode _)) in H1. discriminate. }
    split; [reflexivity|]. exists dp, stdout.
    split; [reflexivity|]. split; [reflexivity|]. split; [exact Hk|]. split; [exact H2|].
    unfold DeviceManager.modeOfInfo in H1.
    destruct (Js.includes stdout "Canon") eqn:HC; cbn [andb orb] in H1.
    + destruct (Js.includes stdout "R6") eqn:HR; cbn [orb] in H1.
      { rewrite (proj2 (Hmode _)) in H1. discriminate. }
      destruct (Js.includes stdout "Mark II") eqn:HM; cbn [orb] in H1.
      { rewrite (proj2 (Hmode _)) in H1. discriminate. }
      auto.
    + destruct (Js.includes stdout "EOS" || Js.includes stdout "MJPG");
        rewrite (proj2 (Hmode _)) in H1; discriminate.
  - intros dp -> Hk. unfold DeviceManager.detectCanonR6.
    rewrite bool_decide_eq_true_2 by exact Hk. apply Hmode.
  - intros dp -> Hdp -> ->. unfold DeviceManager.detectCanonR6.
    destruct Hdp as [-> | ->];
      (rewrite bool_decide_eq_false_2 by
         (intros Hin; repeat (apply elem_of_cons in Hin; destruct Hin as [Hin|Hin];
                              [discriminate|]); apply elem_of_nil in Hin; exact Hin));
      cbn [andb]; apply Hmode.
Qed.

(** ** Trying the video nodes after a restart *)

Section Alternatives.
Import CameraService DeviceManager CameraController.
Variable E : Env.
Variable H : Host.
Variable allInfo : option string -> option string.

(** the verdict of [verifyDevice] does not depend on what was logged before *)
Lemma verifyDevice_verdict devicePath v v' :
  fst (verifyDevice H devicePath v) = fst (verifyDevice H devicePath v').
Proof.
  unfold verifyDevice.
  destruct (negb _); [reflexivity|].
  destruct (negb _); [reflexivity|].
  destruct (host_statSync H devicePath) as [|[|]]; try reflexivity.
  destruct (host_v4l2ctl H devicePath); reflexivity.
Qed.

Lemma verifyDevice_detects_cases devicePath m :
  verifyDevice_detects H (videoNodes E) allInfo devicePath m = m \/
  exists mode, verifyDevice_detects H (videoNodes E) allInfo devicePath m
               = setCameraMode mode m.
Proof.
  unfold verifyDevice_detects.
  destruct (negb _); [auto|].
  destruct (negb _); [auto|].
  destruct (host_statSync H devicePath) as [|[|]]; auto.
  destruct (host_v4l2ctl H devicePath) as [| |code output error|code output error]; auto;
    (destruct (closeVerdict code output error); [apply detectCanonR6_cases | auto]).
Qed.

Lemma verifyDevice_detects_keeps_running devicePath m :
  is_Some (reconnectionTimer m) ->
  is_Some (reconnectionTimer (verifyDevice_detects H (videoNodes E) allInfo devicePath m)).
Proof.
  intros Hm. destruct (verifyDevice_detects_cases devicePath m) as [-> | [mode ->]];
    [exact Hm|].
  apply callback_lost_running, setCameraMode_loses_callback, Hm.
Qed.

(** a verified capture device always leads to a mode change *)
Lemma verifyDevice_detects_capture devicePath code output error m :
  host_platform H = "linux" ->
  host_v4l2ctl H devicePath = Close code output error ->
  Js.includes output "Video Capture" = true ->
  fst (verifyDevice H devicePath ∅) = Ok true ->
  exists mode, verifyDevice_detects H (videoNodes E) allInfo devicePath m
               = setCameraMode mode m.
Proof.
  intros Hp Hctl Hcap. unfold verifyDevice, verifyDevice_detects. rewrite Hp. cbn [negb String.eqb].
  change (("linux" =? "linux")%string) with true. cbn [negb].
  destruct (negb (host_existsSync H devicePath)); [discriminate|].
  destruct (host_statSync H devicePath) as [|[|]]; try discriminate.
  rewrite Hctl. cbn [fst]. intros Hv. inversion Hv as [Hv']. rewrite Hv', Hcap.
  apply detectCanonR6_capture.
Qed.

(** the devices that do not verify are passed over: the facade is left
    bound to the last of them, nothing else changes *)
Lemma tryDevices_skip pre :
  forall c v m w,
    (forall x, x ∈ pre -> fst (verifyDevice H (Some x) ∅) = Ok false) ->
    exists v' m',
      (is_Some (reconnectionTimer m) -> is_Some (reconnectionTimer m')) /\
      forall rest,
        tryDevices E H allInfo (pre ++ rest) c v m w =
          tryDevices E H allInfo rest
            (match last pre with
             | Some d => set_identity (Some d) (cameraType c) (cameraModel c) c
             | None => c
             end) v' m' w.
Proof.
  induction pre as [|x pre IH]; intros c v m w Hpre.
  - exists v, m. split; [auto | reflexivity].
  - assert (Hx : fst (verifyDevice H (Some x) v) = Ok false).
    { rewrite (verifyDevice_verdict _ v ∅). apply Hpre. apply elem_of_cons. left. reflexivity. }
    destruct (IH (set_identity (Some x) (cameraType c) (cameraModel c) c)
                (snd (verifyDevice H (Some x) v))
                (verifyDevice_detects H (videoNodes E) allInfo (Some x) m) w)
      as (v' & m' & Hrun & Heq).
    { intros y Hy. apply Hpre. apply elem_of_cons. right. exact Hy. }
    exists v', m'. split.
    + intros Hm. apply Hrun, verifyDevice_detects_keeps_running, Hm.
    + intros rest. change ((x :: pre) ++ rest) with (x :: (pre ++ rest)).
      cbn [tryDevices].
      destruct (verifyDevice H (Some x) v) as [r v1]. cbn [fst snd] in *. subst r.
      rewrite Heq. destruct pre as [|y pre']; [reflexivity|].
      change (last (x :: y :: pre')) with (last (y :: pre')).
      destruct (last (y :: pre')) eqn:Hl; [reflexivity|].
      apply last_None in Hl. discriminate.
Qed.

(** the first device that verifies is bound and the stream started *)
Lemma tryDevices_hit d post c v m w :
  fst (verifyDevice H (Some d) ∅) = Ok true ->
  let c2 := set_connected true
              (set_identity (Some d) (Some "canon") (Some "Canon Camera (manual restart)")
                 (set_identity (Some d) (cameraType c) (cameraModel c) c)) in
  tryDevices E H allInfo (d :: post) c v m w =
    (fst (startCameraStream E c2 w), snd (verifyDevice H (Some d) v),
     verifyDevice_detects H (videoNodes E) allInfo (Some d) m,
     snd (startCameraStream E c2 w)).
Proof.
  intros Hd c2. cbn [tryDevices].
  pose proof (verifyDevice_verdict (Some d) v ∅) as Hv. rewrite Hd in Hv.
  destruct (verifyDevice H (Some d) v) as [r v1]. cbn [fst snd] in *. subst r.
  fold c2. destruct (startCameraStream E c2 w) as [c3 w3]. reflexivity.
Qed.

(** the loop, when the nodes before [d] fail and [d] verifies *)
Lemma tryDevices_first pre d c v m w :
  (forall x, x ∈ pre -> fst (verifyDevice H (Some x) ∅) = Ok false) ->
  fst (verifyDevice H (Some d) ∅) = Ok true ->
  exists c0 v0 m0,
    (is_Some (reconnectionTimer m) -> is_Some (reconnectionTimer m0)) /\
    forall post,
      tryDevices E H allInfo (pre ++ d :: post) c v m w =
        (let c2 := set_connected true
                     (set_identity (Some d) (Some "canon")
                        (Some "Canon Camera (manual restart)")
                        (set_identity (Some d) (cameraType c0) (cameraModel c0) c0)) in
         (fst (startCameraStream E c2 w), snd (verifyDevice H (Some d) v0),
          verifyDevice_detects H (videoNodes E) allInfo (Some d) m0,
          snd (startCameraStream E c2 w))).
Proof.
  intros Hpre Hd.
  destruct (tryDevices_skip pre c v m w Hpre) as (v0 & m0 & Hrun & Hskip).
  eexists _, v0, m0. split; [exact Hrun|].
  intros post. rewrite Hskip. apply tryDevices_hit, Hd.
Qed.

End Alternatives.

(** X27.  [tryAlternativeDevices] binds the first node of the /dev
    listing that verifies, and stops there.  When the nodes before [d] do
    not verify and [d] does, the facade ends up connected to [d] with type
    'canon' and model 'Canon Camera (manual restart)', whatever the camera
    is; exactly one call is made to the supervisor, a start with that
    identity; the nodes after [d] are not looked at. *)
Theorem tryAlternativeDevices_binds_first_verified (E : Env) (H : DeviceManager.Host)
    (allInfo : option string -> option string) (c : CameraService.Camera)
    (v : DeviceManager.Verified) (m : DeviceManager.Manager) (w : World)
    (pre post : list string) (d : string) :
  CameraController.videoNodes E = pre ++ d :: post ->
  (forall x, x ∈ pre -> fst (DeviceManager.verifyDevice H (Some x) ∅) = Ok false) ->
  fst (DeviceManager.verifyDevice H (Some d) ∅) = Ok true ->
  let out := CameraController.tryAlternativeDevices E H allInfo c v m w in
  let c' := fst (fst (fst out)) in
  CameraService.cameraConnected c' = true /\
  CameraService.v4l2Device c' = Some d /\
  CameraService.cameraType c' = Some "canon" /\
  CameraService.cameraModel c' = Some "Canon Camera (manual restart)" /\
  stream_calls (trace (snd out)) =
    stream_calls (trace w) ++
      [EvStartStream (Some d) (Some "canon") (Some "Canon Camera (manual restart)")] /\
  forall post',
    CameraController.tryDevices E H allInfo (pre ++ d :: post') c v m w = out.
Proof.
  intros Hlist Hpre Hd out c'.
  assert (Hd_truthy : Js.truthy (Some d) = true).
  { assert (Hin : d ∈ CameraController.videoNodes E).
    { rewrite Hlist. apply elem_of_app. right. apply elem_of_cons. left. reflexivity. }
    unfold CameraController.videoNodes in Hin. apply list_elem_of_fmap in Hin.
    destruct Hin as (x & -> & _). reflexivity. }
  destruct (tryDevices_first E H allInfo pre d c v m w Hpre Hd) as (c0 & v0 & m0 & _ & Hfirst).
  assert (Ho : out = CameraController.tryDevices E H allInfo (pre ++ d :: post) c v m w).
  { subst out. unfold CameraController.tryAlternativeDevices. rewrite Hlist. reflexivity. }
  assert (Hpost : forall post',
            CameraController.tryDevices E H allInfo (pre ++ d :: post') c v m w = out).
  { intros post'. rewrite Ho, !Hfirst. reflexivity. }
  subst c'. rewrite Ho, Hfirst. cbn zeta. cbn [fst snd].
  set (c2 := CameraService.set_connected true _).
  destruct (startCameraStream_calls E c2 w Hd_truthy) as (Hcalls & Hcon & Hv & Hty & Hmo).
  split; [exact Hcon|]. split; [exact Hv|]. split; [exact Hty|]. split; [exact Hmo|].
  split; [exact Hcalls|].
  intros post'. rewrite Hpost, Ho, Hfirst. reflexivity.
Qed.

(** X27 on a host whose only node is a capture device. *)
Lemma tryAlternativeDevices_binds_first_verified_witness :
  let out := CameraController.tryAlternativeDevices env_failing host_capture
               (fun _ => None) CameraService.new_camera ∅ DeviceManager.new_manager
               (init_world ∅) in
  CameraService.v4l2Device (fst (fst (fst out))) = Some "/dev/video0" /\
  CameraService.cameraModel (fst (fst (fst out))) = Some "Canon Camera (manual restart)".
Proof.
  intros out.
  destruct (tryAlternativeDevices_binds_first_verified env_failing host_capture
              (fun _ => None) CameraService.new_camera ∅ DeviceManager.new_manager
              (init_world ∅) [] [] "/dev/video0") as (_ & H2 & _ & H4 & _).
  - reflexivity.
  - intros x Hx. apply elem_of_nil in Hx. destruct Hx.
  - vm_compute; reflexivity.
  - split; [exact H2 | exact H4].
Defined.

(** X28.  When no node verifies, [tryAlternativeDevices] still leaves
    its mark: the facade stays as disconnected as it was and no call is
    made to the supervisor, but its device path is now the last node of
    the listing -- a node that has just failed verification -- while type
    and model are left as they were. *)
Theorem tryAlternativeDevices_none_verified (E : Env) (H : DeviceManager.Host)
    (allInfo : option string -> option string) (c : CameraService.Camera)
    (v : DeviceManager.Verified) (m : DeviceManager.Manager) (w : World) :
  (forall x, x ∈ CameraController.videoNodes E ->
     fst (DeviceManager.verifyDevice H (Some x) ∅) = Ok false) ->
  let out := CameraController.tryAlternativeDevices E H allInfo c v m w in
  let c' := fst (fst (fst out)) in
  snd out = w /\
  CameraService.cameraConnected c' = CameraService.cameraConnected c /\
  CameraService.cameraType c' = CameraService.cameraType c /\
  CameraService.cameraModel c' = CameraService.cameraModel c /\
  CameraService.v4l2Device c' =
    match last (CameraController.videoNodes E) with
    | Some d => Some d
    | None => CameraService.v4l2Device c
    end.
Proof.
  intros Hnone out c'.
  destruct (tryDevices_skip E H allInfo (CameraController.videoNodes E) c v m w Hnone)
    as (v0 & m0 & _ & Hskip).
  specialize (Hskip []). rewrite app_nil_r in Hskip.
  subst c' out. unfold CameraController.tryAlternativeDevices. rewrite Hskip.
  cbn [CameraController.tryDevices fst snd].
  destruct (last (CameraController.videoNodes E)); simpl; auto.
Qed.

(** X28 on a host whose only node fails verification. *)
Lemma tryAlternativeDevices_none_verified_witness :
  let out := CameraController.tryAlternativeDevices env_failing host_linux
               (fun _ => None) CameraService.new_camera ∅ DeviceManager.new_manager
               (init_world ∅) in
  CameraService.cameraConnected (fst (fst (fst out))) = false /\
  CameraService.v4l2Device (fst (fst (fst out))) = Some "/dev/video0".
Proof.
  intros out.
  destruct (tryAlternativeDevices_none_verified env_failing host_linux
              (fun _ => None) CameraService.new_camera ∅ DeviceManager.new_manager
              (init_world ∅)) as (_ & H2 & _ & _ & H5).
  - intros x Hx. unfold CameraController.videoNodes in Hx. simpl in Hx.
    apply list_elem_of_singleton in Hx. subst x. vm_compute; reflexivity.
  - split; [exact H2 | exact H5].
Defined.

(** X29.  A manual restart that falls back to the video nodes leaves the
    reconnection timer without its callback.  On a Linux host, when
    detection finds no camera during the re-initialization, the nodes
    before [d] do not verify and [d] verifies as a capture device: the
    facade ends up connected to [d], and the interval the device manager
    holds afterwards calls [undefined] -- the verification switched the
    camera mode, which restarted the timer that [init] had started with
    the poll as callback.  Every firing of that interval throws a
    TypeError and runs no reconnection check. *)
Theorem restart_leaves_timer_without_callback (E : Env) (H : DeviceManager.Host)
    (allInfo : option string -> option string) (result : CameraService.Detection)
    (c : CameraService.Camera) (v : DeviceManager.Verified) (m : DeviceManager.Manager)
    (w : World) (pre post : list string) (d : string) (code : Z) (output error : string) :
  CameraService.detected result = false ->
  CameraController.videoNodes E = pre ++ d :: post ->
  (forall x, x ∈ pre -> fst (DeviceManager.verifyDevice H (Some x) ∅) = Ok false) ->
  fst (DeviceManager.verifyDevice H (Some d) ∅) = Ok true ->
  DeviceManager.host_platform H = "linux" ->
  DeviceManager.host_v4l2ctl H (Some d) = DeviceManager.Close code output error ->
  Js.includes output "Video Capture" = true ->
  let out := CameraController.reinitialize E H allInfo result c v m w in
  let c' := fst (fst (fst out)) in
  let m' := snd (fst out) in
  CameraService.cameraConnected c' = true /\
  CameraService.v4l2Device c' = Some d /\
  callback_lost m' /\
  exists id iv,
    DeviceManager.reconnectionTimer m' = Some id /\
    DeviceManager.intervals m' !! id = Some iv /\
    DeviceManager.tick iv = Throw "TypeError: reconnectionCallback is not a function".
Proof.
  intros Hgone Hlist Hpre Hd Hlinux Hctl Hcap out c' m'.
  assert (Hlost : forall mm, callback_lost mm ->
            exists id iv,
              DeviceManager.reconnectionTimer mm = Some id /\
              DeviceManager.intervals mm !! id = Some iv /\
              DeviceManager.tick iv = Throw "TypeError: reconnectionCallback is not a function").
  { intros mm (id & iv & H1 & H2 & H3). exists id, iv. split; [exact H1|].
    split; [exact H2|]. unfold DeviceManager.tick. rewrite H3. reflexivity. }
  subst c' m' out. unfold CameraController.reinitialize.
  set (cw1 := if CameraService.cameraConnected c
              then CameraService.stopCameraStream c w else (c, w)).
  destruct cw1 as [c1 w1].
  unfold CameraLifecycle.init, CameraService.checkCameraAvailability. rewrite Hgone.
  cbn [negb fst snd].
  set (c3 := CameraService.set_connected false (CameraService.set_connected false _)).
  assert (Hc3 : CameraService.cameraConnected c3 = false) by reflexivity.
  rewrite Hc3. cbn [negb].
  set (m3 := DeviceManager.startReconnectionTimer _ m).
  assert (Hm3 : is_Some (DeviceManager.reconnectionTimer m3)).
  { subst m3. unfold DeviceManager.startReconnectionTimer. simpl. eauto. }
  destruct (tryDevices_first E H allInfo pre d c3 v m3 w1 Hpre Hd)
    as (c0 & v0 & m0 & Hrun & Hfirst).
  unfold CameraController.tryAlternativeDevices. rewrite Hlist, Hfirst.
  cbn zeta. cbn [fst snd].
  assert (Hd_truthy : Js.truthy (Some d) = true).
  { assert (Hin : d ∈ CameraController.videoNodes E).
    { rewrite Hlist. apply elem_of_app. right. apply elem_of_cons. left. reflexivity. }
    unfold CameraController.videoNodes in Hin. apply list_elem_of_fmap in Hin.
    destruct Hin as (x & -> & _). reflexivity. }
  set (c2 := CameraService.set_connected true _).
  destruct (startCameraStream_calls E c2 w1 Hd_truthy) as (_ & Hcon & Hv & _).
  split; [exact Hcon|]. split; [exact Hv|].
  destruct (verifyDevice_detects_capture E H allInfo (Some d) code output error m0
              Hlinux Hctl Hcap Hd) as [mode Hmode].
  assert (Hl : callback_lost
                 (DeviceManager.verifyDevice_detects H (CameraController.videoNodes E)
                    allInfo (Some d) m0)).
  { rewrite Hmode. apply setCameraMode_loses_callback, Hrun, Hm3. }
  split; [exact Hl | apply Hlost, Hl].
Qed.

(** X29 on a host whose only node is a capture device that detection
    missed: after the restart the one interval alive has no callback. *)
Lemma restart_leaves_timer_without_callback_witness :
  let out := CameraController.reinitialize env_failing host_capture (fun _ => None)
               (CameraService.mkDetection false None None None)
               CameraService.new_camera ∅ DeviceManager.new_manager (init_world ∅) in
  CameraService.cameraConnected (fst (fst (fst out))) = true /\
  callback_lost (snd (fst out)).
Proof.
  intros out.
  destruct (restart_leaves_timer_without_callback env_failing host_capture (fun _ => None)
              (CameraService.mkDetection false None None None)
              CameraService.new_camera ∅ DeviceManager.new_manager (init_world ∅)
              [] [] "/dev/video0" 0 "Capabilities: Video Capture" "")
    as (H1 & _ & H3 & _).
  - reflexivity.
  - reflexivity.
  - intros x Hx. apply elem_of_nil in Hx. destruct Hx.
  - vm_compute; reflexivity.
  - reflexivity.
  - reflexivity.
  - vm_compute; reflexivity.
  - split; [exact H1 | exact H3].
Defined.

(** ** Processing the captured photo *)

(** closes a case in which the photo stays on the local disk *)
Ltac stays_local R w2 Hfiles :=
  exists R, w2; split; [reflexivity|]; repeat (split; [reflexivity|]);
  intros _ _; exact Hfiles.

Section Processing.
Import ImageProcessing.
Variable E : Env.
Variable C : Cloud.

Lemma addWatermark_keeps lp w :
  exists w1,
    addWatermark C lp w = (Ok tt, w1) /\
    (is_Some (files w1 !! lp) <-> is_Some (files w !! lp)) /\
    trace w1 = trace w.
Proof.
  unfold addWatermark. destruct (files w !! lp) as [c|] eqn:Hc.
  - destruct (watermark C c) as [c'|].
    + eexists. split; [reflexivity|]. simpl. rewrite lookup_insert_eq.
      split; [split; eauto | reflexivity].
    + exists w. rewrite ?Hc. split; [reflexivity|]. split; reflexivity.
  - exists w. rewrite ?Hc. split; [reflexivity|]. split; reflexivity.
Qed.

(** everything [processPhoto] can do *)
Lemma processPhoto_cases (lp fn : string) (awsAvailable : bool)
    (cameraType cameraModel : option string) (w : World) :
  let pp := publicPathOf E fn in
  let uploaded :=
    awsAvailable && credentials C && publicDirReady C && existsSync lp w &&
    bool_decide (is_Some (upload C)) && bool_decide (is_Some (signed C)) in
  exists r w',
    processPhoto E C lp fn awsAvailable cameraType cameraModel w = (Ok r, w') /\
    filename r = fn /\
    if uploaded then
      awsStatus r = "available" /\
      imageUrl r = base C +:+ "/api/photo/view/" +:+ fn /\
      signedUrl r = signed C /\
      files w' !! lp = None /\
      files w' !! pp = None
    else
      awsStatus r = "unavailable" /\
      imageUrl r = base C +:+ "/captures/" +:+ fn /\
      signedUrl r = None /\
      (publicDirReady C = true -> existsSync lp w = true ->
       is_Some (files w' !! lp) /\ files w' !! pp = files w' !! lp).
Proof.
  intros pp uploaded. subst uploaded.
  unfold processPhoto. fold pp.
  unfold try_catch at 1. unfold bind at 1.
  destruct (addWatermark_keeps lp w) as (w1 & -> & Hex & _).
  assert (Hex' : existsSync lp w1 = existsSync lp w).
  { unfold existsSync. apply bool_decide_ext. exact Hex. }
  rewrite <- Hex'. clear Hex Hex'.
  assert (Hlocal : forall w0 : World,
            processPhotoLocally C lp pp fn cameraType cameraModel w0 =
              (Ok (mkProcessed None (base C +:+ "/captures/" +:+ fn) None fn "unavailable"
                     (Some lp) (Some pp) cameraType cameraModel), w0))
    by reflexivity.
  destruct (publicDirReady C) eqn:Hdir.
  2:{ rewrite !andb_false_r. cbn [andb]. unfold bind, ret, throw. rewrite Hlocal.
      do 2 eexists. split; [reflexivity|]. cbn. repeat (split; [reflexivity|]).
      discriminate. }
  rewrite andb_true_r.
  unfold bind at 1. unfold ret at 1. unfold bind at 1. unfold copyFileSync at 1.
  unfold existsSync at 1.
  destruct (files w1 !! lp) as [c|] eqn:Hc.
  2:{ rewrite (bool_decide_eq_false_2 (is_Some None)) by (intros [x Hx]; discriminate).
      rewrite andb_false_r. cbn [andb]. rewrite Hlocal.
      do 2 eexists. split; [reflexivity|]. cbn. repeat (split; [reflexivity|]).
      intros _ Hx. unfold existsSync in Hx. rewrite Hc in Hx.
      apply bool_decide_eq_true in Hx. destruct Hx as [x Hx]. discriminate. }
  rewrite (bool_decide_eq_true_2 (is_Some (Some c))) by eauto. rewrite andb_true_r.
  set (w2 := set_trace _ (set_files _ w1)).
  assert (Hlp2 : files w2 !! lp = Some c).
  { subst w2. simpl. destruct (decide (pp = lp)) as [->|Hne];
      [apply lookup_insert_eq | rewrite lookup_insert_ne by exact Hne; exact Hc]. }
  assert (Hpp2 : files w2 !! pp = Some c) by (subst w2; simpl; apply lookup_insert_eq).
  set (R := mkProcessed None (base C +:+ "/captures/" +:+ fn) None fn "unavailable"
              (Some lp) (Some pp) cameraType cameraModel) in *.
  assert (Hfiles : is_Some (files w2 !! lp) /\ files w2 !! pp = files w2 !! lp)
    by (rewrite Hlp2, Hpp2; eauto).
  destruct awsAvailable; cbn [andb];
    [|rewrite Hlocal; stays_local R w2 Hfiles].
  unfold processPhotoForAWS.
  destruct (credentials C) eqn:Hcred; cbn [andb negb];
    [|rewrite Hlocal; stays_local R w2 Hfiles].
  unfold try_catch at 1. unfold bind at 1. unfold get at 1. unfold existsSync at 1.
  rewrite Hlp2. rewrite (bool_decide_eq_true_2 (is_Some (Some c))) by eauto.
  unfold bind at 1. unfold ret at 1.
  destruct (upload C) as [location|] eqn:Hup.
  2:{ rewrite (bool_decide_eq_false_2 (is_Some None)) by (intros [x Hx]; discriminate).
      cbn [andb throw]. rewrite Hlocal; stays_local R w2 Hfiles. }
  rewrite (bool_decide_eq_true_2 (is_Some (Some location))) by eauto. cbn [andb].
  destruct (signed C) as [url|] eqn:Hsig.
  2:{ rewrite (bool_decide_eq_false_2 (is_Some None)) by (intros [x Hx]; discriminate).
      cbn [throw]. rewrite Hlocal; stays_local R w2 Hfiles. }
  rewrite (bool_decide_eq_true_2 (is_Some (Some url))) by eauto.
  clear Hfiles.
  unfold bind at 1. unfold try_catch at 1. unfold bind at 1.
  unfold unlinkSync at 1. rewrite Hlp2.
  set (w3 := set_files (delete lp (files w2)) w2).
  unfold bind at 1. unfold get at 1. unfold existsSync at 1.
  destruct (decide (pp = lp)) as [Heq|Hne].
  - rewrite (bool_decide_eq_true_2 (pp = lp)) by exact Heq. cbn [negb andb].
    cbn. do 2 eexists. split; [reflexivity|]. cbn. repeat (split; [reflexivity|]).
    rewrite Heq. split; apply lookup_delete_eq.
  - rewrite (bool_decide_eq_false_2 (pp = lp)) by exact Hne. cbn [negb andb].
    assert (Hpp3 : files w3 !! pp = Some c).
    { subst w3. simpl. rewrite lookup_delete_ne by congruence. exact Hpp2. }
    rewrite Hpp3. rewrite (bool_decide_eq_true_2 (is_Some (Some c))) by eauto.
    unfold unlinkSync. rewrite Hpp3.
    cbn. do 2 eexists. split; [reflexivity|]. cbn. repeat (split; [reflexivity|]).
    split.
    + rewrite lookup_delete_ne by exact Hne. apply lookup_delete_eq.
    + apply lookup_delete_eq.
Qed.

End Processing.

(** X30.  Processing a photo never fails, and tells through [awsStatus]
    where the photo went.  Whatever the storage side does, [processPhoto]
    resolves to a result for the given file name.  The result says
    'available' exactly when AWS was requested and configured, the photo
    could be copied to public/captures, and both the upload and the
    signing of the URL succeeded; then the image URL is the proxy URL
    under /api/photo/view/ and both local files -- the capture and its
    public copy -- have been deleted.  In every other case, also when the
    upload succeeded and only the signing failed, the result says
    'unavailable' with the URL under /captures/, and when the copy could
    be made the public copy holds the (watermarked) photo. *)
Theorem processPhoto_never_fails (E : Env) (C : ImageProcessing.Cloud)
    (lp fn : string) (awsAvailable : bool) (cameraType cameraModel : option string)
    (w : World) :
  let pp := ImageProcessing.publicPathOf E fn in
  let out := ImageProcessing.processPhoto E C lp fn awsAvailable cameraType cameraModel w in
  let uploaded :=
    awsAvailable && ImageProcessing.credentials C && ImageProcessing.publicDirReady C &&
    existsSync lp w &&
    bool_decide (is_Some (ImageProcessing.upload C)) &&
    bool_decide (is_Some (ImageProcessing.signed C)) in
  exists r,
    fst out = Ok r /\
    ImageProcessing.filename r = fn /\
    if uploaded then
      ImageProcessing.awsStatus r = "available" /\
      ImageProcessing.imageUrl r = ImageProcessing.base C +:+ "/api/photo/view/" +:+ fn /\
      ImageProcessing.signedUrl r = ImageProcessing.signed C /\
      files (snd out) !! lp = None /\
      files (snd out) !! pp = None
    else
      ImageProcessing.awsStatus r = "unavailable" /\
      ImageProcessing.imageUrl r = ImageProcessing.base C +:+ "/captures/" +:+ fn /\
      ImageProcessing.signedUrl r = None /\
      (ImageProcessing.publicDirReady C = true -> existsSync lp w = true ->
       is_Some (files (snd out) !! lp) /\
       files (snd out) !! pp = files (snd out) !! lp).
Proof.
  intros pp out uploaded.
  destruct (processPhoto_cases E C lp fn awsAvailable cameraType cameraModel w)
    as (r & w' & Hout & Hfn & Hcase).
  exists r. subst out. rewrite Hout. cbn [fst snd].
  split; [reflexivity|]. split; [exact Hfn|]. exact Hcase.
Qed.
